(** * OpenAPI generator: the three route analyzers and their document builders

    A shallow embedding of
      scripts/fastapi-analyzer.py, scripts/flask-analyzer.py and
      scripts/spring-analyzer.py
    of the openapi-generator skill, with the properties of the extracted
    API description stated and proved over it.

    Conventions of the embedding.
    - Python [str] values are [string]s of 8-bit characters; the character
      classes of [re] and of [str.lower], [str.strip], ... are the ASCII ones
      (source text is taken to be ASCII).
    - A Python scalar that may be of several types (the [value] of an
      [ast.Constant], a field of an endpoint dict) is a [pyval]: [None], a
      [str], an [int] or a [bool].  Constants of the other kinds ([bytes],
      [float], [complex], [Ellipsis]) are not part of the embedding, and
      what is stated of a value that is not a string is stated of [None],
      [int] and [bool].
    - An exception is the [Raise] outcome of the [result] monad; the
      [try]/[except] of [_analyze_file] is where it is caught.
    - A [dict] is an association list kept in insertion order, as CPython
      iterates it (and as [json.dumps] prints it). *)

From Stdlib Require Import Ascii String List Bool Arith Lia ZArith Sorted.
From Equations Require Import Equations.
Import ListNotations.

Set Warnings "-register-all".

Open Scope list_scope.
Open Scope string_scope.

(* ===================================================================== *)
(** ** Python values, exceptions, strings, dicts *)
(* ===================================================================== *)

Module Py.

(** A Python scalar: the [None], [str], [int] and [bool] values an
    [ast.Constant.value] can hold and that end up in the fields of an
    endpoint.  ([bytes], [float], [complex] and [Ellipsis] constants are
    outside the embedding.) *)
Inductive pyval : Type :=
| PyNone
| PyStr (s : string)
| PyInt (z : Z)
| PyBool (b : bool).

(** Truthiness as used by [or], [if x:] and [not x]. *)
Definition truthy (v : pyval) : bool :=
  match v with
  | PyNone => false
  | PyStr s => negb (String.eqb s "")
  | PyInt z => negb (Z.eqb z 0)
  | PyBool b => b
  end.

Definition is_str (v : pyval) : bool :=
  match v with PyStr _ => true | _ => false end.

(** The exceptions the analyzers can meet. *)
Inductive exn : Type :=
| AttributeError      (* attribute missing on the object, e.g. [5 .replace] *)
| TypeError.          (* e.g. ['{x}' in 5] *)

Inductive result (A : Type) : Type :=
| Ok (a : A)
| Raise (e : exn).
Arguments Ok {A} a.
Arguments Raise {A} e.

Definition bind {A B} (m : result A) (f : A -> result B) : result B :=
  match m with
  | Ok a => f a
  | Raise e => Raise e
  end.

Declare Scope py_scope.
Delimit Scope py_scope with py.
Notation "x <- m ;; k" := (bind m (fun x => k))
  (at level 61, m at next level, right associativity) : py_scope.
Notation "' pat <- m ;; k" := (bind m (fun pat => k))
  (at level 61, pat pattern, m at next level, right associativity) : py_scope.

(** [for x in xs: st = body(x, st)] where the body may raise. *)
Definition for_each {A S} (body : A -> S -> result S)
  : list A -> S -> result S :=
  fix go (xs : list A) (st : S) : result S :=
    match xs with
    | [] => Ok st
    | x :: xs' => bind (body x st) (go xs')
    end.

(** *** Characters *)

Definition char_between (lo hi c : ascii) : bool :=
  Nat.leb (nat_of_ascii lo) (nat_of_ascii c) &&
  Nat.leb (nat_of_ascii c) (nat_of_ascii hi).

Definition is_upper (c : ascii) : bool := char_between "A" "Z" c.
Definition is_lower (c : ascii) : bool := char_between "a" "z" c.
Definition is_alpha (c : ascii) : bool := is_upper c || is_lower c.
Definition is_digit (c : ascii) : bool := char_between "0" "9" c.

(** [\w] *)
Definition is_word (c : ascii) : bool :=
  is_alpha c || is_digit c || Ascii.eqb c "_".

(** [\s], which is also what [str.split()] and [str.strip()] remove:
    tab, LF, VT, FF, CR, the separators 0x1c-0x1f and the space. *)
Definition is_space (c : ascii) : bool :=
  let n := nat_of_ascii c in
  (Nat.leb 9 n && Nat.leb n 13) || (Nat.leb 28 n && Nat.leb n 32).

Definition to_lower (c : ascii) : ascii :=
  if is_upper c then ascii_of_nat (nat_of_ascii c + 32) else c.
Definition to_upper (c : ascii) : ascii :=
  if is_lower c then ascii_of_nat (nat_of_ascii c - 32) else c.

(** *** Strings *)

Fixpoint map_chars (f : ascii -> ascii) (s : string) : string :=
  match s with
  | EmptyString => EmptyString
  | String c s' => String (f c) (map_chars f s')
  end.

(** [s.lower()], [s.upper()] *)
Definition lower : string -> string := map_chars to_lower.
Definition upper : string -> string := map_chars to_upper.

(** [s.replace(a, b)] for one-character [a] and [b]. *)
Definition replace_char (a b : ascii) : string -> string :=
  map_chars (fun c => if Ascii.eqb c a then b else c).

(** [s.title()]: the first letter of every run of letters in upper case,
    the others in lower case. *)
Fixpoint title_from (prev_cased : bool) (s : string) : string :=
  match s with
  | EmptyString => EmptyString
  | String c s' =>
      String (if prev_cased then to_lower c else to_upper c)
             (title_from (is_alpha c) s')
  end.
Definition title : string -> string := title_from false.

(** [s.startswith(p)] *)
Fixpoint startswith (p s : string) : bool :=
  match p, s with
  | EmptyString, _ => true
  | String a p', String b s' => Ascii.eqb a b && startswith p' s'
  | String _ _, EmptyString => false
  end.

(** [sub in s] *)
Fixpoint contains (sub s : string) : bool :=
  startswith sub s ||
  match s with
  | EmptyString => false
  | String _ s' => contains sub s'
  end.

(** The longest prefix of characters in the class [p], and what follows. *)
Fixpoint span (p : ascii -> bool) (s : string) : string * string :=
  match s with
  | EmptyString => (EmptyString, EmptyString)
  | String c s' =>
      if p c then let (a, b) := span p s' in (String c a, b)
      else (EmptyString, s)
  end.

Definition lstrip_class (p : ascii -> bool) (s : string) : string :=
  snd (span p s).

(** All the characters of a string are in a class. *)
Fixpoint all_chars (p : ascii -> bool) (s : string) : bool :=
  match s with
  | EmptyString => true
  | String c s' => p c && all_chars p s'
  end.

(** The first character of a string is not in a class. *)
Definition head_not (p : ascii -> bool) (s : string) : Prop :=
  match s with
  | EmptyString => True
  | String c _ => p c = false
  end.

(** Removal of the trailing characters of the class [p]. *)
Fixpoint rstrip_class (p : ascii -> bool) (s : string) : string :=
  match s with
  | EmptyString => EmptyString
  | String c s' =>
      match rstrip_class p s' with
      | EmptyString => if p c then EmptyString else String c EmptyString
      | t => String c t
      end
  end.


(** [s.rstrip(c)], [s.strip(c)] for a one-character set, [s.strip()] *)
Definition rstrip_char (c : ascii) : string -> string :=
  rstrip_class (Ascii.eqb c).
Definition strip_char (c : ascii) (s : string) : string :=
  rstrip_class (Ascii.eqb c) (lstrip_class (Ascii.eqb c) s).
Definition strip (s : string) : string :=
  rstrip_class is_space (lstrip_class is_space s).

(** [s.split(sep)] for a one-character separator: never empty, keeps empty
    fields. *)
Fixpoint split_char (sep : ascii) (s : string) : list string :=
  match s with
  | EmptyString => [EmptyString]
  | String c s' =>
      if Ascii.eqb c sep then EmptyString :: split_char sep s'
      else match split_char sep s' with
           | [] => [String c EmptyString]
           | w :: ws => String c w :: ws
           end
  end.

(** [s.split()]: the maximal runs of non-space characters. [cur] is the run
    being read, if any. *)
Fixpoint split_ws_from (cur : option string) (s : string) : list string :=
  match s with
  | EmptyString => match cur with Some w => [w] | None => [] end
  | String c s' =>
      if is_space c
      then match cur with
           | Some w => w :: split_ws_from None s'
           | None => split_ws_from None s'
           end
      else split_ws_from
             (Some (match cur with Some w => w ++ String c "" | None => String c "" end))
             s'
  end.
Definition split_ws : string -> list string := split_ws_from None.

(** [sep.join(xs)] *)
Fixpoint join (sep : string) (xs : list string) : string :=
  match xs with
  | [] => EmptyString
  | [x] => x
  | x :: xs' => x ++ sep ++ join sep xs'
  end.

(** [x in xs] for a list of strings *)
Definition str_in (x : string) (xs : list string) : bool :=
  existsb (String.eqb x) xs.

(** *** Dicts with string keys, in insertion order *)

Definition dict (V : Type) : Type := list (string * V).

Fixpoint dict_get {V} (k : string) (d : dict V) : option V :=
  match d with
  | [] => None
  | (k', v) :: d' => if String.eqb k k' then Some v else dict_get k d'
  end.

Definition dict_has {V} (k : string) (d : dict V) : bool :=
  match dict_get k d with Some _ => true | None => false end.

(** [d[k] = v]: an existing key keeps its place and takes the new value; a
    new key goes last. *)
Fixpoint dict_set {V} (k : string) (v : V) (d : dict V) : dict V :=
  match d with
  | [] => [(k, v)]
  | (k', v') :: d' =>
      if String.eqb k k' then (k', v) :: d' else (k', v') :: dict_set k v d'
  end.

Definition dict_keys {V} (d : dict V) : list string := map fst d.

(** [d.update(e)] *)
Definition dict_update {V} (d e : dict V) : dict V :=
  fold_left (fun acc kv => dict_set (fst kv) (snd kv) acc) e d.

End Py.

(* ===================================================================== *)
(** ** The fragment of [re] the analyzers use *)
(* ===================================================================== *)

(** A backtracking matcher with CPython's priorities: alternatives are tried
    left to right, [?], [*] and [+] are greedy and give characters back one
    at a time, and the first way to match the whole pattern wins.  The
    repetitions [*] and [+] are over one character class, which is all the
    patterns of the three analyzers need. *)
Module Re.
Import Py.

Inductive regex : Type :=
| Eps
| Chr (p : ascii -> bool)           (* one character of the class *)
| Seq (r1 r2 : regex)
| Alt (r1 r2 : regex)               (* r1|r2 *)
| Opt (r : regex)                   (* r? *)
| Star (p : ascii -> bool)          (* [class]* *)
| Plus (p : ascii -> bool)          (* [class]+ *)
| Group (n : nat) (r : regex).      (* the capturing group number n *)

(** The groups that took part in the match, most recent first. *)
Definition captures : Type := list (nat * string).

Fixpoint group (n : nat) (caps : captures) : option string :=
  match caps with
  | [] => None
  | (m, s) :: caps' => if Nat.eqb n m then Some s else group n caps'
  end.

(** What [findall] and a [\n] of a replacement template give for group [n]:
    the empty string when the group did not take part. *)
Definition group_or_empty (n : nat) (caps : captures) : string :=
  match group n caps with Some s => s | None => "" end.

(** The first [n] characters of [s]. *)
Fixpoint take (n : nat) (s : string) : string :=
  match n, s with
  | S n', String c s' => String c (take n' s')
  | _, _ => ""
  end.

(** The part of [s] read when [rest] is what is left of it. *)
Definition consumed (s rest : string) : string :=
  take (String.length s - String.length rest) s.

(** Greedy run over the class [p]: longest first, then shorter. *)
Fixpoint star_run {A} (p : ascii -> bool) (s : string)
         (k : string -> option A) : option A :=
  match s with
  | String c s' =>
      if p c
      then match star_run p s' k with
           | Some x => Some x
           | None => k s
           end
      else k s
  | EmptyString => k s
  end.

(** [exec r s caps k]: match [r] at the start of [s], then go on with the
    continuation [k] on what is left; a failing continuation makes the
    matcher try its next choice. *)
Fixpoint exec {A} (r : regex) (s : string) (caps : captures)
         (k : string -> captures -> option A) : option A :=
  match r with
  | Eps => k s caps
  | Chr p =>
      match s with
      | String c s' => if p c then k s' caps else None
      | EmptyString => None
      end
  | Seq r1 r2 => exec r1 s caps (fun s1 caps1 => exec r2 s1 caps1 k)
  | Alt r1 r2 =>
      match exec r1 s caps k with
      | Some x => Some x
      | None => exec r2 s caps k
      end
  | Opt r1 =>
      match exec r1 s caps k with
      | Some x => Some x
      | None => k s caps
      end
  | Star p => star_run p s (fun s' => k s' caps)
  | Plus p =>
      match s with
      | String c s' => if p c then star_run p s' (fun s' => k s' caps) else None
      | EmptyString => None
      end
  | Group n r1 =>
      exec r1 s caps (fun s' caps' => k s' ((n, consumed s s') :: caps'))
  end.

(** [re.match(r, s)]: the groups and the text after the match. *)
Definition re_match (r : regex) (s : string) : option (captures * string) :=
  exec r s [] (fun rest caps => Some (caps, rest)).

(** [re.search(r, s)]: the leftmost position where [r] matches. *)
Fixpoint search (r : regex) (s : string) : option (captures * string) :=
  match re_match r s with
  | Some m => Some m
  | None =>
      match s with
      | EmptyString => None
      | String _ s' => search r s'
      end
  end.

(** The scan shared by [re.findall] and [re.sub]: the text cut into the
    characters no match covers and the successive non-overlapping matches.
    Every pattern given to [findall] or [sub] in the analyzers has a
    mandatory character ([nullable] is false of it), so a match always reads
    at least one character ([re_match_progress] below); a match that reads
    nothing is not among the cases and is stepped over. *)
Inductive piece : Type :=
| Lit (c : ascii)
| Hit (caps : captures).

Equations scan (r : regex) (s : string) : list piece
  by wf (String.length s) lt :=
scan r EmptyString := [];
scan r (String c s') with re_match r (String c s') := {
  | Some (caps, rest)
      with lt_dec (String.length rest) (String.length (String c s')) := {
      | left _ => Hit caps :: scan r rest
      | right _ => Lit c :: scan r s' };
  | None => Lit c :: scan r s' }.

(** [re.findall(r, s)] for a pattern with two groups. *)
Fixpoint hits2 (ps : list piece) : list (string * string) :=
  match ps with
  | [] => []
  | Lit _ :: ps' => hits2 ps'
  | Hit caps :: ps' => (group_or_empty 1 caps, group_or_empty 2 caps) :: hits2 ps'
  end.
Definition findall2 (r : regex) (s : string) : list (string * string) :=
  hits2 (scan r s).

(** [re.sub(r, repl, s)], the template [repl] as a function of the groups. *)
Fixpoint rebuild (repl : captures -> string) (ps : list piece) : string :=
  match ps with
  | [] => ""
  | Lit c :: ps' => String c (rebuild repl ps')
  | Hit caps :: ps' => repl caps ++ rebuild repl ps'
  end.
Definition sub (r : regex) (repl : captures -> string) (s : string) : string :=
  rebuild repl (scan r s).

(** Whether a pattern can match without reading a character. *)
Fixpoint nullable (r : regex) : bool :=
  match r with
  | Eps => true
  | Chr _ => false
  | Seq r1 r2 => nullable r1 && nullable r2
  | Alt r1 r2 => nullable r1 || nullable r2
  | Opt _ => true
  | Star _ => true
  | Plus _ => false
  | Group _ r1 => nullable r1
  end.

(** *** Pattern syntax *)

Definition chr (c : ascii) : regex := Chr (Ascii.eqb c).
Definition not_chr (c : ascii) : ascii -> bool := fun x => negb (Ascii.eqb x c).

(** A literal word. *)
Fixpoint lit (s : string) : regex :=
  match s with
  | EmptyString => Eps
  | String c s' => Seq (chr c) (lit s')
  end.

(** [r1 r2 ... rn] *)
Fixpoint seq (rs : list regex) : regex :=
  match rs with
  | [] => Eps
  | [r] => r
  | r :: rs' => Seq r (seq rs')
  end.

(** [r1|r2|...|rn] *)
Fixpoint alt (rs : list regex) : regex :=
  match rs with
  | [] => Chr (fun _ => false)
  | [r] => r
  | r :: rs' => Alt r (alt rs')
  end.

End Re.

(* ===================================================================== *)
(** ** The part of Python's [ast] the two decorator analyzers read *)
(* ===================================================================== *)

Module Ast.
Import Py.

Inductive expr : Type :=
| Constant (value : pyval)
| Name (id : string)
| Attribute (value : expr) (attr : string)
| Call (lineno : nat) (func : expr) (args : list expr)
       (keywords : list (option string * expr))   (* (keyword.arg, keyword.value) *)
| ListExpr (elts : list expr)                      (* ast.List *)
| Subscript (value : expr) (slice : expr)
| OtherExpr.                                       (* any other expression *)

(** [ast.arg] *)
Record arg : Type := {
  arg_name : string;                 (* arg.arg *)
  arg_annotation : option expr;
}.

(** The fields of an [ast.FunctionDef] other than its body. *)
Record funcdef : Type := {
  fn_name : string;
  fn_args : list arg;                (* node.args.args *)
  fn_defaults : list expr;           (* node.args.defaults *)
  fn_decorator_list : list expr;
  fn_returns : option expr;
  fn_lineno : nat;
}.

Inductive stmt : Type :=
| FunctionDef (node : funcdef) (body : list stmt)
| ClassDef (name : string) (decorator_list : list expr) (body : list stmt)
| Assign (targets : list expr) (value : expr)
| Expr (value : expr)
| OtherStmt (body : list stmt).
    (* any other statement (if, for, with, try, async def, ...) with the
       statements nested in it, in the order [generic_visit] meets them *)

(** What [open(...).read()] and [ast.parse] give for a file. *)
Inductive source : Type :=
| Unreadable                                      (* open/read raises *)
| Unparseable (content : string)                  (* ast.parse raises SyntaxError *)
| Module (content : string) (body : list stmt).

(** A line written on stderr. *)
Inductive warning : Type :=
| CouldNotParse (file_path : string)
| ErrorAnalyzing (file_path : string).


(** [xs[-n:]] *)
Definition last_n {A} (n : nat) (xs : list A) : list A :=
  match n with
  | 0 => xs                                        (* xs[-0:] is xs[0:] *)
  | _ => skipn (List.length xs - n) xs
  end.

(** [str == node] for an AST node: [str.__eq__] does not know the node and
    the node classes keep [object.__eq__] (identity), so it is [False]. *)
Definition str_eq_node {N : Type} (s : string) (node : N) : bool := false.

(** [k in d] and [d[k]] for a [str] key [k] and a dict [d] whose keys are
    AST nodes (given as the list of its items). *)
Definition node_dict_get {N V : Type} (k : string) (d : list (N * V)) : option V :=
  match find (fun kv => str_eq_node k (fst kv)) d with
  | Some kv => Some (snd kv)
  | None => None
  end.

End Ast.

(* ===================================================================== *)
(** ** What the document builders share *)
(* ===================================================================== *)

Module OpenAPI.
Import Py.

(** The schema dicts of parameters and responses:
    [{'type': t, 'items': ..., 'nullable': True, 'default': ...}], the last
    three keys being optional. *)
Inductive schema : Type :=
| Schema (type : string) (items : option schema) (nullable : bool)
         (default : option pyval).

Definition schema_type (s : schema) : string :=
  match s with Schema t _ _ _ => t end.

Definition simple (t : string) : schema := Schema t None false None.

(** [{'name': ..., 'in': ..., 'required': ..., 'schema': ...}]; the Spring
    analyzer writes no ['required'] key. *)
Record parameter : Type := {
  p_name : string;
  p_in : string;
  p_required : option bool;
  p_schema : schema;
}.

(** [{'200': {'description': d, 'content': {'application/json':
    {'schema': s}}}}], the ['content'] key being optional. *)
Record responses : Type := {
  r200_description : string;
  r200_schema : option schema;
}.

(** [info] as [main] gives it ([None]) or a caller's dict. *)
Record info : Type := {
  info_title : string;
  info_version : string;
  info_description : string;
}.

(** The returned document, for an operation type [Op] and the type [Sch]
    of the entries of [components.schemas]. *)
Record document (Op Sch : Type) : Type := {
  openapi : string;
  doc_info : info;
  paths : dict (dict Op);
  components_schemas : dict Sch;
}.
Arguments openapi {Op Sch} _.
Arguments doc_info {Op Sch} _.
Arguments paths {Op Sch} _.
Arguments components_schemas {Op Sch} _.

(** The two statements every [generate_openapi] ends its loop body with:
<<
    if path_key not in paths: paths[path_key] = {}
    ...
    paths[path_key][method] = operation
>> *)
Definition put_operation {Op} (path_key method : string) (operation : Op)
           (paths : dict (dict Op)) : dict (dict Op) :=
  let paths1 := if dict_has path_key paths then paths
                else dict_set path_key [] paths in
  match dict_get path_key paths1 with
  | Some methods => dict_set path_key (dict_set method operation methods) paths1
  | None => paths1
  end.

(** One turn of the loop of [generate_openapi]: [entry] computes the key of
    the path, the key of the method and the operation of an endpoint, or
    raises. *)
Definition put_entry {E Op} (entry : E -> result (string * string * Op))
           (e : E) (paths : dict (dict Op)) : result (dict (dict Op)) :=
  match entry e with
  | Ok (path_key, method, operation) =>
      Ok (put_operation path_key method operation paths)
  | Raise x => Raise x
  end.

(** [paths[path][method]] of a document *)
Definition operation_at {Op} (path method : string) (paths : dict (dict Op))
  : option Op :=
  match dict_get path paths with
  | Some methods => dict_get method methods
  | None => None
  end.

(** Every path and, under a path, every method is there once. *)
Definition unique_entries {Op} (paths : dict (dict Op)) : Prop :=
  NoDup (dict_keys paths) /\
  forall p methods, In (p, methods) paths -> NoDup (dict_keys methods).

(** The number of (path, method) entries. *)
Definition entry_count {Op} (paths : dict (dict Op)) : nat :=
  list_sum (map (fun pm => List.length (snd pm)) paths).

End OpenAPI.

(* ===================================================================== *)
(** ** fastapi-analyzer.py *)
(* ===================================================================== *)

Module FastAPI.
Import Py Ast OpenAPI.
#[local] Open Scope py_scope.

(** The dict [visit_FunctionDef] appends to [self.endpoints]. *)
Record endpoint : Type := {
  method : pyval;
  path : pyval;
  file : string;
  line : nat;
  function : string;
  summary : pyval;
  description : pyval;
  tags : list pyval;
  parameters : list parameter;
  responses : OpenAPI.responses;
  request_body : option string;      (* the ['$ref'] of the body schema *)
  security : list pyval;
}.

(** [FastAPIVisitor] *)
Record visitor : Type := {
  file_path : string;
  content : string;
  endpoints : list endpoint;
  schemas : dict schema;
  current_class : option string;
  router_prefix : pyval;
}.

Definition new_visitor (file_path content : string) : visitor :=
  {| file_path := file_path; content := content; endpoints := [];
     schemas := []; current_class := None; router_prefix := PyStr "" |}.

Definition http_verbs : list string :=
  ["get"; "post"; "put"; "delete"; "patch"; "options"; "head"; "trace"].

Fixpoint first_route_decorator (decorator_list : list expr) : option expr :=
  match decorator_list with
  | [] => None
  | decorator :: rest =>
      match decorator with
      | Call _ (Attribute _ attr) _ _ =>
          if str_in attr http_verbs then Some decorator
          else first_route_decorator rest
      | Call _ (Name id) _ _ =>
          if str_in id http_verbs then Some decorator
          else first_route_decorator rest
      | _ => first_route_decorator rest
      end
  end.

Definition _get_route_decorator (node : funcdef) : option expr :=
  first_route_decorator (fn_decorator_list node).

(** The double quote character. *)
Definition dquote : ascii := ascii_of_nat 34.

(** The triple-quote test of [_extract_docstring]. *)
Definition has_triple_quote (l : string) : bool :=
  contains (String dquote (String dquote (String dquote EmptyString))) l
  || contains "'''" l.

Definition _extract_docstring (content : string) (lineno : nat) : pyval :=
  let lines := split_char "010" content in
  if Nat.ltb lineno (List.length lines)
  then match find has_triple_quote (firstn 10 (skipn lineno lines)) with
       | Some l => PyStr (strip_char "'" (strip_char dquote (strip l)))
       | None => PyNone
       end
  else PyNone.

(** One turn of [for keyword in decorator.keywords] in
    [_parse_route_decorator], on (summary, description, tags). *)
Definition metadata_step (st : pyval * pyval * list pyval)
           (keyword : option string * expr) : pyval * pyval * list pyval :=
  let '(summary, description, tags) := st in
  match keyword with
  | (Some k, value) =>
      if String.eqb k "summary" then
        match value with
        | Constant v => (v, description, tags)
        | _ => st
        end
      else if String.eqb k "description" then
        match value with
        | Constant v => (summary, v, tags)
        | _ => st
        end
      else if String.eqb k "tags" then
        match value with
        | ListExpr elts =>
            (summary, description,
             flat_map (fun elt => match elt with
                                  | Constant v => [v]
                                  | _ => []
                                  end) elts)
        | _ => st
        end
      else st
  | (None, _) => st
  end.

(** (method, path, summary, description, tags) of a route decorator. *)
Definition _parse_route_decorator (content : string) (decorator : expr)
  : result (pyval * pyval * pyval * pyval * list pyval) :=
  match decorator with
  | Call lineno func args keywords =>
      let method :=
        match func with
        | Attribute _ attr => PyStr (upper attr)
        | Name id => PyStr (upper id)
        | _ => PyNone
        end in
      let path :=
        match args with
        | Constant value :: _ => value
        | _ => PyStr "/"
        end in
      let '(summary, description, tags) :=
        fold_left metadata_step keywords (PyNone, PyNone, []) in
      let description :=
        if negb (truthy description) && negb (truthy summary)
        then _extract_docstring content lineno
        else description in
      Ok (method, path, summary, description, tags)
  | _ => Raise AttributeError
  end.

(** [_extract_router_prefix(node)] for a [Call] node: the loop over its
    keywords. *)
Definition prefix_step (prefix : pyval) (keyword : option string * expr) : pyval :=
  match keyword with
  | (Some k, Constant v) => if String.eqb k "prefix" then v else prefix
  | _ => prefix
  end.

Definition _extract_router_prefix (node : expr) (v : visitor) : result visitor :=
  match node with
  | Call _ _ _ keywords =>
      Ok {| file_path := file_path v; content := content v;
            endpoints := endpoints v; schemas := schemas v;
            current_class := current_class v;
            router_prefix := fold_left prefix_step keywords (router_prefix v) |}
  | _ => Raise AttributeError
  end.

Definition type_map : dict string :=
  [("str", "string"); ("int", "integer"); ("float", "number");
   ("bool", "boolean"); ("list", "array"); ("dict", "object")].

Fixpoint _parse_type_annotation (annotation : expr) : schema :=
  match annotation with
  | Name id =>
      simple (match dict_get id type_map with Some t => t | None => "string" end)
  | Subscript (Name id) slice =>
      if String.eqb id "List" then
        Schema "array" (Some (_parse_type_annotation slice)) false None
      else if String.eqb id "Optional" then
        match _parse_type_annotation slice with
        | Schema t items _ default => Schema t items true default
        end
      else simple "string"
  | _ => simple "string"
  end.

(** The body of [for decorator in node.decorator_list] in
    [_extract_parameters]; [name in path.value] raises [TypeError] when the
    constant is not a string. *)
Definition path_check (name : string) (decorator : expr) (param : parameter)
  : result parameter :=
  match decorator with
  | Call _ _ (Constant value :: _) _ =>
      match value with
      | PyStr p =>
          if contains ("{" ++ name ++ "}") p
          then Ok {| p_name := p_name param; p_in := "path";
                     p_required := Some true; p_schema := p_schema param |}
          else Ok param
      | _ => Raise TypeError
      end
  | _ => Ok param
  end.

(** The decorator lists on which [path_check] cannot raise: no decorator
    call has a constant that is not a string as its first argument. *)
Definition string_paths_only (decorator_list : list expr) : bool :=
  forallb (fun decorator =>
             match decorator with
             | Call _ _ (Constant value :: _) _ => is_str value
             | _ => true
             end) decorator_list.

Definition set_default (s : schema) (v : pyval) : schema :=
  match s with Schema t items nullable _ => Schema t items nullable (Some v) end.

(** The body of [for arg in node.args.args] in [_extract_parameters], for an
    argument that is not [self] or [cls]. *)
Definition parameter_of (node : funcdef) (a : arg) : result parameter :=
  let param := {| p_name := arg_name a; p_in := "query";
                  p_required := Some false; p_schema := simple "string" |} in
  param <- for_each (path_check (arg_name a)) (fn_decorator_list node) param ;;
  let param :=
    match arg_annotation a with
    | Some annotation =>
        {| p_name := p_name param; p_in := p_in param;
           p_required := p_required param;
           p_schema := _parse_type_annotation annotation |}
    | None => param
    end in
  (* defaults = dict(zip(node.args.args[-len(node.args.defaults):],
                         node.args.defaults)): the keys are ast.arg nodes *)
  let defaults :=
    combine (last_n (List.length (fn_defaults node)) (fn_args node))
            (fn_defaults node) in
  (* if arg.arg in defaults: ... defaults[arg.arg] ... *)
  match node_dict_get (arg_name a) defaults with
  | Some default_val =>
      Ok {| p_name := p_name param; p_in := p_in param;
            p_required := Some false;
            p_schema := match default_val with
                        | Constant v => set_default (p_schema param) v
                        | _ => p_schema param
                        end |}
  | None =>
      Ok {| p_name := p_name param; p_in := p_in param;
            p_required := Some true; p_schema := p_schema param |}
  end.

Definition is_self_or_cls (name : string) : bool := str_in name ["self"; "cls"].

Fixpoint parameters_of (node : funcdef) (args : list arg)
  : result (list parameter) :=
  match args with
  | [] => Ok []
  | a :: rest =>
      if is_self_or_cls (arg_name a) then parameters_of node rest
      else param <- parameter_of node a ;;
           params <- parameters_of node rest ;;
           Ok (param :: params)
  end.

Definition _extract_parameters (node : funcdef) : result (list parameter) :=
  parameters_of node (fn_args node).

Definition _extract_responses (node : funcdef) : OpenAPI.responses :=
  {| r200_description := "Successful Response";
     r200_schema := option_map _parse_type_annotation (fn_returns node) |}.

Fixpoint first_body_ref (args : list arg) : option string :=
  match args with
  | [] => None
  | a :: rest =>
      match arg_annotation a with
      | Some (Name id) =>
          if is_self_or_cls (arg_name a) then first_body_ref rest
          else Some ("#/components/schemas/" ++ id)
      | _ => first_body_ref rest
      end
  end.

Definition _extract_request_body (node : funcdef) : option string :=
  first_body_ref (fn_args node).

Definition _extract_security (node : funcdef) : list pyval := [].

Definition add_endpoint (e : endpoint) (v : visitor) : visitor :=
  {| file_path := file_path v; content := content v;
     endpoints := (endpoints v ++ [e])%list; schemas := schemas v;
     current_class := current_class v; router_prefix := router_prefix v |}.

Definition set_current_class (c : option string) (v : visitor) : visitor :=
  {| file_path := file_path v; content := content v;
     endpoints := endpoints v; schemas := schemas v;
     current_class := c; router_prefix := router_prefix v |}.

(** [visit_FunctionDef] up to its [generic_visit].  Inside a class it calls
    [_extract_router_prefix] on the [FunctionDef] node, which has no
    [keywords] attribute. *)
Definition visit_FunctionDef_node (node : funcdef) (v : visitor) : result visitor :=
  match _get_route_decorator node with
  | Some route_decorator =>
      '(method, path, summary, description, tags) <-
         _parse_route_decorator (content v) route_decorator ;;
      ok <- match current_class v with
            | Some _ => Raise AttributeError
            | None => Ok tt
            end ;;
      parameters <- _extract_parameters node ;;
      Ok (add_endpoint
            {| method := method; path := path; file := file_path v;
               line := fn_lineno node; function := fn_name node;
               summary := summary; description := description; tags := tags;
               parameters := parameters;
               responses := _extract_responses node;
               request_body := _extract_request_body node;
               security := _extract_security node |} v)
  | None => Ok v
  end.

(** The loop over the decorators of a class in [visit_ClassDef]. *)
Definition class_decorator_step (decorator : expr) (v : visitor) : result visitor :=
  match decorator with
  | Call _ (Name id) _ _ =>
      if String.eqb id "router" then _extract_router_prefix decorator v
      else Ok v
  | _ => Ok v
  end.

(** [visit]: the dispatch of [ast.NodeVisitor] on statements. *)
Fixpoint visit (s : stmt) (v : visitor) {struct s} : result visitor :=
  match s with
  | FunctionDef node body =>
      v <- visit_FunctionDef_node node v ;;
      for_each visit body v
  | ClassDef name decorator_list body =>
      let old_class := current_class v in
      let v := set_current_class (Some name) v in
      v <- for_each class_decorator_step decorator_list v ;;
      v <- for_each visit body v ;;
      Ok (set_current_class old_class v)
  | Assign _ _ => Ok v
  | Expr _ => Ok v
  | OtherStmt body => for_each visit body v
  end.

(** [FastAPIAnalyzer], with what it has printed on stderr. *)
Record analyzer : Type := {
  a_endpoints : list endpoint;
  a_schemas : dict schema;
  a_security_schemes : dict pyval;
  a_stderr : list warning;
}.

Definition new_analyzer : analyzer :=
  {| a_endpoints := []; a_schemas := []; a_security_schemes := [];
     a_stderr := [] |}.

Definition warn (w : warning) (a : analyzer) : analyzer :=
  {| a_endpoints := a_endpoints a; a_schemas := a_schemas a;
     a_security_schemes := a_security_schemes a;
     a_stderr := (a_stderr a ++ [w])%list |}.

Definition _analyze_file (a : analyzer) (file_path : string) (src : source)
  : analyzer :=
  match src with
  | Unreadable => warn (ErrorAnalyzing file_path) a
  | Unparseable _ => warn (CouldNotParse file_path) a
  | Module content body =>
      match for_each visit body (new_visitor file_path content) with
      | Ok v =>
          {| a_endpoints := (a_endpoints a ++ endpoints v)%list;
             a_schemas := dict_update (a_schemas a) (schemas v);
             a_security_schemes := a_security_schemes a;
             a_stderr := a_stderr a |}
      | Raise _ => warn (ErrorAnalyzing file_path) a
      end
  end.

(** [analyze], on the files [_find_files] lists, each with its content. *)
Definition analyze_from (a : analyzer) (py_files : list (string * source))
  : analyzer :=
  fold_left (fun a f => _analyze_file a (fst f) (snd f)) py_files a.

Definition analyze : list (string * source) -> analyzer :=
  analyze_from new_analyzer.

(** The operation dicts of the document. *)
Record operation : Type := {
  op_summary : pyval;
  op_description : pyval;
  operationId : string;
  op_responses : OpenAPI.responses;
  op_parameters : option (list parameter);
  requestBody : option string;
  op_tags : option (list pyval);
  op_security : option (list pyval);
}.

Definition nonempty {A} (xs : list A) : option (list A) :=
  match xs with [] => None | _ => Some xs end.

(** The operation [generate_openapi] builds for an endpoint whose method and
    path are the strings [m] and [p]. *)
Definition operation_of (m p : string) (e : endpoint) : operation :=
  {| op_summary := if truthy (summary e) then summary e
                   else PyStr (m ++ " " ++ p);
     op_description := description e;
     operationId := lower m ++ replace_char "/" "-" p;
     op_responses := responses e;
     op_parameters := nonempty (parameters e);
     requestBody := request_body e;
     op_tags := nonempty (tags e);
     op_security := nonempty (security e) |}.

(** [path_key], [endpoint['method'].lower()] and [operation] in the body of
    [for endpoint in endpoints]; [.lower()] and [.replace()] raise
    [AttributeError] on a method or path that is [None], an [int] or a
    [bool]. *)
Definition entry_of (e : endpoint) : result (string * string * operation) :=
  match method e, path e with
  | PyStr m, PyStr p => Ok (p, lower m, operation_of m p e)
  | _, _ => Raise AttributeError
  end.

Definition generate_step : endpoint -> dict (dict operation)
                           -> result (dict (dict operation)) :=
  put_entry entry_of.

Definition default_info : info :=
  {| info_title := "API"; info_version := "1.0.0";
     info_description := "Generated from FastAPI code" |}.

Definition generate_openapi (info : option OpenAPI.info)
           (endpoints : list endpoint) (schemas : dict schema)
  : result (document operation schema) :=
  paths <- for_each generate_step endpoints [] ;;
  Ok {| openapi := "3.0.0";
        doc_info := match info with Some i => i | None => default_info end;
        paths := paths;
        components_schemas := schemas |}.

(** [main] up to the printing. *)
Definition main (py_files : list (string * source))
  : result (document operation schema) :=
  let result := analyze py_files in
  generate_openapi None (a_endpoints result) (a_schemas result).

End FastAPI.

(* ===================================================================== *)
(** ** flask-analyzer.py *)
(* ===================================================================== *)

Module Flask.
Import Py Re Ast OpenAPI.
#[local] Open Scope py_scope.

(** The dict [visit_FunctionDef] appends to [self.endpoints]. *)
Record endpoint : Type := {
  method : string;
  path : pyval;
  file : string;
  line : nat;
  function : string;
  blueprint : option string;
  summary : string;
  description : pyval;
}.

(** [{'name': bp_name, 'variable': target.id}] *)
Record blueprint_info : Type := {
  bp_name : pyval;
  bp_variable : string;
}.

(** [FlaskVisitor] *)
Record visitor : Type := {
  file_path : string;
  content : string;
  endpoints : list endpoint;
  schemas : dict schema;
  blueprints : dict blueprint_info;
  app_var : option string;
  current_class : option string;
}.

Definition new_visitor (file_path content : string) : visitor :=
  {| file_path := file_path; content := content; endpoints := [];
     schemas := []; blueprints := []; app_var := None;
     current_class := None |}.

Definition set_app_var (x : string) (v : visitor) : visitor :=
  {| file_path := file_path v; content := content v;
     endpoints := endpoints v; schemas := schemas v;
     blueprints := blueprints v; app_var := Some x;
     current_class := current_class v |}.

Definition set_blueprint (x : string) (b : blueprint_info) (v : visitor) : visitor :=
  {| file_path := file_path v; content := content v;
     endpoints := endpoints v; schemas := schemas v;
     blueprints := dict_set x b (blueprints v); app_var := app_var v;
     current_class := current_class v |}.

Definition add_endpoint (e : endpoint) (v : visitor) : visitor :=
  {| file_path := file_path v; content := content v;
     endpoints := (endpoints v ++ [e])%list; schemas := schemas v;
     blueprints := blueprints v; app_var := app_var v;
     current_class := current_class v |}.

(** [visit_Assign] *)
Definition visit_Assign (targets : list expr) (value : expr) (v : visitor)
  : visitor :=
  match value with
  | Call _ (Name id) args _ =>
      let v :=
        if String.eqb id "Flask"
        then fold_left (fun v target =>
                          match target with
                          | Name x => set_app_var x v
                          | _ => v
                          end) targets v
        else v in
      if String.eqb id "Blueprint"
      then fold_left (fun v target =>
                        match target with
                        | Name x =>
                            let bp_name :=
                              match args with
                              | Constant name :: _ => name
                              | _ => PyNone
                              end in
                            set_blueprint x {| bp_name := bp_name;
                                               bp_variable := x |} v
                        | _ => v
                        end) targets v
      else v
  | _ => v
  end.

Fixpoint first_route_decorator (decorator_list : list expr) : option expr :=
  match decorator_list with
  | [] => None
  | decorator :: rest =>
      match decorator with
      | Call _ (Attribute _ attr) _ _ =>
          if String.eqb attr "route" then Some decorator
          else first_route_decorator rest
      | _ => first_route_decorator rest
      end
  end.

Definition _get_route_decorator (node : funcdef) : option expr :=
  first_route_decorator (fn_decorator_list node).

(** One turn of [for keyword in decorator.keywords] on [methods]. *)
Definition methods_step (methods : list pyval) (keyword : option string * expr)
  : list pyval :=
  match keyword with
  | (Some k, ListExpr elts) =>
      if String.eqb k "methods"
      then flat_map (fun elt => match elt with
                                | Constant v => [v]
                                | _ => []
                                end) elts
      else methods
  | _ => methods
  end.

(** (methods, path, blueprint) of a route decorator. *)
Definition _parse_route_decorator (v : visitor) (decorator : expr)
  : result (list pyval * pyval * option string) :=
  match decorator with
  | Call _ func args keywords =>
      let path :=
        match args with
        | Constant value :: _ => value
        | _ => PyStr "/"
        end in
      let methods := fold_left methods_step keywords [PyStr "GET"] in
      let blueprint :=
        match func with
        | Attribute (Name id) _ =>
            if dict_has id (blueprints v) then Some id else None
        | _ => None
        end in
      Ok (methods, path, blueprint)
  | _ => Raise AttributeError
  end.

Definition _extract_summary (node : funcdef) : string :=
  title (replace_char "_" " " (fn_name node)).

Definition _extract_docstring (body : list stmt) : pyval :=
  match body with
  | Expr (Constant value) :: _ => value
  | _ => PyNone
  end.

(** The body of [for method in methods]; [method.upper()] raises on a
    method that is [None], an [int] or a [bool]. *)
Definition endpoint_step (node : funcdef) (body : list stmt) (path : pyval)
           (blueprint : option string) (method : pyval) (v : visitor)
  : result visitor :=
  match method with
  | PyStr m =>
      Ok (add_endpoint
            {| method := upper m; path := path; file := file_path v;
               line := fn_lineno node; function := fn_name node;
               blueprint := blueprint; summary := _extract_summary node;
               description := _extract_docstring body |} v)
  | _ => Raise AttributeError
  end.

(** [visit_FunctionDef] up to its [generic_visit]. *)
Definition visit_FunctionDef_node (node : funcdef) (body : list stmt)
           (v : visitor) : result visitor :=
  match _get_route_decorator node with
  | Some route_decorator =>
      '(methods, path, blueprint) <- _parse_route_decorator v route_decorator ;;
      let methods := match methods with
                     | [] => [PyStr "GET"]
                     | _ => methods
                     end in
      for_each (endpoint_step node body path blueprint) methods v
  | None => Ok v
  end.

(** [visit]: the dispatch of [ast.NodeVisitor] on statements. *)
Fixpoint visit (s : stmt) (v : visitor) {struct s} : result visitor :=
  match s with
  | FunctionDef node body =>
      v <- visit_FunctionDef_node node body v ;;
      for_each visit body v
  | ClassDef _ _ body => for_each visit body v
  | Assign targets value => Ok (visit_Assign targets value v)
  | Expr _ => Ok v
  | OtherStmt body => for_each visit body v
  end.

(** [FlaskAnalyzer], with what it has printed on stderr. *)
Record analyzer : Type := {
  a_endpoints : list endpoint;
  a_schemas : dict schema;
  a_blueprints : dict (dict blueprint_info);
  a_stderr : list warning;
}.

Definition new_analyzer : analyzer :=
  {| a_endpoints := []; a_schemas := []; a_blueprints := [];
     a_stderr := [] |}.

Definition warn (w : warning) (a : analyzer) : analyzer :=
  {| a_endpoints := a_endpoints a; a_schemas := a_schemas a;
     a_blueprints := a_blueprints a;
     a_stderr := (a_stderr a ++ [w])%list |}.

Definition _analyze_file (a : analyzer) (file_path : string) (src : source)
  : analyzer :=
  match src with
  | Unreadable => warn (ErrorAnalyzing file_path) a
  | Unparseable _ => warn (CouldNotParse file_path) a
  | Module content body =>
      match for_each visit body (new_visitor file_path content) with
      | Ok v =>
          {| a_endpoints := (a_endpoints a ++ endpoints v)%list;
             a_schemas := dict_update (a_schemas a) (schemas v);
             a_blueprints := match blueprints v with
                             | [] => a_blueprints a
                             | bps => dict_set file_path bps (a_blueprints a)
                             end;
             a_stderr := a_stderr a |}
      | Raise _ => warn (ErrorAnalyzing file_path) a
      end
  end.

Definition analyze_from (a : analyzer) (py_files : list (string * source))
  : analyzer :=
  fold_left (fun a f => _analyze_file a (fst f) (snd f)) py_files a.

Definition analyze : list (string * source) -> analyzer :=
  analyze_from new_analyzer.

(** [<(\w+):?(\w+)?>] *)
Definition path_param_re : regex :=
  seq [chr "<"; Group 1 (Plus is_word); Opt (chr ":");
       Opt (Group 2 (Plus is_word)); chr ">"].

(** What a match of [path_param_re] at the start of [s] comes to, read off
    the text: [<], the longest run [w1] of word characters (not empty), then
    either [>], or [:], the longest run [w2] of word characters and [>].
    [path_param_at_match] below shows that the matcher computes this. *)
Definition path_param_at (s : string) : option (captures * string) :=
  match s with
  | String c s1 =>
      if Ascii.eqb c "<" then
        let (w1, r1) := span is_word s1 in
        match w1, r1 with
        | String _ _, String e r2 =>
            if Ascii.eqb e ":" then
              let (w2, r3) := span is_word r2 in
              match r3 with
              | String f r4 =>
                  if Ascii.eqb f ">"
                  then Some (match w2 with
                             | EmptyString => [(1, w1)]
                             | _ => [(2, w2); (1, w1)]
                             end, r4)
                  else None
              | EmptyString => None
              end
            else if Ascii.eqb e ">" then Some ([(1, w1)], r2)
            else None
        | _, _ => None
        end
      else None
  | EmptyString => None
  end.

(** The template [{\2}] *)
Definition braces_group2 (caps : captures) : string :=
  "{" ++ group_or_empty 2 caps ++ "}".

(** [re.sub(r'<(\w+):?(\w+)?>', r'{\2}', path)], the value of
    [converted_path]. *)
Definition convert_path (path : string) : string :=
  sub path_param_re braces_group2 path.

Definition type_map : dict string :=
  [("string", "string"); ("int", "integer"); ("float", "number");
   ("path", "string"); ("uuid", "string"); ("any", "string")].

Definition _flask_type_to_openapi (flask_type : string) : string :=
  match dict_get (lower flask_type) type_map with
  | Some t => t
  | None => "string"
  end.

(** The operation dicts of the document. *)
Record operation : Type := {
  op_summary : string;
  op_description : pyval;
  operationId : string;
  op_responses : OpenAPI.responses;
  op_parameters : option (list parameter);
}.

Definition path_parameter (pt : string * string) : parameter :=
  let (param_type, param_name) := pt in
  {| p_name := param_name; p_in := "path"; p_required := Some true;
     p_schema := simple (if String.eqb param_type "" then "string"
                         else _flask_type_to_openapi param_type) |}.

(** The operation [generate_openapi] builds for an endpoint whose path is
    the string [p].  [converted_path] is computed and not used. *)
Definition operation_of (p : string) (e : endpoint) : operation :=
  let path_params := findall2 path_param_re p in
  {| op_summary := summary e;
     op_description := description e;
     operationId := lower (method e) ++ replace_char "/" "-" p;
     op_responses := {| r200_description := "Successful response";
                        r200_schema := None |};
     op_parameters :=
       match path_params with
       | [] => None
       | _ =>
           let converted_path := convert_path p in
           Some (map path_parameter path_params)
       end |}.

(** [path_key], [endpoint['method'].lower()] and [operation] in the body of
    [for endpoint in endpoints]; the key of [paths] is [endpoint['path']] as
    the visitor recorded it, and [.replace()] raises [AttributeError] on a
    path that is [None], an [int] or a [bool]. *)
Definition entry_of (e : endpoint) : result (string * string * operation) :=
  match path e with
  | PyStr p => Ok (p, lower (method e), operation_of p e)
  | _ => Raise AttributeError
  end.

Definition generate_step : endpoint -> dict (dict operation)
                           -> result (dict (dict operation)) :=
  put_entry entry_of.

Definition default_info : info :=
  {| info_title := "Flask API"; info_version := "1.0.0";
     info_description := "Generated from Flask code" |}.

Definition generate_openapi (info : option OpenAPI.info)
           (endpoints : list endpoint) (schemas : dict schema)
  : result (document operation schema) :=
  paths <- for_each generate_step endpoints [] ;;
  Ok {| openapi := "3.0.0";
        doc_info := match info with Some i => i | None => default_info end;
        paths := paths;
        components_schemas := schemas |}.

(** [main] up to the printing. *)
Definition main (py_files : list (string * source))
  : result (document operation schema) :=
  let result := analyze py_files in
  generate_openapi None (a_endpoints result) (a_schemas result).

End Flask.

(* ===================================================================== *)
(** ** spring-analyzer.py *)
(* ===================================================================== *)

(** The endpoint part of the analyzer: the annotation scan, the path, the
    method signature and the parameters.  The JavaDoc summary and
    description of an endpoint and the schema extraction read nothing of
    these and are left out. *)
Module Spring.
Import Py Re Ast OpenAPI.
#[local] Open Scope py_scope.

Definition dquote : ascii := ascii_of_nat 34.

(** [@(Get|Post|Put|Delete|Patch|Request)Mapping\(?] *)
Definition mapping_re : regex :=
  seq [chr "@";
       Group 1 (alt [lit "Get"; lit "Post"; lit "Put"; lit "Delete";
                     lit "Patch"; lit "Request"]);
       lit "Mapping"; Opt (chr "(")].

(** [@RequestMapping\(\s*value\s*=\s*\x22([^\x22]+)\x22], writing \x22
    for the double quote *)
Definition class_mapping_re : regex :=
  seq [lit "@RequestMapping("; Star is_space; lit "value"; Star is_space;
       chr "="; Star is_space; chr dquote;
       Group 1 (Plus (not_chr dquote)); chr dquote].

(** [(value|path)\s*=\s*\x22([^\x22]+)\x22] *)
Definition path_attr_re : regex :=
  seq [Group 1 (alt [lit "value"; lit "path"]); Star is_space; chr "=";
       Star is_space; chr dquote; Group 2 (Plus (not_chr dquote));
       chr dquote].

(** [@[A-Za-z]+Mapping\(\s*\x22([^\x22]+)\x22] *)
Definition shorthand_re : regex :=
  seq [chr "@"; Plus is_alpha; lit "Mapping("; Star is_space; chr dquote;
       Group 1 (Plus (not_chr dquote)); chr dquote].

(** [(?:public|private|protected)\s+(\S+)\s+\w+\s*\(] *)
Definition return_re : regex :=
  seq [alt [lit "public"; lit "private"; lit "protected"]; Plus is_space;
       Group 1 (Plus (fun c => negb (is_space c))); Plus is_space;
       Plus is_word; Star is_space; chr "("].

(** The pattern of [params_match]: an opening parenthesis, group 1 with
    the longest run of characters other than the closing parenthesis, and
    the closing parenthesis. *)
Definition params_re : regex :=
  seq [chr "("; Group 1 (Star (not_chr ")")); chr ")"].

(** [@?(\w+(?:<[^>]+>)?)\s+(\w+)] *)
Definition param_re : regex :=
  seq [Opt (chr "@");
       Group 1 (Seq (Plus is_word)
                    (Opt (seq [chr "<"; Plus (not_chr ">"); chr ">"])));
       Plus is_space; Group 2 (Plus is_word)].

(** [class_level]: the ['base_path'] and ['is_rest_controller'] keys, each
    present or not. *)
Record class_annotations : Type := {
  base_path : option string;
  is_rest_controller : option bool;
}.

Definition _extract_class_annotations (content : string) : class_annotations :=
  {| base_path := match search class_mapping_re content with
                  | Some (caps, _) => Some (group_or_empty 1 caps)
                  | None => None
                  end;
     is_rest_controller := if contains "@RestController" content
                           then Some true else None |}.

(** [{'name': param_name, 'type': param_type}] *)
Record java_param : Type := {
  jp_name : string;
  jp_type : string;
}.

(** The result dict of [_parse_method_signature]. *)
Record signature : Type := {
  sig_parameters : list java_param;
  return_type : string;
}.

(** The names the loop of [_parse_method_signature] leaves out: the test
    is on [param_name]. *)
Definition skipped_names : list string :=
  ["Model"; "ModelMap"; "HttpServletRequest"; "HttpServletResponse"].

Definition _parse_method_signature (lines : list string) : signature :=
  let signature := join " " (firstn 3 lines) in
  let signature := join " " (split_ws signature) in
  {| return_type :=
       match search return_re signature with
       | Some (caps, _) => group_or_empty 1 caps
       | None => "void"
       end;
     sig_parameters :=
       match search params_re signature with
       | Some (caps, _) =>
           let params_str := group_or_empty 1 caps in
           flat_map (fun tn : string * string =>
                       let (param_type, param_name) := tn in
                       if str_in param_name skipped_names then []
                       else [{| jp_name := param_name; jp_type := param_type |}])
                    (findall2 param_re params_str)
       | None => []
       end |}.

Definition type_map : dict string :=
  [("String", "string"); ("Integer", "integer"); ("int", "integer");
   ("Long", "integer"); ("long", "integer"); ("Double", "number");
   ("double", "number"); ("Float", "number"); ("float", "number");
   ("Boolean", "boolean"); ("boolean", "boolean"); ("LocalDate", "string");
   ("LocalDateTime", "string"); ("UUID", "string"); ("List", "array");
   ("Set", "array"); ("void", "void")].

Definition type_map_get (k : string) : string :=
  match dict_get k type_map with Some t => t | None => "object" end.

Definition _java_type_to_openapi (java_type : string) : string :=
  if contains "<" java_type
  then type_map_get (hd "" (split_char "<" java_type))
  else type_map_get java_type.

(** [signature.get(...)] raises [AttributeError] when no method declaration
    was found and [signature] is [None]. *)
Definition _extract_parameters_from_signature (sig : option signature)
  : result (list parameter) :=
  match sig with
  | Some sig =>
      Ok (map (fun param =>
                 {| p_name := jp_name param; p_in := "query";
                    p_required := None;
                    p_schema := simple (_java_type_to_openapi (jp_type param)) |})
              (sig_parameters sig))
  | None => Raise AttributeError
  end.

Definition _extract_responses_from_signature (sig : option signature)
  : result responses :=
  match sig with
  | Some sig =>
      Ok {| r200_description := "Successful response";
            r200_schema :=
              if String.eqb (return_type sig) "void" then None
              else Some (simple (_java_type_to_openapi (return_type sig))) |}
  | None => Raise AttributeError
  end.

(** The dict [_parse_endpoint_annotation] returns. *)
Record endpoint : Type := {
  method : string;
  path : string;
  file : string;
  line : nat;
  parameters : list parameter;
  responses : OpenAPI.responses;
}.

(** The first loop of [_parse_endpoint_annotation], on the lines
    [start_line .. start_line + 4]. *)
Fixpoint find_path (window : list string) : option string :=
  match window with
  | [] => None
  | line :: rest =>
      match search path_attr_re line with
      | Some (caps, _) => Some (group_or_empty 2 caps)
      | None =>
          match search shorthand_re line with
          | Some (caps, _) => Some (group_or_empty 1 caps)
          | None => find_path rest
          end
      end
  end.

(** The second loop, on the lines from [start_line] on ([lines] here),
    looking at the first [n] of them. *)
Fixpoint find_signature (n : nat) (lines : list string) : option signature :=
  match n, lines with
  | S n', line :: rest =>
      if contains "public" line || contains "private" line
         || contains "protected" line
      then Some (_parse_method_signature lines)
      else find_signature n' rest
  | _, _ => None
  end.

(** The step "Combine base path from class with method path". *)
Definition full_path (class_level : class_annotations) (path : string) : string :=
  match base_path class_level with
  | Some b =>
      if String.eqb b "" then path
      else let base := rstrip_char "/" b in base ++ path
  | None => path
  end.

Definition _parse_endpoint_annotation (lines : list string) (start_line : nat)
           (method_type file_path : string) (class_level : class_annotations)
  : result endpoint :=
  let method := upper method_type in       (* no 'Mapping' in the group *)
  let method := if String.eqb method "REQUEST" then "GET" else method in
  let path := match find_path (firstn 5 (skipn start_line lines)) with
              | Some p => p
              | None => "/"
              end in
  let method_signature := find_signature 10 (skipn start_line lines) in
  let full_path := full_path class_level path in
  parameters <- _extract_parameters_from_signature method_signature ;;
  responses <- _extract_responses_from_signature method_signature ;;
  Ok {| method := method; path := full_path; file := file_path;
        line := start_line + 1; parameters := parameters;
        responses := responses |}.

(** The loop of [_parse_java_file] from line [i] on: the endpoints appended
    before an exception stay in [self.endpoints]. *)
Fixpoint scan_lines (all_lines : list string) (file_path : string)
         (class_level : class_annotations) (i : nat) (todo : list string)
  : list endpoint * option exn :=
  match todo with
  | [] => ([], None)
  | line :: rest =>
      match search mapping_re line with
      | Some (caps, _) =>
          match _parse_endpoint_annotation all_lines i (group_or_empty 1 caps)
                                           file_path class_level with
          | Ok e =>
              let (es, err) := scan_lines all_lines file_path class_level (S i) rest in
              (e :: es, err)
          | Raise x => ([], Some x)
          end
      | None => scan_lines all_lines file_path class_level (S i) rest
      end
  end.

Definition _parse_java_file (file_path content : string)
  : list endpoint * option exn :=
  let lines := split_char "010" content in
  let class_level := _extract_class_annotations content in
  scan_lines lines file_path class_level 0 lines.

End Spring.

(* ===================================================================== *)
(** ** Sample inputs *)
(* ===================================================================== *)

(** Small programs, as [ast.parse] gives them, for the statements below. *)
Module Samples.
Import Py Ast.

Definition plain_arg (name : string) : arg :=
  {| arg_name := name; arg_annotation := None |}.

(** A function [def name(args): ...] with one decorator and no default,
    annotation or body. *)
Definition decorated (decorator : expr) (name : string) (args : list arg)
           (lineno : nat) : funcdef :=
  {| fn_name := name; fn_args := args; fn_defaults := [];
     fn_decorator_list := [decorator]; fn_returns := None;
     fn_lineno := lineno |}.

(** [@receiver.attr(args, keywords)] on line [lineno] *)
Definition decorator_call (lineno : nat) (receiver attr : string)
           (args : list expr) (keywords : list (option string * expr)) : expr :=
  Call lineno (Attribute (Name receiver) attr) args keywords.

(** flask:
<<
    @app.route('/items/<int:item_id>')
    def get_item(item_id): ...
>> *)
Definition flask_items : list stmt :=
  [FunctionDef
     (decorated (decorator_call 1 "app" "route"
                   [Constant (PyStr "/items/<int:item_id>")] [])
                "get_item" [plain_arg "item_id"] 2)
     []].

(** fastapi:
<<
    @app.get('/ping', summary=text)
    def ping(): ...
>> *)
Definition fastapi_ping (text : string) : list stmt :=
  [FunctionDef
     (decorated (decorator_call 1 "app" "get" [Constant (PyStr "/ping")]
                   [(Some "summary", Constant (PyStr text))])
                "ping" [] 2)
     []].

(** The endpoint the FastAPI visitor records for [fastapi_ping text] in the
    file [file]. *)
Definition ping_endpoint (file text : string) : FastAPI.endpoint :=
  {| FastAPI.method := PyStr "GET"; FastAPI.path := PyStr "/ping";
     FastAPI.file := file; FastAPI.line := 2; FastAPI.function := "ping";
     FastAPI.summary := PyStr text; FastAPI.description := PyNone;
     FastAPI.tags := []; FastAPI.parameters := [];
     FastAPI.responses := {| OpenAPI.r200_description := "Successful Response";
                             OpenAPI.r200_schema := None |};
     FastAPI.request_body := None; FastAPI.security := [] |}.

(** The two files of the ping example. *)
Definition ping_files : list (string * source) :=
  [("a.py", Module "" (fastapi_ping "first"));
   ("b.py", Module "" (fastapi_ping "second"))].

(** fastapi:
<<
    @app.get('/users/{id}')
    def get_user(id: int = 0, verbose: bool = False): ...
>> *)
Definition fastapi_user : funcdef :=
  {| fn_name := "get_user";
     fn_args := [{| arg_name := "id"; arg_annotation := Some (Name "int") |};
                 {| arg_name := "verbose"; arg_annotation := Some (Name "bool") |}];
     fn_defaults := [Constant (PyInt 0); Constant (PyBool false)];
     fn_decorator_list :=
       [decorator_call 1 "app" "get" [Constant (PyStr "/users/{id}")] []];
     fn_returns := None;
     fn_lineno := 2 |}.


(** fastapi and flask: a route decorator without arguments
<<
    @app.get()                          @app.route()
    def bare(): ...                     def bare(): ...
>> *)
Definition fastapi_bare : funcdef :=
  decorated (decorator_call 1 "app" "get" [] []) "bare" [] 2.
Definition flask_bare : funcdef :=
  decorated (decorator_call 1 "app" "route" [] []) "bare" [] 2.

(** fastapi and flask: a route whose first argument is the number 5
<<
    @app.get(5)                         @app.route(5)
    def five(): ...                     def five(): ...
>> *)
Definition fastapi_five : funcdef :=
  decorated (decorator_call 1 "app" "get" [Constant (PyInt 5)] []) "five" [] 2.
Definition flask_five : funcdef :=
  decorated (decorator_call 1 "app" "route" [Constant (PyInt 5)] []) "five" [] 2.

(** fastapi and flask: the root route
<<
    @app.get('/')                       @app.route('/')
    def root(): ...                     def root(): ...
>> *)
Definition fastapi_root : funcdef :=
  decorated (decorator_call 1 "app" "get" [Constant (PyStr "/")] []) "root" [] 2.
Definition flask_root : funcdef :=
  decorated (decorator_call 1 "app" "route" [Constant (PyStr "/")] []) "root" [] 2.

(** fastapi:
<<
    router = APIRouter(prefix='/api')
    @router.get('/items')
    def list_items(): ...
>> *)
Definition fastapi_router : list stmt :=
  [Assign [Name "router"]
          (Call 1 (Name "APIRouter") [] [(Some "prefix", Constant (PyStr "/api"))]);
   FunctionDef
     (decorated (decorator_call 2 "router" "get" [Constant (PyStr "/items")] [])
                "list_items" [] 3)
     []].

(** fastapi: the one form whose prefix [visit_ClassDef] reads
<<
    @router(prefix='/api')
    class Items: pass
    @app.get('/items')
    def list_items(): ...
>> *)
Definition fastapi_router_class : list stmt :=
  [ClassDef "Items"
            [Call 1 (Name "router") [] [(Some "prefix", Constant (PyStr "/api"))]]
            [OtherStmt []];
   FunctionDef
     (decorated (decorator_call 3 "app" "get" [Constant (PyStr "/items")] [])
                "list_items" [] 4)
     []].

(** fastapi: the route inside the class
<<
    @router(prefix='/api')
    class Items:
        @router.get('/items')
        def list_items(self): ...
>> *)
Definition fastapi_router_method : list stmt :=
  [ClassDef "Items"
            [Call 1 (Name "router") [] [(Some "prefix", Constant (PyStr "/api"))]]
            [FunctionDef
               (decorated (decorator_call 3 "router" "get"
                             [Constant (PyStr "/items")] [])
                          "list_items" [plain_arg "self"] 4)
               []]].

(** spring:
<<
    public String show(HttpServletRequest request, Model model, int id) {
>> *)
Definition java_show : list string :=
  ["    public String show(HttpServletRequest request, Model model, int id) {"].

(** spring: a controller with the class mapping [base] and one [GET]
    method mapped to [path]
<<
    @RestController
    @RequestMapping(value = base)
    public class WidgetController {
        @GetMapping(path)
        public List<Widget> list() {
>>
    with [base] and [path] between double quotes. *)
Definition java_controller (base path : string) : string :=
  let q := String Spring.dquote "" in
  join (String "010" "")
       ["@RestController";
        "@RequestMapping(value = " ++ q ++ base ++ q ++ ")";
        "public class WidgetController {";
        "    @GetMapping(" ++ q ++ path ++ q ++ ")";
        "    public List<Widget> list() {"].

(** spring: a parameter that is called [Model]
<<
    public String rename(String Model, int id) {
>> *)
Definition java_rename : list string :=
  ["    public String rename(String Model, int id) {"].

End Samples.

(* ===================================================================== *)
(** ** File discovery *)
(* ===================================================================== *)

(** [_find_files], the same in the three analyzers up to the ignore set and
    the extensions.  The directory tree is what [os.walk] reads: for each
    directory its sub-directories and its file names, in the order of the
    listing. *)
Module Files.
Import Py.

Inductive dir : Type :=
| Dir (subdirs : list (string * dir)) (filenames : list string).

(** [s.endswith(suffix)] *)
Fixpoint endswith (suffix s : string) : bool :=
  String.eqb suffix s ||
  match s with
  | EmptyString => false
  | String _ s' => endswith suffix s'
  end.

(** [os.path.join(a, b)] on POSIX. *)
Definition path_join (a b : string) : string :=
  if startswith "/" b then b
  else if String.eqb a "" || endswith "/" a then a ++ b
  else a ++ "/" ++ b.

(** The loop over [os.walk(directory)]: the files of [root] that have one
    of the extensions, then the same for the sub-directories that are not
    in the ignore set ([dirs[:] = ...] prunes the walk). *)
Fixpoint walk (ignore_dirs extensions : list string) (root : string) (d : dir)
  : list string :=
  match d with
  | Dir subdirs filenames =>
      (map (path_join root)
           (filter (fun filename =>
                      existsb (fun ext => endswith ext filename) extensions)
                   filenames)
       ++ (fix each (ds : list (string * dir)) : list string :=
             match ds with
             | [] => []
             | (name, sub) :: ds' =>
                 ((if str_in name ignore_dirs then []
                   else walk ignore_dirs extensions (path_join root name) sub)
                  ++ each ds')%list
             end) subdirs)%list
  end.

Definition python_ignore_dirs : list string :=
  ["venv"; "__pycache__"; ".git"; "node_modules"; "dist"; "build"].

Definition java_ignore_dirs : list string :=
  ["target"; ".git"; "node_modules"; "dist"; "build"; ".mvn"; ".gradle"].

(** [FastAPIAnalyzer._find_files] and [FlaskAnalyzer._find_files] *)
Definition python_find_files (directory : string) (extensions : list string)
           (tree : dir) : list string :=
  walk python_ignore_dirs extensions directory tree.

(** [SpringBootAnalyzer._find_files] *)
Definition java_find_files (directory : string) (extensions : list string)
           (tree : dir) : list string :=
  walk java_ignore_dirs extensions directory tree.

(** The directory [d] without its sub-directories, at any depth, whose name
    is in the ignore set. *)
Fixpoint prune (ignore_dirs : list string) (d : dir) : dir :=
  match d with
  | Dir subdirs filenames =>
      Dir ((fix each (ds : list (string * dir)) : list (string * dir) :=
              match ds with
              | [] => []
              | (name, sub) :: ds' =>
                  if str_in name ignore_dirs then each ds'
                  else (name, prune ignore_dirs sub) :: each ds'
              end) subdirs)
          filenames
  end.

End Files.

(* ===================================================================== *)
(** ** Notions used in the statements *)
(* ===================================================================== *)

Module Notions.
Import Py.

(** The keys of a list in the order of their first occurrence. *)
Definition add_new (seen : list string) (k : string) : list string :=
  if str_in k seen then seen else (seen ++ [k])%list.

Definition first_seen (ks : list string) : list string :=
  fold_left add_new ks [].

(** The key of an endpoint in the document, when it has one. *)
Definition key_of {E Op} (entry : E -> result (string * string * Op)) (e : E)
  : option (string * string) :=
  match entry e with
  | Ok (p, m, _) => Some (p, m)
  | Raise _ => None
  end.

End Notions.

(* ===================================================================== *)
(** ** More sample inputs *)
(* ===================================================================== *)

Module MoreSamples.
Import Py Ast Samples.

(** The endpoint the FastAPI visitor records for
<<
    @app.get(path)
    def handler(): ...
>> *)
Definition get_endpoint (path : string) : FastAPI.endpoint :=
  {| FastAPI.method := PyStr "GET"; FastAPI.path := PyStr path;
     FastAPI.file := "a.py"; FastAPI.line := 2; FastAPI.function := "handler";
     FastAPI.summary := PyNone; FastAPI.description := PyNone;
     FastAPI.tags := []; FastAPI.parameters := [];
     FastAPI.responses := {| OpenAPI.r200_description := "Successful Response";
                             OpenAPI.r200_schema := None |};
     FastAPI.request_body := None; FastAPI.security := [] |}.

(** The endpoint the Flask visitor records for
<<
    @app.route(path)
    def handler(): ...
>> *)
Definition route_endpoint (path : string) : Flask.endpoint :=
  {| Flask.method := "GET"; Flask.path := PyStr path; Flask.file := "a.py";
     Flask.line := 2; Flask.function := "handler"; Flask.blueprint := None;
     Flask.summary := "Handler"; Flask.description := PyNone |}.

(** flask:
<<
    @app.route('/x', methods=['get', 'post'])
    def both(): ...
>> *)
Definition flask_both : funcdef :=
  decorated (decorator_call 1 "app" "route" [Constant (PyStr "/x")]
               [(Some "methods",
                 ListExpr [Constant (PyStr "get"); Constant (PyStr "post")])])
            "both" [] 2.

End MoreSamples.

(* ===================================================================== *)
(** ** What a visit may change *)
(* ===================================================================== *)

Module Invariants.
Import Py Ast OpenAPI.

Definition schema_default (s : schema) : option pyval :=
  match s with Schema _ _ _ default => default end.

(** The methods of the FastAPI endpoints: [attr.upper()] of a verb. *)
Definition fastapi_methods : list pyval :=
  map (fun verb => PyStr (upper verb)) FastAPI.http_verbs.

(** From [v] to [v'] the FastAPI visitor has only appended endpoints, all
    of the visited file and with a verb as method, and possibly changed
    [router_prefix]. *)
Definition fastapi_step (v v' : FastAPI.visitor) : Prop :=
  FastAPI.file_path v' = FastAPI.file_path v /\
  FastAPI.content v' = FastAPI.content v /\
  FastAPI.current_class v' = FastAPI.current_class v /\
  FastAPI.schemas v' = FastAPI.schemas v /\
  exists es,
    FastAPI.endpoints v' = (FastAPI.endpoints v ++ es)%list /\
    Forall (fun e => FastAPI.file e = FastAPI.file_path v /\
                     In (FastAPI.method e) fastapi_methods) es.

(** From [v] to [v'] the Flask visitor has only appended endpoints, all of
    the visited file, with a method in upper case and the summary made from
    the name of the function, and possibly recorded the application
    variable and blueprints. *)
Definition flask_step (v v' : Flask.visitor) : Prop :=
  Flask.file_path v' = Flask.file_path v /\
  Flask.content v' = Flask.content v /\
  Flask.current_class v' = Flask.current_class v /\
  Flask.schemas v' = Flask.schemas v /\
  exists es,
    Flask.endpoints v' = (Flask.endpoints v ++ es)%list /\
    Forall (fun e => Flask.file e = Flask.file_path v /\
                     upper (Flask.method e) = Flask.method e /\
                     Flask.summary e
                       = title (replace_char "_" " " (Flask.function e))) es.

End Invariants.

(* ===================================================================== *)
(** ** Patterns without groups *)
(* ===================================================================== *)

Module Patterns.
Import Py Re.

(** Whether a pattern has no capturing group. *)
Fixpoint groupless (r : regex) : bool :=
  match r with
  | Eps | Chr _ | Star _ | Plus _ => true
  | Seq r1 r2 | Alt r1 r2 => groupless r1 && groupless r2
  | Opt r1 => groupless r1
  | Group _ _ => false
  end.

(** The test of the second loop of [_parse_endpoint_annotation]:
    ['public' in line or 'private' in line or 'protected' in line]. *)
Definition has_visibility (line : string) : bool :=
  contains "public" line || contains "private" line
  || contains "protected" line.

(** The seven names [_java_type_to_openapi] can give. *)
Definition java_openapi_types : list string :=
  ["string"; "integer"; "number"; "boolean"; "array"; "void"; "object"].

End Patterns.

(* ===================================================================== *)
(** ** Values without the methods of [str], and two more routes *)
(* ===================================================================== *)

Module Values.
Import Py.

(** [None], an [int] or a [bool]: a value on which [.upper()], [.lower()]
    and [.replace()] raise [AttributeError]. *)
Definition not_text (v : pyval) : bool :=
  match v with
  | PyNone | PyInt _ | PyBool _ => true
  | PyStr _ => false
  end.

End Values.

Module ArgumentSamples.
Import Py Ast Samples.

(** fastapi:
<<
    @app.get('/items/{cls}')
    def by_class(cls): ...
>> *)
Definition fastapi_cls : funcdef :=
  decorated (decorator_call 1 "app" "get" [Constant (PyStr "/items/{cls}")] [])
            "by_class" [plain_arg "cls"] 2.

(** flask:
<<
    @app.route('/users/{id}')
    def get_user(id): ...
>> *)
Definition flask_user : funcdef :=
  decorated (decorator_call 1 "app" "route" [Constant (PyStr "/users/{id}")] [])
            "get_user" [plain_arg "id"] 2.


(** flask:
<<
    @app.route('/x', methods=['get', None])
    def odd(): ...
>> *)
Definition flask_none_method : funcdef :=
  decorated (decorator_call 1 "app" "route" [Constant (PyStr "/x")]
               [(Some "methods",
                 ListExpr [Constant (PyStr "get"); Constant PyNone])])
            "odd" [] 2.

End ArgumentSamples.

(* ===================================================================== *)
(** * Properties *)
(* ===================================================================== *)

Import Py Re Ast OpenAPI.

#[local] Arguments Ascii.eqb : simpl never.
#[local] Arguments String.eqb : simpl never.
#[local] Arguments is_word : simpl never.
#[local] Arguments is_space : simpl never.

(** ** Strings *)

Lemma append_nil_r (s : string) : s ++ "" = s.
Proof. induction s; simpl; congruence. Qed.

Lemma append_assoc (a b c : string) : (a ++ b) ++ c = a ++ (b ++ c).
Proof. induction a; simpl; congruence. Qed.

Lemma length_append (a b : string) :
  String.length (a ++ b) = String.length a + String.length b.
Proof. induction a; simpl; congruence. Qed.

Lemma span_append p s : fst (span p s) ++ snd (span p s) = s.
Proof.
  induction s as [|c s IH]; simpl; [reflexivity|].
  destruct (p c); simpl; [|reflexivity].
  destruct (span p s) as [a b]; simpl in *. congruence.
Qed.

Lemma span_all p s : all_chars p (fst (span p s)) = true.
Proof.
  induction s as [|c s IH]; simpl; [reflexivity|].
  destruct (p c) eqn:E; simpl; [|reflexivity].
  destruct (span p s) as [a b]; simpl in *. now rewrite E.
Qed.

Lemma span_head_not p s : head_not p (snd (span p s)).
Proof.
  induction s as [|c s IH]; simpl; [exact I|].
  destruct (p c) eqn:E; simpl; [|exact E].
  destruct (span p s) as [a b]; simpl in *. exact IH.
Qed.

(** [span] is settled by a run of the class followed by a character that
    is not in it. *)
Lemma span_run p a b :
  all_chars p a = true -> head_not p b -> span p (a ++ b) = (a, b).
Proof.
  intros Ha Hb. induction a as [|c a IH]; simpl in *.
  - destruct b as [|d b]; simpl in *; [reflexivity|]. now rewrite Hb.
  - apply andb_prop in Ha as [Hc Ha]. rewrite Hc, (IH Ha). reflexivity.
Qed.

Lemma span_length p s :
  String.length (snd (span p s)) <= String.length s.
Proof.
  rewrite <- (span_append p s) at 2. rewrite length_append. lia.
Qed.

Lemma take_append a b : take (String.length a) (a ++ b) = a.
Proof. induction a; simpl; [destruct b|]; congruence. Qed.

Lemma consumed_append a b : consumed (a ++ b) b = a.
Proof.
  unfold consumed. rewrite length_append.
  replace (String.length a + String.length b - String.length b)
    with (String.length a) by lia.
  apply take_append.
Qed.

(** ** The matcher *)

(** The greedy run first offers the text after the longest run. *)
Lemma star_run_longest {A} p s (k : string -> option A) x :
  k (snd (span p s)) = Some x -> star_run p s k = Some x.
Proof.
  induction s as [|c s IH]; simpl; [auto|].
  destruct (p c); simpl; [|auto].
  destruct (span p s) as [a b]; simpl in *.
  intros H. now rewrite (IH H).
Qed.

(** It fails when the continuation fails after every run. *)
Lemma star_run_none {A} p s (k : string -> option A) :
  (forall a b, s = a ++ b -> all_chars p a = true -> k b = None) ->
  star_run p s k = None.
Proof.
  induction s as [|c s IH]; simpl; intros H.
  - apply (H "" ""); reflexivity.
  - destruct (p c) eqn:E.
    + rewrite IH.
      * apply (H "" (String c s)); reflexivity.
      * intros a b -> Ha. apply (H (String c a) b); simpl; [reflexivity|].
        now rewrite E.
    + apply (H "" (String c s)); reflexivity.
Qed.

(** Whatever it returns comes from the continuation, after some run. *)
Lemma star_run_some {A} p s (k : string -> option A) x :
  star_run p s k = Some x ->
  exists a b, s = a ++ b /\ all_chars p a = true /\ k b = Some x.
Proof.
  revert x. induction s as [|c s IH]; simpl; intros x H.
  - exists "", "". auto.
  - destruct (p c) eqn:E.
    + destruct (star_run p s k) as [y|] eqn:R.
      * destruct (IH y eq_refl) as (a & b & -> & Ha & Hk).
        exists (String c a), b. simpl. rewrite E. inversion H; subst. auto.
      * exists "", (String c s). auto.
    + exists "", (String c s). auto.
Qed.

(** A successful match hands to its continuation a text that is not longer
    than the one it started on, and shorter when the pattern cannot match
    the empty text. *)
Lemma exec_shorter {A} (r : regex) :
  forall s caps (k : string -> captures -> option A) x,
    exec r s caps k = Some x ->
    exists rest caps',
      k rest caps' = Some x /\
      String.length rest <= String.length s /\
      (nullable r = false -> String.length rest < String.length s).
Proof.
  induction r as [|p|r1 IH1 r2 IH2|r1 IH1 r2 IH2|r1 IH1|p|p|n r1 IH1];
    simpl; intros s caps k x H.
  - exists s, caps. repeat split; [assumption|lia|discriminate].
  - destruct s as [|c s]; [discriminate|]. destruct (p c); [|discriminate].
    exists s, caps. simpl. repeat split; [assumption|lia|lia].
  - apply IH1 in H as (s1 & c1 & H & L1 & N1).
    apply IH2 in H as (s2 & c2 & H & L2 & N2).
    exists s2, c2. repeat split; [assumption|lia|].
    intros N. apply andb_false_iff in N as [N|N]; [apply N1 in N|apply N2 in N]; lia.
  - destruct (exec r1 s caps k) as [y|] eqn:E1.
    + inversion H; subst. apply IH1 in E1 as (s1 & c1 & H1 & L1 & N1).
      exists s1, c1. repeat split; [assumption|lia|].
      intros N. apply orb_false_iff in N as [N _]. auto.
    + apply IH2 in H as (s2 & c2 & H2 & L2 & N2).
      exists s2, c2. repeat split; [assumption|lia|].
      intros N. apply orb_false_iff in N as [_ N]. auto.
  - destruct (exec r1 s caps k) as [y|] eqn:E1.
    + inversion H; subst. apply IH1 in E1 as (s1 & c1 & H1 & L1 & _).
      exists s1, c1. repeat split; [assumption|lia|discriminate].
    + exists s, caps. repeat split; [assumption|lia|discriminate].
  - apply star_run_some in H as (a & b & -> & _ & H).
    exists b, caps. rewrite length_append.
    repeat split; [assumption|lia|discriminate].
  - destruct s as [|c s]; [discriminate|]. destruct (p c); [|discriminate].
    apply star_run_some in H as (a & b & -> & _ & H).
    exists b, caps. simpl. rewrite length_append.
    repeat split; [assumption|lia|lia].
  - apply IH1 in H as (s1 & c1 & H & L1 & N1).
    exists s1, ((n, consumed s s1) :: c1). auto.
Qed.

Lemma re_match_progress r s caps rest :
  nullable r = false -> re_match r s = Some (caps, rest) ->
  String.length rest < String.length s.
Proof.
  intros N H. apply exec_shorter in H as (s1 & c1 & H & _ & L).
  inversion H; subst. auto.
Qed.

(** The scan, for a pattern that cannot match the empty text. *)
Lemma scan_cons r c s :
  nullable r = false ->
  scan r (String c s) =
  match re_match r (String c s) with
  | Some (caps, rest) => Hit caps :: scan r rest
  | None => Lit c :: scan r s
  end.
Proof.
  intros N. simp scan.
  destruct (re_match r (String c s)) as [[caps rest]|] eqn:E; simpl; [|reflexivity].
  pose proof (re_match_progress _ _ _ _ N E) as P. simpl in P.
  destruct (lt_dec (String.length rest) (S (String.length s))) as [L|L];
    simpl; [reflexivity|contradiction].
Qed.

(** The two patterns given to [findall] and [sub] read a character. *)
Lemma scanned_patterns_not_nullable :
  nullable Flask.path_param_re = false /\ nullable Spring.param_re = false.
Proof. split; reflexivity. Qed.

(** ** The path-parameter pattern of the Flask analyzer *)

Section PathParam.

#[local] Abbreviation k0 := (fun (rest : string) (caps : captures) => Some (caps, rest)).
#[local] Abbreviation close_re := (chr ">").
#[local] Abbreviation name_re := (Opt (Group 2 (Plus is_word))).
#[local] Abbreviation tail_re := (Seq (Opt (chr ":")) (Seq name_re close_re)).

(** [(\w+)?>] at [s]: the longest run of word characters, then [>]. *)
Lemma name_close_at s caps :
  exec name_re s caps (fun s1 caps1 => exec close_re s1 caps1 k0) =
  let (w2, r3) := span is_word s in
  match r3 with
  | String f r4 =>
      if Ascii.eqb f ">"
      then Some (match w2 with
                 | EmptyString => caps
                 | _ => (2, w2) :: caps
                 end, r4)
      else None
  | EmptyString => None
  end.
Proof.
  destruct s as [|d s]; [reflexivity|].
  cbn [exec]. pose proof (span_append is_word (String d s)) as App.
  pose proof (span_head_not is_word (String d s)) as Hn.
  pose proof (span_all is_word (String d s)) as Hall.
  destruct (span is_word (String d s)) as [w2 r3] eqn:Sp. simpl in App, Hn, Hall.
  simpl in Sp. destruct (is_word d) eqn:Wd.
  - (* the group reads the run *)
    destruct (span is_word s) as [a b] eqn:Sp'. inversion Sp; subst w2 r3.
    assert (Hd : Ascii.eqb ">" d = false).
    { destruct (Ascii.eqb_spec ">" d) as [<-|]; [discriminate Wd|reflexivity]. }
    destruct b as [|f r4].
    + rewrite star_run_none; [simpl; now rewrite Hd|].
      intros a' b' E Ha'. destruct b' as [|f' b'']; [reflexivity|].
      simpl. destruct (Ascii.eqb_spec ">" f') as [<-|]; [|reflexivity].
      exfalso. rewrite E in Sp'. rewrite span_run in Sp' by (auto; reflexivity).
      discriminate Sp'.
    + destruct (Ascii.eqb_spec f ">") as [->|Nf].
      * erewrite star_run_longest; [reflexivity|].
        rewrite Sp'. simpl. f_equal. f_equal. f_equal. f_equal.
        rewrite <- App. apply (consumed_append (String d a)).
      * rewrite star_run_none; [simpl; now rewrite Hd|].
        intros a' b' E Ha'. destruct b' as [|f' b'']; [reflexivity|].
        simpl. destruct (Ascii.eqb_spec ">" f') as [<-|]; [|reflexivity].
        exfalso. rewrite E in Sp'. rewrite span_run in Sp' by (auto; reflexivity).
        inversion Sp'. congruence.
  - inversion Sp; subst w2 r3. simpl.
    now rewrite (Ascii.eqb_sym ">" d).
Qed.

(** [:?(\w+)?>] at a text that does not begin with a word character. *)
Lemma tail_after_run s caps :
  head_not is_word s ->
  exec tail_re s caps k0 =
  match s with
  | String e r2 =>
      if Ascii.eqb e ":" then
        let (w2, r3) := span is_word r2 in
        match r3 with
        | String f r4 =>
            if Ascii.eqb f ">"
            then Some (match w2 with
                       | EmptyString => caps
                       | _ => (2, w2) :: caps
                       end, r4)
            else None
        | EmptyString => None
        end
      else if Ascii.eqb e ">" then Some (caps, r2)
      else None
  | EmptyString => None
  end.
Proof.
  intros Hn. destruct s as [|e r2]; [reflexivity|]. simpl in Hn.
  change (exec tail_re (String e r2) caps k0)
    with (match (if Ascii.eqb ":" e
                 then exec name_re r2 caps
                        (fun s1 caps1 => exec close_re s1 caps1 k0)
                 else None) with
          | Some x => Some x
          | None => exec name_re (String e r2) caps
                      (fun s1 caps1 => exec close_re s1 caps1 k0)
          end).
  rewrite !name_close_at. simpl span. rewrite Hn.
  rewrite (Ascii.eqb_sym ":" e).
  destruct (Ascii.eqb_spec e ":") as [->|Ne].
  - destruct (span is_word r2) as [w2 r3]. destruct r3 as [|f r4]; [reflexivity|].
    destruct (Ascii.eqb f ">"); reflexivity.
  - reflexivity.
Qed.

(** [:?(\w+)?>] at a text that begins with a word character. *)
Lemma tail_in_run d s caps :
  is_word d = true ->
  exec tail_re (String d s) caps k0 =
  match snd (span is_word (String d s)) with
  | String f r4 =>
      if Ascii.eqb f ">"
      then Some ((2, fst (span is_word (String d s))) :: caps, r4)
      else None
  | EmptyString => None
  end.
Proof.
  intros Wd.
  assert (Hd : Ascii.eqb ":" d = false).
  { destruct (Ascii.eqb_spec ":" d) as [<-|]; [discriminate Wd|reflexivity]. }
  change (exec tail_re (String d s) caps k0)
    with (match (if Ascii.eqb ":" d
                 then exec name_re s caps
                        (fun s1 caps1 => exec close_re s1 caps1 k0)
                 else None) with
          | Some x => Some x
          | None => exec name_re (String d s) caps
                      (fun s1 caps1 => exec close_re s1 caps1 k0)
          end).
  rewrite Hd, name_close_at. simpl span. rewrite Wd.
  destruct (span is_word s) as [a b]. reflexivity.
Qed.

(** The matcher computes [path_param_at]. *)
Lemma path_param_at_match s :
  re_match Flask.path_param_re s = Flask.path_param_at s.
Proof.
  destruct s as [|c s1]; [reflexivity|].
  change (re_match Flask.path_param_re (String c s1))
    with (if Ascii.eqb "<" c
          then exec (Group 1 (Plus is_word)) s1 []
                 (fun s' caps' => exec tail_re s' caps' k0)
          else None).
  unfold Flask.path_param_at. rewrite (Ascii.eqb_sym "<" c).
  destruct (Ascii.eqb c "<"); [|reflexivity].
  destruct s1 as [|d s2]; [reflexivity|].
  change (exec (Group 1 (Plus is_word)) (String d s2) []
            (fun s' caps' => exec tail_re s' caps' k0))
    with (if is_word d
          then star_run is_word s2
                 (fun s' => exec tail_re s' [(1, consumed (String d s2) s')] k0)
          else None).
  pose proof (span_append is_word (String d s2)) as App.
  pose proof (span_head_not is_word (String d s2)) as Hn.
  pose proof (span_all is_word (String d s2)) as Hall.
  destruct (span is_word (String d s2)) as [w1 r1] eqn:Sp.
  simpl in App, Hn, Hall. simpl in Sp.
  destruct (is_word d) eqn:Wd; [|inversion Sp; reflexivity].
  destruct (span is_word s2) as [a b] eqn:Sp'. inversion Sp; subst w1 r1.
  assert (Cons : consumed (String d s2) b = String d a).
  { rewrite <- App. apply (consumed_append (String d a)). }
  pose proof (tail_after_run b [(1, String d a)] Hn) as Greedy.
  destruct (exec tail_re b [(1, String d a)] k0) as [x|] eqn:T.
  - (* the longest run of group 1 is followed by a match of the rest *)
    erewrite star_run_longest; [|rewrite Sp'; simpl; rewrite Cons; exact T].
    rewrite Greedy. destruct b as [|e r2]; [reflexivity|].
    destruct (Ascii.eqb e ":").
    + destruct (span is_word r2) as [w2 r3]. destruct r3 as [|f r4]; [reflexivity|].
      destruct (Ascii.eqb f ">"); [|reflexivity]. destruct w2; reflexivity.
    + reflexivity.
  - (* no shorter run of group 1 does better *)
    rewrite star_run_none.
    + destruct b as [|e r2]; [reflexivity|].
      destruct (Ascii.eqb e ":").
      * destruct (span is_word r2) as [w2 r3]. destruct r3 as [|f r4]; [reflexivity|].
        destruct (Ascii.eqb f ">"); [discriminate Greedy|reflexivity].
      * destruct (Ascii.eqb e ">"); [discriminate Greedy|reflexivity].
    + intros a' b' E Ha'. cbv beta.
      destruct b' as [|d' t]; [reflexivity|].
      destruct (is_word d') eqn:Wd'.
      * rewrite tail_in_run by assumption.
        pose proof (span_append is_word (String d' t)) as App'.
        pose proof (span_head_not is_word (String d' t)) as Hn'.
        pose proof (span_all is_word (String d' t)) as Hall'.
        destruct (span is_word (String d' t)) as [w' r'] eqn:Sp''.
        simpl fst in *. simpl snd in *.
        assert (r' = b).
        { rewrite E, <- App', <- append_assoc in Sp'.
          rewrite span_run in Sp'; [congruence| |assumption].
          clear -Ha' Hall'. induction a' as [|x a' IH]; simpl in *; [assumption|].
          apply andb_prop in Ha' as [-> Ha']. auto. }
        subst r'. destruct b as [|f r4]; [reflexivity|].
        destruct (Ascii.eqb_spec f ">") as [->|]; [|reflexivity].
        simpl in Greedy. discriminate Greedy.
      * assert (String d' t = b) as Eb.
        { rewrite E in Sp'. rewrite span_run in Sp'; [congruence|assumption|exact Wd']. }
        rewrite Eb, Cons. exact T.
Qed.

End PathParam.

Section ConvertPath.

#[local] Abbreviation convert := Flask.convert_path.
#[local] Abbreviation param_at := Flask.path_param_at.

Lemma path_param_nullable : nullable Flask.path_param_re = false.
Proof. reflexivity. Qed.

Lemma convert_path_cons c s :
  convert (String c s) =
  match param_at (String c s) with
  | Some (caps, rest) => Flask.braces_group2 caps ++ convert rest
  | None => String c (convert s)
  end.
Proof.
  unfold Flask.convert_path, sub.
  rewrite scan_cons by apply path_param_nullable.
  rewrite path_param_at_match.
  destruct (param_at (String c s)) as [[caps rest]|]; reflexivity.
Qed.

Lemma param_at_head c s :
  Ascii.eqb c "<" = false -> param_at (String c s) = None.
Proof. intros H. unfold Flask.path_param_at. now rewrite H. Qed.

(** What a match leaves: a replacement without [<], and a shorter text. *)
Lemma param_at_some s caps rest :
  param_at s = Some (caps, rest) ->
  all_chars (fun c => negb (Ascii.eqb c "<")) (Flask.braces_group2 caps) = true
  /\ String.length rest < String.length s.
Proof.
  intros H. split.
  - assert (W : forall w, all_chars is_word w = true ->
                all_chars (fun c => negb (Ascii.eqb c "<")) ("{" ++ w ++ "}") = true).
    { intros w Hw. simpl. induction w as [|x w IH]; [reflexivity|].
      simpl in *. apply andb_prop in Hw as [Hx Hw]. rewrite (IH Hw).
      destruct (Ascii.eqb_spec x "<") as [->|]; [discriminate Hx|reflexivity]. }
    unfold Flask.path_param_at in H.
    destruct s as [|c s1]; [discriminate|].
    destruct (Ascii.eqb c "<"); [|discriminate].
    pose proof (span_all is_word s1) as A1.
    destruct (span is_word s1) as [w1 r1]. destruct w1 as [|x w1]; [discriminate|].
    destruct r1 as [|e r2]; [discriminate|].
    destruct (Ascii.eqb e ":").
    + pose proof (span_all is_word r2) as A2.
      destruct (span is_word r2) as [w2 r3]. destruct r3 as [|f r4]; [discriminate|].
      destruct (Ascii.eqb f ">"); [|discriminate].
      inversion H; subst. destruct w2; [reflexivity|]. apply (W _ A2).
    + destruct (Ascii.eqb e ">"); [|discriminate]. inversion H; subst. reflexivity.
  - rewrite <- path_param_at_match in H.
    eapply re_match_progress; [apply path_param_nullable|eassumption].
Qed.

(** The conversion copies a run of word characters. *)
Lemma convert_word_run a b :
  all_chars is_word a = true -> convert (a ++ b) = a ++ convert b.
Proof.
  induction a as [|c a IH]; simpl; intros H; [reflexivity|].
  apply andb_prop in H as [Hc Ha].
  rewrite convert_path_cons, param_at_head, (IH Ha); [reflexivity|].
  destruct (Ascii.eqb_spec c "<") as [->|]; [discriminate Hc|reflexivity].
Qed.

(** The first character of the converted text is the first character of the
    text, or the opening brace of a replacement put for a [<]. *)
Lemma convert_head s :
  match s with
  | EmptyString => convert s = ""
  | String c _ =>
      exists c' t, convert s = String c' t /\
                   (c' = c \/ (c = "<"%char /\ c' = "{"%char))
  end.
Proof.
  destruct s as [|c s]; [reflexivity|].
  rewrite convert_path_cons.
  destruct (param_at (String c s)) as [[caps rest]|] eqn:E.
  - exists "{"%char, (group_or_empty 2 caps ++ "}" ++ convert rest).
    split; [unfold Flask.braces_group2; simpl; now rewrite !append_assoc|].
    right. split; [|reflexivity].
    destruct (Ascii.eqb_spec c "<") as [->|N]; [reflexivity|].
    rewrite param_at_head in E; [discriminate|].
    now apply Ascii.eqb_neq.
  - exists c, (convert s). auto.
Qed.

Lemma convert_head_not (p : ascii -> bool) s :
  p "{"%char = false -> head_not p s -> head_not p (convert s).
Proof.
  intros Hb Hs. pose proof (convert_head s) as H.
  destruct s as [|c s]; [now rewrite H|].
  destruct H as (c' & t & -> & [->|[_ ->]]); simpl; auto.
Qed.

(** Where no placeholder starts, none starts after the conversion of what
    follows the first character. *)
Lemma param_at_none_convert c s :
  param_at (String c s) = None -> param_at (String c (convert s)) = None.
Proof.
  unfold Flask.path_param_at.
  destruct (Ascii.eqb c "<"); [|reflexivity].
  pose proof (span_append is_word s) as App.
  pose proof (span_all is_word s) as All.
  pose proof (span_head_not is_word s) as Hn.
  destruct (span is_word s) as [w1 r1]. simpl in App, All, Hn.
  rewrite <- App, (convert_word_run _ _ All).
  rewrite (span_run _ _ _ All (convert_head_not _ _ eq_refl Hn)).
  destruct w1 as [|x w1]; [reflexivity|].
  pose proof (convert_head r1) as Hr1.
  destruct r1 as [|e r2]; [now rewrite Hr1|].
  destruct (Ascii.eqb_spec e ":") as [->|Ne].
  - (* the colon is copied, and so is the run after it *)
    rewrite convert_path_cons, param_at_head by reflexivity.
    pose proof (span_append is_word r2) as App2.
    pose proof (span_all is_word r2) as All2.
    pose proof (span_head_not is_word r2) as Hn2.
    destruct (span is_word r2) as [w2 r3]. simpl in App2, All2, Hn2.
    rewrite <- App2, (convert_word_run _ _ All2).
    change (Ascii.eqb ":" ":") with true. cbv iota.
    rewrite (span_run _ _ _ All2 (convert_head_not _ _ eq_refl Hn2)).
    pose proof (convert_head r3) as Hr3.
    destruct r3 as [|f r4]; [now rewrite Hr3|].
    destruct (Ascii.eqb_spec f ">") as [->|Nf]; [discriminate|]. intros _.
    destruct Hr3 as (f' & t & -> & [->|[_ ->]]).
    + apply Ascii.eqb_neq in Nf. now rewrite Nf.
    + reflexivity.
  - destruct (Ascii.eqb_spec e ">") as [->|Ng]; [discriminate|]. intros _.
    destruct Hr1 as (e' & t & -> & [->|[_ ->]]).
    + apply Ascii.eqb_neq in Ne, Ng. now rewrite Ne, Ng.
    + reflexivity.
Qed.

Lemma append_split (x y a b : string) :
  x ++ y = a ++ b ->
  (exists a', y = a' ++ b) \/
  (exists x1 c x2, x = x1 ++ String c x2 /\ b = String c x2 ++ y).
Proof.
  revert a. induction x as [|c x IH]; simpl; intros a H.
  - left. exists a. assumption.
  - destruct a as [|d a]; simpl in H.
    + right. exists "", c, x. auto.
    + inversion H; subst d. destruct (IH a H2) as [L|(x1 & e & x2 & -> & ->)].
      * left. assumption.
      * right. exists (String c x1), e, x2. auto.
Qed.

(** No placeholder starts anywhere in a converted path. *)
Lemma convert_no_placeholder s :
  forall a b, convert s = a ++ b -> param_at b = None.
Proof.
  remember (String.length s) as n eqn:Len. revert s Len.
  induction n as [n IH] using lt_wf_ind. intros s Len a b H.
  destruct s as [|c s].
  - destruct a; [|discriminate]. simpl in H. now subst b.
  - rewrite convert_path_cons in H.
    destruct (param_at (String c s)) as [[caps rest]|] eqn:E.
    + apply param_at_some in E as [Hx Hl].
      apply append_split in H as [[a' H]|(x1 & d & x2 & Hx12 & ->)].
      * eapply (IH (String.length rest)); [subst n; exact Hl|reflexivity|exact H].
      * simpl. apply param_at_head.
        rewrite Hx12 in Hx. clear -Hx.
        induction x1 as [|y x1 IHx]; simpl in Hx.
        -- apply andb_prop in Hx as [Hd _]. now apply negb_true_iff in Hd.
        -- apply andb_prop in Hx as [_ Hx]. auto.
    + destruct a as [|d a]; simpl in H.
      * subst b. now apply param_at_none_convert.
      * inversion H; subst d.
        eapply (IH (String.length s)); [subst n; simpl; lia|reflexivity|eassumption].
Qed.

(** A text in which no placeholder starts is left as it is. *)
Lemma convert_fixed t :
  (forall a b, t = a ++ b -> param_at b = None) -> convert t = t.
Proof.
  induction t as [|c t IH]; intros H; [reflexivity|].
  rewrite convert_path_cons, (H "" (String c t) eq_refl), IH; [reflexivity|].
  intros a b ->. apply (H (String c a) b). reflexivity.
Qed.

End ConvertPath.

(** C9.  Converting a path twice gives what converting it once gives: the
    conversion [re.sub(r'<(\w+):?(\w+)?>', r'{\2}', p)] of Flask
    placeholders to the brace form is idempotent. *)
Theorem convert_path_idempotent (p : string) :
  Flask.convert_path (Flask.convert_path p) = Flask.convert_path p.
Proof.
  apply convert_fixed. apply convert_no_placeholder.
Qed.

Import Samples.

(** ** The Flask document keeps the native placeholder form *)

(** C2.  For the route ['/items/<int:item_id>'] the parameter [item_id] is
    emitted with [in = path], [required = true] and type [integer], and the
    converted path ['/items/{item_id}'] is computed; but the key of the
    document is the path as written, and the document has no entry under
    ['/items/{item_id}']. *)
Theorem flask_items_document :
  exists doc op,
    Flask.main [("app.py", Module "" flask_items)] = Ok doc /\
    paths doc = [("/items/<int:item_id>", [("get", op)])] /\
    Flask.op_parameters op =
      Some [{| p_name := "item_id"; p_in := "path"; p_required := Some true;
               p_schema := simple "integer" |}] /\
    Flask.convert_path "/items/<int:item_id>" = "/items/{item_id}" /\
    dict_get "/items/{item_id}" (paths doc) = None.
Proof.
  eexists. eexists. split; [vm_compute; reflexivity|].
  repeat split; vm_compute; reflexivity.
Qed.

(** ** The router prefix of the FastAPI analyzer *)

(** C5.  The prefix of a router never reaches the paths of its routes:
    [router = APIRouter(prefix='/api')] is not read at all; the prefix of a
    class decorated with [@router(prefix='/api')] is stored in
    [router_prefix] and the emitted path is still ['/items']; and a route
    declared inside such a class makes the whole file fail, with no
    endpoint. *)
Theorem fastapi_prefix_not_prepended :
  map FastAPI.path
      (FastAPI.a_endpoints (FastAPI.analyze [("a.py", Module "" fastapi_router)]))
    = [PyStr "/items"]
  /\ (exists v,
        for_each FastAPI.visit fastapi_router_class (FastAPI.new_visitor "a.py" "")
          = Ok v /\
        FastAPI.router_prefix v = PyStr "/api" /\
        map FastAPI.path (FastAPI.endpoints v) = [PyStr "/items"])
  /\ (let a := FastAPI.analyze [("a.py", Module "" fastapi_router_method)] in
      FastAPI.a_endpoints a = [] /\
      FastAPI.a_stderr a = [ErrorAnalyzing "a.py"]).
Proof.
  split; [reflexivity|]. split; [|split; reflexivity].
  eexists. split; [vm_compute; reflexivity|]. split; reflexivity.
Qed.

(** ** The carrier parameters of the Spring analyzer *)

(** C7.  The filter of [_parse_method_signature] compares the parameter
    name, not its type: for
    [public String show(HttpServletRequest request, Model model, int id)]
    the request and the model objects are kept and emitted as query
    parameters of type [object], while in
    [public String rename(String Model, int id)] the string parameter
    called [Model] is dropped. *)
Theorem spring_carrier_parameters_kept :
  Spring.sig_parameters (Spring._parse_method_signature java_show) =
    [{| Spring.jp_name := "request"; Spring.jp_type := "HttpServletRequest" |};
     {| Spring.jp_name := "model"; Spring.jp_type := "Model" |};
     {| Spring.jp_name := "id"; Spring.jp_type := "int" |}]
  /\ Spring._extract_parameters_from_signature
       (Some (Spring._parse_method_signature java_show)) =
     Ok [{| p_name := "request"; p_in := "query"; p_required := None;
            p_schema := simple "object" |};
         {| p_name := "model"; p_in := "query"; p_required := None;
            p_schema := simple "object" |};
         {| p_name := "id"; p_in := "query"; p_required := None;
            p_schema := simple "integer" |}]
  /\ Spring.sig_parameters (Spring._parse_method_signature java_rename) =
       [{| Spring.jp_name := "id"; Spring.jp_type := "int" |}].
Proof. repeat split; vm_compute; reflexivity. Qed.

(** ** Dicts and the aggregation step *)

Section Dicts.
Context {V : Type}.
Implicit Types (d : dict V) (k : string) (v : V).

Lemma dict_get_set_eq k v d : dict_get k (dict_set k v d) = Some v.
Proof.
  induction d as [|[k' v'] d IH]; simpl.
  - now rewrite String.eqb_refl.
  - destruct (String.eqb k k') eqn:E; simpl; rewrite E; auto.
Qed.

Lemma dict_get_set_neq k k' v d :
  k <> k' -> dict_get k' (dict_set k v d) = dict_get k' d.
Proof.
  intros N. induction d as [|[k1 v1] d IH]; simpl.
  - apply String.eqb_neq in N. now rewrite String.eqb_sym, N.
  - destruct (String.eqb k k1) eqn:E; simpl; [|now rewrite IH].
    apply String.eqb_eq in E. subst k1.
    apply not_eq_sym, String.eqb_neq in N. now rewrite N.
Qed.

(** Writing the value a key already has changes nothing. *)
Lemma dict_set_same k v d : dict_get k d = Some v -> dict_set k v d = d.
Proof.
  induction d as [|[k' v'] d IH]; simpl; [discriminate|].
  destruct (String.eqb k k') eqn:E.
  - intros H. now inversion H.
  - intros H. now rewrite (IH H).
Qed.

Lemma dict_set_keys k v d :
  forall k', In k' (dict_keys (dict_set k v d)) <-> k' = k \/ In k' (dict_keys d).
Proof.
  intros k'. induction d as [|[k1 v1] d IH]; simpl.
  - intuition.
  - destruct (String.eqb_spec k k1) as [->|N]; simpl; [intuition|].
    rewrite IH. intuition.
Qed.

(** A key is in the dict once. *)
Lemma dict_set_nodup k v d :
  NoDup (dict_keys d) -> NoDup (dict_keys (dict_set k v d)).
Proof.
  induction d as [|[k1 v1] d IH]; simpl; intros H.
  - constructor; [intros []|constructor].
  - inversion H as [|? ? Hn Hd]; subst.
    destruct (String.eqb_spec k k1) as [->|N]; simpl.
    + constructor; assumption.
    + constructor; [|auto]. rewrite dict_set_keys. intros [E|I]; [|auto].
      congruence.
Qed.

Lemma dict_get_in k v d : dict_get k d = Some v -> In (k, v) d.
Proof.
  induction d as [|[k1 v1] d IH]; simpl; [discriminate|].
  destruct (String.eqb_spec k k1) as [->|N]; intros H.
  - inversion H. auto.
  - auto.
Qed.

Lemma dict_set_in k v d k' v' :
  In (k', v') (dict_set k v d) -> (k' = k /\ v' = v) \/ In (k', v') d.
Proof.
  induction d as [|[k1 v1] d IH]; simpl.
  - intros [E|[]]. inversion E. auto.
  - destruct (String.eqb_spec k k1) as [->|N]; simpl.
    + intros [E|I]; [inversion E|]; auto.
    + intros [E|I]; [auto|]. apply IH in I. intuition.
Qed.

End Dicts.

Section Aggregation.
Context {E Op : Type} (entry : E -> result (string * string * Op)).
Implicit Types (paths : dict (dict Op)) (p m : string) (op : Op).

Lemma operation_at_put_eq p m op paths :
  operation_at p m (put_operation p m op paths) = Some op.
Proof.
  unfold operation_at, put_operation, dict_has.
  destruct (dict_get p paths) as [methods|] eqn:G.
  - rewrite G, dict_get_set_eq. apply dict_get_set_eq.
  - rewrite !dict_get_set_eq. reflexivity.
Qed.

Lemma operation_at_put_neq p m op p' m' paths :
  (p, m) <> (p', m') ->
  operation_at p' m' (put_operation p m op paths) = operation_at p' m' paths.
Proof.
  intros N. unfold operation_at, put_operation, dict_has.
  destruct (String.eqb_spec p p') as [<-|Np].
  - assert (Nm : m <> m') by congruence.
    destruct (dict_get p paths) as [methods|] eqn:G.
    + rewrite G, dict_get_set_eq. now apply dict_get_set_neq.
    + rewrite !dict_get_set_eq. now apply (dict_get_set_neq m m' op []).
  - destruct (dict_get p paths) as [methods|] eqn:G.
    + rewrite G. now rewrite dict_get_set_neq.
    + rewrite dict_get_set_eq. now rewrite !dict_get_set_neq.
Qed.

(** Storing the operation an entry already holds changes nothing. *)
Lemma put_operation_same p m op paths :
  operation_at p m paths = Some op -> put_operation p m op paths = paths.
Proof.
  unfold operation_at, put_operation, dict_has.
  destruct (dict_get p paths) as [methods|] eqn:G; [|discriminate].
  intros H. cbv iota. rewrite G, (dict_set_same _ _ _ H). now apply dict_set_same.
Qed.

Lemma put_operation_unique p m op paths :
  unique_entries paths -> unique_entries (put_operation p m op paths).
Proof.
  intros [Hp Hm]. unfold put_operation, dict_has.
  destruct (dict_get p paths) as [methods|] eqn:G.
  - rewrite G. split; [now apply dict_set_nodup|].
    intros p' ms I. apply dict_set_in in I as [[-> ->]|I]; [|eauto].
    apply dict_set_nodup. apply (Hm p). now apply dict_get_in.
  - rewrite dict_get_set_eq. split; [now repeat apply dict_set_nodup|].
    intros p' ms I. apply dict_set_in in I as [[-> ->]|I].
    + simpl. constructor; [intros []|constructor].
    + apply dict_set_in in I as [[-> ->]|I]; [constructor|eauto].
Qed.

Lemma for_each_app {A S} (body : A -> S -> result S) xs ys st :
  for_each body (xs ++ ys)%list st = bind (for_each body xs st) (for_each body ys).
Proof.
  revert st. induction xs as [|x xs IH]; intros st; simpl; [reflexivity|].
  destruct (body x st); simpl; auto.
Qed.

Lemma aggregate_unique es : forall paths paths',
  for_each (put_entry entry) es paths = Ok paths' ->
  unique_entries paths -> unique_entries paths'.
Proof.
  induction es as [|e es IH]; simpl; intros paths paths' H U.
  - inversion H. now subst.
  - unfold put_entry at 1 in H.
    destruct (entry e) as [[[p m] op]|]; [|discriminate]. simpl in H.
    eapply IH; [eassumption|]. now apply put_operation_unique.
Qed.

(** An entry stays as it is while the endpoints processed have other keys. *)
Lemma aggregate_keeps es p m : forall paths paths',
  for_each (put_entry entry) es paths = Ok paths' ->
  (forall e', In e' es -> forall op', entry e' <> Ok (p, m, op')) ->
  operation_at p m paths' = operation_at p m paths.
Proof.
  induction es as [|e es IH]; simpl; intros paths paths' H N.
  - inversion H. reflexivity.
  - unfold put_entry at 1 in H.
    destruct (entry e) as [[[p1 m1] op1]|] eqn:Ee; [|discriminate]. simpl in H.
    rewrite (IH _ _ H) by auto.
    apply operation_at_put_neq. intros X. inversion X; subst.
    apply (N e (or_introl eq_refl) op1). assumption.
Qed.

(** The entry of a key is the operation of the last endpoint with that key. *)
Lemma aggregate_last es1 e es2 p m op paths paths' :
  for_each (put_entry entry) (es1 ++ e :: es2)%list paths = Ok paths' ->
  entry e = Ok (p, m, op) ->
  (forall e', In e' es2 -> forall op', entry e' <> Ok (p, m, op')) ->
  operation_at p m paths' = Some op.
Proof.
  intros H Ee N. rewrite for_each_app in H.
  destruct (for_each (put_entry entry) es1 paths) as [paths1|]; [|discriminate].
  simpl in H. unfold put_entry at 1 in H. rewrite Ee in H. simpl in H.
  rewrite (aggregate_keeps _ _ _ _ _ H N). apply operation_at_put_eq.
Qed.

(** An endpoint whose operation is the one its key holds adds nothing. *)
Lemma aggregate_same es e p m op paths paths' :
  for_each (put_entry entry) es paths = Ok paths' ->
  entry e = Ok (p, m, op) ->
  operation_at p m paths' = Some op ->
  for_each (put_entry entry) (es ++ [e])%list paths = Ok paths'.
Proof.
  intros H Ee O. rewrite for_each_app, H. simpl.
  unfold put_entry. rewrite Ee. simpl. now rewrite put_operation_same.
Qed.

End Aggregation.

(** ** Two declarations of one (path, method) *)

Lemma generate_openapi_fastapi_paths info es schemas doc :
  FastAPI.generate_openapi info es schemas = Ok doc ->
  for_each (put_entry FastAPI.entry_of) es [] = Ok (paths doc).
Proof.
  unfold FastAPI.generate_openapi, FastAPI.generate_step.
  destruct (for_each (put_entry FastAPI.entry_of) es []) as [ps|]; simpl;
    [|discriminate].
  intros H. inversion H. reflexivity.
Qed.

Lemma generate_openapi_flask_paths info es schemas doc :
  Flask.generate_openapi info es schemas = Ok doc ->
  for_each (put_entry Flask.entry_of) es [] = Ok (paths doc).
Proof.
  unfold Flask.generate_openapi, Flask.generate_step.
  destruct (for_each (put_entry Flask.entry_of) es []) as [ps|]; simpl;
    [|discriminate].
  intros H. inversion H. reflexivity.
Qed.

Lemma unique_entries_nil {Op} : unique_entries (@nil (string * dict Op)).
Proof. split; [constructor|intros ? ? []]. Qed.

(** C1, as the code has it.  Of the declarations of one (path, method) the
    document holds the one processed last: its operation is the entry of
    the key whatever was declared before, every path and every method
    under a path is in the document once, and a further declaration with
    the same operation leaves the document as it is.  This holds for the
    FastAPI and for the Flask builder. *)
Theorem later_declaration_wins :
  (forall info es1 e es2 schemas doc p m op,
     FastAPI.generate_openapi info (es1 ++ e :: es2)%list schemas = Ok doc ->
     FastAPI.entry_of e = Ok (p, m, op) ->
     (forall e', In e' es2 -> forall op', FastAPI.entry_of e' <> Ok (p, m, op')) ->
     operation_at p m (paths doc) = Some op /\
     unique_entries (paths doc) /\
     (forall e', FastAPI.entry_of e' = Ok (p, m, op) ->
        FastAPI.generate_openapi info ((es1 ++ e :: es2) ++ [e'])%list schemas
          = Ok doc))
  /\
  (forall info es1 e es2 schemas doc p m op,
     Flask.generate_openapi info (es1 ++ e :: es2)%list schemas = Ok doc ->
     Flask.entry_of e = Ok (p, m, op) ->
     (forall e', In e' es2 -> forall op', Flask.entry_of e' <> Ok (p, m, op')) ->
     operation_at p m (paths doc) = Some op /\
     unique_entries (paths doc) /\
     (forall e', Flask.entry_of e' = Ok (p, m, op) ->
        Flask.generate_openapi info ((es1 ++ e :: es2) ++ [e'])%list schemas
          = Ok doc)).
Proof.
  split; intros info es1 e es2 schemas doc p m op H Ee N.
  - pose proof (generate_openapi_fastapi_paths _ _ _ _ H) as P.
    pose proof (aggregate_last _ _ _ _ _ _ _ _ _ P Ee N) as L.
    split; [exact L|]. split.
    + eapply aggregate_unique; [exact P|apply unique_entries_nil].
    + intros e' Ee'. unfold FastAPI.generate_openapi, FastAPI.generate_step in *.
      rewrite (aggregate_same _ _ _ _ _ _ _ _ P Ee' L).
      rewrite P in H. exact H.
  - pose proof (generate_openapi_flask_paths _ _ _ _ H) as P.
    pose proof (aggregate_last _ _ _ _ _ _ _ _ _ P Ee N) as L.
    split; [exact L|]. split.
    + eapply aggregate_unique; [exact P|apply unique_entries_nil].
    + intros e' Ee'. unfold Flask.generate_openapi, Flask.generate_step in *.
      rewrite (aggregate_same _ _ _ _ _ _ _ _ P Ee' L).
      rewrite P in H. exact H.
Qed.

(** The ping example: the second declaration is what the document holds. *)
Lemma later_declaration_wins_witness :
  exists doc,
    FastAPI.generate_openapi None
      ([ping_endpoint "a.py" "first"] ++ ping_endpoint "b.py" "second" :: [])%list []
      = Ok doc /\
    operation_at "/ping" "get" (paths doc) =
      Some (FastAPI.operation_of "GET" "/ping" (ping_endpoint "b.py" "second")).
Proof.
  eexists. split; [vm_compute; reflexivity|].
  refine (proj1 (proj1 later_declaration_wins None
                   [ping_endpoint "a.py" "first"]
                   (ping_endpoint "b.py" "second") [] [] _
                   "/ping" "get" _ _ _ _)).
  - vm_compute; reflexivity.
  - reflexivity.
  - intros e' [].
Defined.

(** C1, as it is stated, fails: two files declare [GET /ping] with
    different summaries; the document has one entry for the pair, it is the
    operation of the second file, the operation of the first file is gone,
    and nothing was reported. *)
Lemma first_declaration_overwritten :
  let analyzed := FastAPI.analyze ping_files in
  let first := FastAPI.operation_of "GET" "/ping" (ping_endpoint "a.py" "first") in
  let second := FastAPI.operation_of "GET" "/ping" (ping_endpoint "b.py" "second") in
  FastAPI.a_endpoints analyzed =
    [ping_endpoint "a.py" "first"; ping_endpoint "b.py" "second"]
  /\ FastAPI.a_stderr analyzed = []
  /\ first <> second
  /\ exists doc,
       FastAPI.main ping_files = Ok doc /\
       paths doc = [("/ping", [("get", second)])] /\
       operation_at "/ping" "get" (paths doc) <> Some first.
Proof.
  split; [reflexivity|]. split; [reflexivity|]. split; [discriminate|].
  eexists. split; [vm_compute; reflexivity|]. split; [reflexivity|].
  discriminate.
Qed.

(** ** The parameters of a FastAPI endpoint *)

Lemma first_route_decorator_in ds d :
  FastAPI.first_route_decorator ds = Some d -> In d ds.
Proof.
  induction ds as [|d0 ds IH]; simpl; [discriminate|].
  destruct d0 as [| | |l f a k| | |]; auto.
  destruct f as [|id|val attr| | | |]; auto;
    match goal with
    | |- (if ?b then _ else _) = _ -> _ => destruct b; [|auto]
    end; intros H; inversion H; auto.
Qed.

(** [arg.arg in defaults] never holds: the keys of [defaults] are nodes. *)
Lemma node_dict_get_none {N V} (k : string) (d : list (N * V)) :
  node_dict_get k d = None.
Proof.
  unfold node_dict_get. induction d as [|kv d IH]; simpl; [reflexivity|].
  exact IH.
Qed.

Lemma path_check_ok name d prm prm' :
  FastAPI.path_check name d prm = Ok prm' ->
  p_name prm' = p_name prm /\
  (p_in prm = "path" -> p_in prm' = "path") /\
  (forall l f p rest kws,
     d = Call l f (Constant (PyStr p) :: rest) kws ->
     contains ("{" ++ name ++ "}") p = true -> p_in prm' = "path").
Proof.
  unfold FastAPI.path_check.
  destruct d as [| | |l f a k| | |];
    try (intros H; inversion H; subst; repeat split; auto; discriminate).
  destruct a as [|x a];
    [intros H; inversion H; subst; repeat split; auto; discriminate|].
  destruct x as [v| | | | | |];
    try (intros H; inversion H; subst; repeat split; auto; discriminate).
  destruct v as [|p| |]; try discriminate.
  destruct (contains ("{" ++ name ++ "}") p) eqn:C; intros H; inversion H; subst;
    repeat split; auto.
  intros ? ? ? ? ? E. inversion E; subst. congruence.
Qed.

Lemma path_checks_ok name ds : forall prm prm',
  for_each (FastAPI.path_check name) ds prm = Ok prm' ->
  p_name prm' = p_name prm /\
  (p_in prm = "path" -> p_in prm' = "path") /\
  (forall l f p rest kws,
     In (Call l f (Constant (PyStr p) :: rest) kws) ds ->
     contains ("{" ++ name ++ "}") p = true -> p_in prm' = "path").
Proof.
  induction ds as [|d ds IH]; simpl; intros prm prm' H.
  - inversion H; subst. repeat split; auto. intros ? ? ? ? ? [].
  - destruct (FastAPI.path_check name d prm) as [prm1|] eqn:E; [|discriminate].
    simpl in H. apply path_check_ok in E as (N1 & K1 & P1).
    apply IH in H as (N2 & K2 & P2).
    split; [congruence|]. split; [auto|].
    intros l f p rest kws [->|I] C; eauto.
Qed.

(** A parameter has the name of its argument and is required; it is a path
    parameter when a decorator's literal path has its [{name}]. *)
Lemma parameter_of_ok node a prm :
  FastAPI.parameter_of node a = Ok prm ->
  p_name prm = arg_name a /\
  p_required prm = Some true /\
  (forall l f p rest kws,
     In (Call l f (Constant (PyStr p) :: rest) kws) (fn_decorator_list node) ->
     contains ("{" ++ arg_name a ++ "}") p = true -> p_in prm = "path").
Proof.
  unfold FastAPI.parameter_of.
  destruct (for_each _ (fn_decorator_list node) _) as [prm1|] eqn:E; [|discriminate].
  simpl. rewrite node_dict_get_none. intros H. inversion H; subst; clear H.
  apply path_checks_ok in E as (N & _ & P). simpl in N.
  destruct (arg_annotation a); simpl; repeat split; eauto.
Qed.

Lemma parameters_of_ok node args : forall ps,
  FastAPI.parameters_of node args = Ok ps ->
  (forall prm, In prm ps ->
     exists a, In a args /\ FastAPI.parameter_of node a = Ok prm) /\
  (forall a, In a args -> FastAPI.is_self_or_cls (arg_name a) = false ->
     exists prm, In prm ps /\ FastAPI.parameter_of node a = Ok prm).
Proof.
  induction args as [|a args IH]; simpl; intros ps H.
  - inversion H; subst. split; [intros ? []|intros ? []].
  - destruct (FastAPI.is_self_or_cls (arg_name a)) eqn:S.
    + destruct (IH _ H) as [A B]. split.
      * intros prm I. destruct (A prm I) as (a' & I' & P). eauto.
      * intros a' [<-|I] S'; [congruence|auto].
    + destruct (FastAPI.parameter_of node a) as [prm0|] eqn:P0; [|discriminate].
      simpl in H.
      destruct (FastAPI.parameters_of node args) as [ps0|]; [|discriminate].
      simpl in H. inversion H; subst; clear H.
      destruct (IH _ eq_refl) as [A B]. split.
      * intros prm [<-|I]; [eauto|]. destruct (A prm I) as (a' & I' & P). eauto.
      * intros a' [<-|I] S'; [exists prm0; simpl; auto|].
        destruct (B a' I S') as (prm & Ip & P). exists prm. simpl. auto.
Qed.

(** What [visit_FunctionDef] appends for a route. *)
Lemma visit_FunctionDef_node_ok node v v' d :
  FastAPI._get_route_decorator node = Some d ->
  FastAPI.visit_FunctionDef_node node v = Ok v' ->
  exists method path summary description tags ps,
    FastAPI._parse_route_decorator (FastAPI.content v) d
      = Ok (method, path, summary, description, tags) /\
    FastAPI._extract_parameters node = Ok ps /\
    FastAPI.current_class v = None /\
    v' = FastAPI.add_endpoint
           {| FastAPI.method := method; FastAPI.path := path;
              FastAPI.file := FastAPI.file_path v;
              FastAPI.line := fn_lineno node;
              FastAPI.function := fn_name node;
              FastAPI.summary := summary; FastAPI.description := description;
              FastAPI.tags := tags; FastAPI.parameters := ps;
              FastAPI.responses := FastAPI._extract_responses node;
              FastAPI.request_body := FastAPI._extract_request_body node;
              FastAPI.security := FastAPI._extract_security node |} v.
Proof.
  intros D. unfold FastAPI.visit_FunctionDef_node. rewrite D.
  destruct (FastAPI._parse_route_decorator (FastAPI.content v) d)
    as [[[[[method path] summary] description] tags]|]; [|discriminate].
  simpl. destruct (FastAPI.current_class v); [discriminate|]. simpl.
  destruct (FastAPI._extract_parameters node) as [ps|]; [|discriminate].
  simpl. intros H. inversion H.
  exists method, path, summary, description, tags, ps. auto.
Qed.

(** No parameter comes from an argument called [self] or [cls]. *)
Lemma parameters_of_named node args : forall ps,
  FastAPI.parameters_of node args = Ok ps ->
  forall prm, In prm ps -> FastAPI.is_self_or_cls (p_name prm) = false.
Proof.
  induction args as [|a args IH]; simpl; intros ps H prm I.
  - inversion H; subst. destruct I.
  - destruct (FastAPI.is_self_or_cls (arg_name a)) eqn:S; [eauto|].
    destruct (FastAPI.parameter_of node a) as [prm0|] eqn:P0; [|discriminate].
    simpl in H.
    destruct (FastAPI.parameters_of node args) as [ps0|]; [|discriminate].
    simpl in H. inversion H; subst; clear H.
    destruct I as [<-|I]; [|eauto].
    apply parameter_of_ok in P0 as (N & _). now rewrite N.
Qed.

(** C3, as the code has it.  In an endpoint the FastAPI visitor emits for a
    route with the literal path [p], every argument of [node.args.args]
    that is not called [self] or [cls] and whose [{name}] occurs in [p] has
    a parameter, and every parameter of that name has [in = path] and
    [required = true] - whether or not the argument has a default; no
    parameter is called [self] or [cls]. *)
Theorem fastapi_path_parameter_required
        (node : funcdef) (v v' : FastAPI.visitor)
        (lineno : nat) (func : expr) (p : string) (rest : list expr)
        (keywords : list (option string * expr)) :
  FastAPI._get_route_decorator node
    = Some (Call lineno func (Constant (PyStr p) :: rest) keywords) ->
  FastAPI.visit_FunctionDef_node node v = Ok v' ->
  exists e,
    FastAPI.endpoints v' = (FastAPI.endpoints v ++ [e])%list /\
    FastAPI.path e = PyStr p /\
    (forall name,
       In name (map arg_name (fn_args node)) ->
       FastAPI.is_self_or_cls name = false ->
       contains ("{" ++ name ++ "}") p = true ->
       (exists prm, In prm (FastAPI.parameters e) /\ p_name prm = name) /\
       (forall prm, In prm (FastAPI.parameters e) -> p_name prm = name ->
                    p_in prm = "path" /\ p_required prm = Some true)) /\
    (forall prm, In prm (FastAPI.parameters e) ->
                 FastAPI.is_self_or_cls (p_name prm) = false).
Proof.
  intros D H.
  destruct (visit_FunctionDef_node_ok _ _ _ _ D H)
    as (method & path & summary & description & tags & ps & Pr & Ps & _ & ->).
  eexists. split; [reflexivity|]. simpl. split; [|split].
  - simpl in Pr.
    destruct (fold_left FastAPI.metadata_step keywords (PyNone, PyNone, []))
      as [[s0 d0] t0].
    inversion Pr. reflexivity.
  - intros name I S C.
    apply first_route_decorator_in in D.
    destruct (parameters_of_ok _ _ _ Ps) as [A B].
    apply in_map_iff in I as (a & <- & I). split.
    + destruct (B a I S) as (prm & Ip & P). exists prm. split; [assumption|].
      now apply parameter_of_ok in P.
    + intros prm Ip N. destruct (A prm Ip) as (a' & I' & P).
      apply parameter_of_ok in P as (N' & R & Pin). split; [|assumption].
      eapply Pin; [exact D|]. rewrite <- N', N. exact C.
  - exact (parameters_of_named _ _ _ Ps).
Qed.

(** [get_user(id: int = 0, verbose: bool = False)] on ['/users/{id}']: the
    argument [id] has a default and its parameter is a required path
    parameter. *)
Lemma fastapi_path_parameter_required_witness :
  exists e,
    FastAPI.visit_FunctionDef_node fastapi_user (FastAPI.new_visitor "a.py" "")
      = Ok (FastAPI.add_endpoint e (FastAPI.new_visitor "a.py" "")) /\
    (exists prm, In prm (FastAPI.parameters e) /\ p_name prm = "id") /\
    forall prm, In prm (FastAPI.parameters e) -> p_name prm = "id" ->
                p_in prm = "path" /\ p_required prm = Some true.
Proof.
  eexists. split; [vm_compute; reflexivity|].
  destruct (fastapi_path_parameter_required
              fastapi_user (FastAPI.new_visitor "a.py" "") _
              1 (Attribute (Name "app") "get") "/users/{id}" [] []
              eq_refl eq_refl) as (e & He & _ & Hargs & _).
  apply app_inj_tail in He as [_ <-].
  apply (Hargs "id"); [simpl; auto|reflexivity|reflexivity].
Defined.

(** C3, as it is stated, fails: the argument [cls] of [by_class] has its
    [{cls}] in the path ['/items/{cls}'] and the endpoint has no parameter
    at all; and the Flask analyzer gives the operation of
    [get_user(id)] on ['/users/{id}'] no parameters. *)
Lemma path_argument_without_parameter :
  (exists e,
     FastAPI.visit_FunctionDef_node ArgumentSamples.fastapi_cls
                                    (FastAPI.new_visitor "a.py" "")
       = Ok (FastAPI.add_endpoint e (FastAPI.new_visitor "a.py" "")) /\
     FastAPI.path e = PyStr "/items/{cls}" /\
     In "cls" (map arg_name (fn_args ArgumentSamples.fastapi_cls)) /\
     contains ("{" ++ "cls" ++ "}") "/items/{cls}" = true /\
     FastAPI.parameters e = [])
  /\
  (exists doc op,
     Flask.main [("a.py", Module "" [FunctionDef ArgumentSamples.flask_user []])]
       = Ok doc /\
     In "id" (map arg_name (fn_args ArgumentSamples.flask_user)) /\
     contains ("{" ++ "id" ++ "}") "/users/{id}" = true /\
     dict_keys (paths doc) = ["/users/{id}"] /\
     operation_at "/users/{id}" "get" (paths doc) = Some op /\
     Flask.op_parameters op = None).
Proof.
  split.
  - eexists. split; [vm_compute; reflexivity|].
    repeat split; simpl; auto.
  - eexists. eexists. split; [vm_compute; reflexivity|].
    repeat split; simpl; auto.
Qed.


(** ** Routes without a literal path *)



Lemma path_checks_clean name ds : forall prm,
  FastAPI.string_paths_only ds = true ->
  exists prm', for_each (FastAPI.path_check name) ds prm = Ok prm'.
Proof.
  induction ds as [|d ds IH]; simpl; intros prm H; [eauto|].
  apply andb_prop in H as [Hd Hds].
  assert (exists prm1, FastAPI.path_check name d prm = Ok prm1) as [prm1 ->].
  { unfold FastAPI.path_check.
    destruct d as [| | |l f a k| | |]; eauto.
    destruct a as [|x a]; eauto. destruct x as [v| | | | | |]; eauto.
    destruct v; try discriminate.
    destruct (contains ("{" ++ name ++ "}") s); eauto. }
  simpl. auto.
Qed.

(** Without a constant that is not a string among the first arguments of
    the decorators, [_extract_parameters] returns. *)
Lemma extract_parameters_clean node :
  FastAPI.string_paths_only (fn_decorator_list node) = true ->
  exists ps, FastAPI._extract_parameters node = Ok ps.
Proof.
  intros H. unfold FastAPI._extract_parameters.
  induction (fn_args node) as [|a args IH]; simpl; [eauto|].
  destruct (FastAPI.is_self_or_cls (arg_name a)); [assumption|].
  unfold FastAPI.parameter_of at 1.
  destruct (path_checks_clean (arg_name a) _
              {| p_name := arg_name a; p_in := "query";
                 p_required := Some false; p_schema := simple "string" |} H)
    as [prm ->].
  simpl. rewrite node_dict_get_none. simpl.
  destruct IH as [ps ->]. simpl. eauto.
Qed.





Section AggregationPresent.
Context {E Op : Type} (entry : E -> result (string * string * Op)).
Implicit Types (paths : dict (dict Op)) (p m : string).



End AggregationPresent.




(** C10.  The first argument of the route decorators [@app.get(5)] and
    [@app.route(5)] is not a literal string, and their endpoints do not get
    the default path: the test is for a constant, not for a string, so the
    path is the number 5 and the document builders then raise
    [AttributeError].  The decorators [@app.get()] and [@app.route()],
    without a first argument, do get the path ["/"]. *)
Lemma numeric_path_not_defaulted :
  (exists e,
     FastAPI.visit_FunctionDef_node fastapi_five (FastAPI.new_visitor "a.py" "")
       = Ok (FastAPI.add_endpoint e (FastAPI.new_visitor "a.py" "")) /\
     FastAPI.path e = PyInt 5 /\ FastAPI.path e <> PyStr "/")
  /\ FastAPI.main [("a.py", Module "" [FunctionDef fastapi_five []])]
     = Raise AttributeError
  /\ (exists v' e,
        Flask.visit_FunctionDef_node flask_five [] (Flask.new_visitor "a.py" "")
          = Ok v' /\
        Flask.endpoints v' = [e] /\
        Flask.path e = PyInt 5 /\ Flask.path e <> PyStr "/")
  /\ Flask.main [("a.py", Module "" [FunctionDef flask_five []])]
     = Raise AttributeError
  /\ map FastAPI.path
         (FastAPI.a_endpoints
            (FastAPI.analyze [("a.py", Module "" [FunctionDef fastapi_bare []])]))
     = [PyStr "/"]
  /\ map Flask.path
         (Flask.a_endpoints
            (Flask.analyze [("a.py", Module "" [FunctionDef flask_bare []])]))
     = [PyStr "/"].
Proof.
  split; [eexists; split; [vm_compute; reflexivity|]; split;
          [reflexivity|discriminate]|].
  split; [reflexivity|].
  split; [|split; [reflexivity|split; reflexivity]].
  eexists. eexists. split; [vm_compute; reflexivity|].
  split; [reflexivity|]. split; [reflexivity|discriminate].
Qed.

(** ** The base path of the Spring analyzer *)


(** What [rstrip] removes is at the end. *)
Lemma rstrip_char_prefix c s : exists z, s = rstrip_char c s ++ z.
Proof.
  unfold rstrip_char. induction s as [|d s [z IH]]; simpl; [exists ""; reflexivity|].
  destruct (rstrip_class (Ascii.eqb c) s) as [|e t] eqn:R.
  - destruct (Ascii.eqb c d).
    + exists (String d s). reflexivity.
    + exists z. simpl in *. congruence.
  - exists z. simpl in *. congruence.
Qed.

Lemma startswith_append p a z :
  startswith p a = true -> startswith p (a ++ z) = true.
Proof.
  revert a. induction p as [|x p IH]; intros a; simpl; [reflexivity|].
  destruct a as [|y a]; simpl; [discriminate|].
  intros H. apply andb_prop in H as [-> H]. simpl. auto.
Qed.

Lemma contains_append_true p a z :
  contains p a = true -> contains p (a ++ z) = true.
Proof.
  induction a as [|y a IH]; intros C.
  - destruct p as [|x p]; [destruct z; reflexivity|discriminate C].
  - change (startswith p (String y a) || contains p a = true) in C.
    change (startswith p (String y a ++ z) || contains p (a ++ z) = true).
    apply orb_prop in C as [C|C].
    + now rewrite (startswith_append _ _ _ C).
    + rewrite (IH C). apply orb_true_r.
Qed.

Lemma contains_append p a z :
  contains p (a ++ z) = false -> contains p a = false.
Proof.
  intros H. destruct (contains p a) eqn:C; [|reflexivity].
  now rewrite (contains_append_true _ _ z C) in H.
Qed.




(** The example of the specification, from the source text of a controller
    to the path of its endpoint. *)
Example spring_api_v1_widgets :
  map Spring.path (fst (Spring._parse_java_file "W.java"
                          (java_controller "/api/v1" "/widgets")))
    = ["/api/v1/api/v1"; "/api/v1/widgets"].
Proof. vm_compute. reflexivity. Qed.


(** ** Files that do not parse *)

Section UnparseableFastAPI.
Import FastAPI.

(** The endpoints and schemas a file adds do not depend on what was
    printed before. *)
Lemma fastapi_file_facts a b file_path src :
  a_endpoints a = a_endpoints b -> a_schemas a = a_schemas b ->
  a_endpoints (_analyze_file a file_path src)
    = a_endpoints (_analyze_file b file_path src) /\
  a_schemas (_analyze_file a file_path src)
    = a_schemas (_analyze_file b file_path src).
Proof.
  intros He Hs. destruct src as [|content|content body]; simpl; auto.
  destruct (for_each visit body (new_visitor file_path content)); simpl; auto.
  rewrite He, Hs. auto.
Qed.

Lemma fastapi_files_facts files : forall a b,
  a_endpoints a = a_endpoints b -> a_schemas a = a_schemas b ->
  a_endpoints (analyze_from a files) = a_endpoints (analyze_from b files) /\
  a_schemas (analyze_from a files) = a_schemas (analyze_from b files).
Proof.
  induction files as [|[file_path src] files IH]; intros a b He Hs; simpl; auto.
  destruct (fastapi_file_facts a b file_path src He Hs). now apply IH.
Qed.

(** What is printed stays printed. *)
Lemma fastapi_file_stderr a file_path src w :
  In w (a_stderr a) -> In w (a_stderr (_analyze_file a file_path src)).
Proof.
  intros I. destruct src as [|content|content body]; simpl;
    try (apply in_or_app; auto).
  destruct (for_each visit body (new_visitor file_path content)); simpl; auto.
  apply in_or_app; auto.
Qed.

Lemma fastapi_files_stderr files : forall a w,
  In w (a_stderr a) -> In w (a_stderr (analyze_from a files)).
Proof.
  induction files as [|[file_path src] files IH]; intros a w I; simpl; auto.
  apply IH. now apply fastapi_file_stderr.
Qed.

Lemma fastapi_analyze_app a files1 files2 :
  analyze_from a (files1 ++ files2)%list
    = analyze_from (analyze_from a files1) files2.
Proof. apply fold_left_app. Qed.

(** A run over files that all fail to parse finds nothing. *)
Lemma fastapi_all_unparseable (bad : list (string * string)) : forall a,
  a_endpoints (analyze_from a (map (fun f => (fst f, Unparseable (snd f))) bad))
    = a_endpoints a /\
  a_schemas (analyze_from a (map (fun f => (fst f, Unparseable (snd f))) bad))
    = a_schemas a.
Proof.
  induction bad as [|[file_path content] bad IH]; intros a; simpl; auto.
  destruct (IH (warn (CouldNotParse file_path) a)) as [-> ->]. auto.
Qed.

End UnparseableFastAPI.

Section UnparseableFlask.
Import Flask.

Lemma flask_file_facts a b file_path src :
  a_endpoints a = a_endpoints b -> a_schemas a = a_schemas b ->
  a_endpoints (_analyze_file a file_path src)
    = a_endpoints (_analyze_file b file_path src) /\
  a_schemas (_analyze_file a file_path src)
    = a_schemas (_analyze_file b file_path src).
Proof.
  intros He Hs. destruct src as [|content|content body]; simpl; auto.
  destruct (for_each visit body (new_visitor file_path content)); simpl; auto.
  rewrite He, Hs. auto.
Qed.

Lemma flask_files_facts files : forall a b,
  a_endpoints a = a_endpoints b -> a_schemas a = a_schemas b ->
  a_endpoints (analyze_from a files) = a_endpoints (analyze_from b files) /\
  a_schemas (analyze_from a files) = a_schemas (analyze_from b files).
Proof.
  induction files as [|[file_path src] files IH]; intros a b He Hs; simpl; auto.
  destruct (flask_file_facts a b file_path src He Hs). now apply IH.
Qed.

Lemma flask_file_stderr a file_path src w :
  In w (a_stderr a) -> In w (a_stderr (_analyze_file a file_path src)).
Proof.
  intros I. destruct src as [|content|content body]; simpl;
    try (apply in_or_app; auto).
  destruct (for_each visit body (new_visitor file_path content)); simpl; auto.
  apply in_or_app; auto.
Qed.

Lemma flask_files_stderr files : forall a w,
  In w (a_stderr a) -> In w (a_stderr (analyze_from a files)).
Proof.
  induction files as [|[file_path src] files IH]; intros a w I; simpl; auto.
  apply IH. now apply flask_file_stderr.
Qed.

Lemma flask_analyze_app a files1 files2 :
  analyze_from a (files1 ++ files2)%list
    = analyze_from (analyze_from a files1) files2.
Proof. apply fold_left_app. Qed.

Lemma flask_all_unparseable (bad : list (string * string)) : forall a,
  a_endpoints (analyze_from a (map (fun f => (fst f, Unparseable (snd f))) bad))
    = a_endpoints a /\
  a_schemas (analyze_from a (map (fun f => (fst f, Unparseable (snd f))) bad))
    = a_schemas a.
Proof.
  induction bad as [|[file_path content] bad IH]; intros a; simpl; auto.
  destruct (IH (warn (CouldNotParse file_path) a)) as [-> ->]. auto.
Qed.

End UnparseableFlask.

(** C8.  A file that does not parse leaves the endpoints and the schemas of
    the analyzer as they are and adds one line to stderr; a run over files
    among which it is collects the endpoints and schemas, and builds the
    document, of the run without it, with the warning printed; and a run
    over files none of which parses ends with the empty document.  This
    holds for the FastAPI and for the Flask analyzer. *)
Theorem unparseable_file_contributes_nothing
        (files1 files2 : list (string * source)) (file_path content : string)
        (bad : list (string * string)) :
  (forall a,
     FastAPI._analyze_file a file_path (Unparseable content)
       = FastAPI.warn (CouldNotParse file_path) a)
  /\ (let run := FastAPI.analyze
                   (files1 ++ (file_path, Unparseable content) :: files2)%list in
      let other := FastAPI.analyze (files1 ++ files2)%list in
      FastAPI.a_endpoints run = FastAPI.a_endpoints other /\
      FastAPI.a_schemas run = FastAPI.a_schemas other /\
      In (CouldNotParse file_path) (FastAPI.a_stderr run))
  /\ FastAPI.main (files1 ++ (file_path, Unparseable content) :: files2)%list
     = FastAPI.main (files1 ++ files2)%list
  /\ FastAPI.main (map (fun f => (fst f, Unparseable (snd f))) bad)
     = Ok {| openapi := "3.0.0"; doc_info := FastAPI.default_info;
             paths := []; components_schemas := [] |}
  /\ (forall a,
        Flask._analyze_file a file_path (Unparseable content)
          = Flask.warn (CouldNotParse file_path) a)
  /\ (let run := Flask.analyze
                   (files1 ++ (file_path, Unparseable content) :: files2)%list in
      let other := Flask.analyze (files1 ++ files2)%list in
      Flask.a_endpoints run = Flask.a_endpoints other /\
      Flask.a_schemas run = Flask.a_schemas other /\
      In (CouldNotParse file_path) (Flask.a_stderr run))
  /\ Flask.main (files1 ++ (file_path, Unparseable content) :: files2)%list
     = Flask.main (files1 ++ files2)%list
  /\ Flask.main (map (fun f => (fst f, Unparseable (snd f))) bad)
     = Ok {| openapi := "3.0.0"; doc_info := Flask.default_info;
             paths := []; components_schemas := [] |}.
Proof.
  assert (FA : FastAPI.a_endpoints
                 (FastAPI.analyze
                    (files1 ++ (file_path, Unparseable content) :: files2)%list)
               = FastAPI.a_endpoints (FastAPI.analyze (files1 ++ files2)%list)
               /\ FastAPI.a_schemas
                    (FastAPI.analyze
                       (files1 ++ (file_path, Unparseable content) :: files2)%list)
                  = FastAPI.a_schemas (FastAPI.analyze (files1 ++ files2)%list)).
  { unfold FastAPI.analyze. rewrite !fastapi_analyze_app. simpl.
    apply fastapi_files_facts; reflexivity. }
  assert (FL : Flask.a_endpoints
                 (Flask.analyze
                    (files1 ++ (file_path, Unparseable content) :: files2)%list)
               = Flask.a_endpoints (Flask.analyze (files1 ++ files2)%list)
               /\ Flask.a_schemas
                    (Flask.analyze
                       (files1 ++ (file_path, Unparseable content) :: files2)%list)
                  = Flask.a_schemas (Flask.analyze (files1 ++ files2)%list)).
  { unfold Flask.analyze. rewrite !flask_analyze_app. simpl.
    apply flask_files_facts; reflexivity. }
  destruct FA as [FAe FAs]. destruct FL as [FLe FLs].
  split; [reflexivity|]. split.
  { cbv zeta. split; [exact FAe|]. split; [exact FAs|].
    unfold FastAPI.analyze. rewrite fastapi_analyze_app. simpl.
    apply fastapi_files_stderr. simpl. apply in_or_app. simpl. auto. }
  split. { unfold FastAPI.main. cbv zeta. now rewrite FAe, FAs. }
  split.
  { unfold FastAPI.main, FastAPI.analyze. cbv zeta.
    destruct (fastapi_all_unparseable bad FastAPI.new_analyzer) as [-> ->].
    reflexivity. }
  split; [reflexivity|]. split.
  { cbv zeta. split; [exact FLe|]. split; [exact FLs|].
    unfold Flask.analyze. rewrite flask_analyze_app. simpl.
    apply flask_files_stderr. simpl. apply in_or_app. simpl. auto. }
  split. { unfold Flask.main. cbv zeta. now rewrite FLe, FLs. }
  unfold Flask.main, Flask.analyze. cbv zeta.
  destruct (flask_all_unparseable bad Flask.new_analyzer) as [-> ->].
  reflexivity.
Qed.

(* ===================================================================== *)
(** * Further properties of the analyzers *)
(* ===================================================================== *)

Import Notions.

(** ** The document builders: errors, number and order of the entries *)

Section DictSizes.
Context {V : Type}.
Implicit Types (d : dict V) (k : string) (v : V).

Lemma dict_set_length_new k v d :
  dict_get k d = None -> List.length (dict_set k v d) = S (List.length d).
Proof.
  induction d as [|[k1 v1] d IH]; simpl; [reflexivity|].
  destruct (String.eqb k k1); [discriminate|]. intros H. simpl. now rewrite IH.
Qed.

Lemma dict_set_keys_new k v d :
  dict_get k d = None -> dict_keys (dict_set k v d) = (dict_keys d ++ [k])%list.
Proof.
  induction d as [|[k1 v1] d IH]; simpl; [reflexivity|].
  destruct (String.eqb k k1); [discriminate|]. intros H. simpl. now rewrite IH.
Qed.

Lemma dict_set_keys_old k v v0 d :
  dict_get k d = Some v0 -> dict_keys (dict_set k v d) = dict_keys d.
Proof.
  induction d as [|[k1 v1] d IH]; simpl; [discriminate|].
  destruct (String.eqb k k1); [reflexivity|]. intros H. simpl. now rewrite IH.
Qed.

Lemma dict_get_str_in k d :
  str_in k (dict_keys d) = match dict_get k d with Some _ => true | None => false end.
Proof.
  induction d as [|[k1 v1] d IH]; simpl; [reflexivity|].
  destruct (String.eqb k k1); simpl; auto.
Qed.

End DictSizes.

Section EntryCount.
Context {Op : Type}.
Implicit Types (paths : dict (dict Op)) (p m : string) (op : Op).

Lemma entry_count_set_old p (ms ms' : dict Op) paths :
  dict_get p paths = Some ms ->
  entry_count (dict_set p ms' paths) + List.length ms
    = entry_count paths + List.length ms'.
Proof.
  unfold entry_count. induction paths as [|[p1 ms1] paths IH]; simpl; [discriminate|].
  destruct (String.eqb p p1).
  - intros H. inversion H; subst. simpl. lia.
  - intros H. simpl. specialize (IH H). lia.
Qed.

Lemma entry_count_set_new p (ms : dict Op) paths :
  dict_get p paths = None ->
  entry_count (dict_set p ms paths) = entry_count paths + List.length ms.
Proof.
  unfold entry_count. induction paths as [|[p1 ms1] paths IH]; simpl; [lia|].
  destruct (String.eqb p p1); [discriminate|]. intros H. simpl.
  rewrite (IH H). lia.
Qed.

(** A new key makes one more entry, a key that is there makes none. *)
Lemma entry_count_put p m op paths :
  entry_count (put_operation p m op paths)
    = match operation_at p m paths with
      | Some _ => entry_count paths
      | None => S (entry_count paths)
      end.
Proof.
  unfold put_operation, operation_at, dict_has.
  destruct (dict_get p paths) as [ms|] eqn:G.
  - rewrite G.
    pose proof (entry_count_set_old p ms (dict_set m op ms) paths G) as H.
    destruct (dict_get m ms) as [op0|] eqn:Gm.
    + assert (List.length (dict_set m op ms) = List.length ms).
      { rewrite <- !(length_map fst). change (map fst) with (@dict_keys Op).
        now rewrite (dict_set_keys_old _ _ _ _ Gm). }
      lia.
    + rewrite (dict_set_length_new _ _ _ Gm) in H. lia.
  - rewrite dict_get_set_eq.
    pose proof (entry_count_set_old p [] (dict_set m op []) (dict_set p [] paths)
                  (dict_get_set_eq _ _ _)) as H.
    rewrite (entry_count_set_new _ _ _ G) in H.
    change (dict_set m op []) with [(m, op)] in *.
    change (List.length (@nil (string * Op))) with 0 in H.
    change (List.length [(m, op)]) with 1 in H. lia.
Qed.

(** The paths of the document after one more operation. *)
Lemma put_operation_keys p m op paths :
  dict_keys (put_operation p m op paths) = add_new (dict_keys paths) p.
Proof.
  unfold put_operation, dict_has, add_new. rewrite dict_get_str_in.
  destruct (dict_get p paths) as [ms|] eqn:G.
  - rewrite G. now rewrite (dict_set_keys_old _ _ _ _ G).
  - rewrite dict_get_set_eq.
    rewrite (dict_set_keys_old _ _ _ _ (dict_get_set_eq p [] paths)).
    now apply dict_set_keys_new.
Qed.

End EntryCount.

Section AggregationMore.
Context {E Op : Type} (entry : E -> result (string * string * Op)).
Implicit Types (paths : dict (dict Op)) (es : list E).

(** The loop ends well exactly when every endpoint has an entry. *)
Lemma aggregate_ok_iff es : forall paths,
  (exists paths', for_each (put_entry entry) es paths = Ok paths')
  <-> Forall (fun e => exists k, entry e = Ok k) es.
Proof.
  induction es as [|e es IH]; intros paths; simpl.
  - split; [constructor|eauto].
  - unfold put_entry at 1. destruct (entry e) as [[[p m] op]|x] eqn:Ee; simpl.
    + rewrite IH. split.
      * intros H. constructor; [eauto|assumption].
      * intros H. now inversion H.
    + split.
      * intros [paths' H]. discriminate.
      * intros H. inversion H as [|? ? [k Hk] ?]; subst. congruence.
Qed.

(** The exception of a run that fails is the one of its first endpoint
    without an entry. *)
Lemma aggregate_raises es : forall paths x,
  for_each (put_entry entry) es paths = Raise x ->
  exists es1 e es2,
    es = (es1 ++ e :: es2)%list /\ entry e = Raise x /\
    Forall (fun e' => exists k, entry e' = Ok k) es1.
Proof.
  induction es as [|e es IH]; intros paths x; simpl; [discriminate|].
  unfold put_entry at 1. destruct (entry e) as [[[p m] op]|y] eqn:Ee; simpl.
  - intros H. destruct (IH _ _ H) as (es1 & e' & es2 & -> & He & F).
    exists (e :: es1), e', es2. split; [reflexivity|]. split; [assumption|].
    constructor; eauto.
  - intros H. inversion H; subst. exists [], e, es. auto.
Qed.

Lemma aggregate_count es : forall paths paths',
  for_each (put_entry entry) es paths = Ok paths' ->
  entry_count paths' <= entry_count paths + List.length es.
Proof.
  induction es as [|e es IH]; simpl; intros paths paths' H.
  - inversion H. lia.
  - unfold put_entry at 1 in H.
    destruct (entry e) as [[[p m] op]|]; [|discriminate]. simpl in H.
    apply IH in H. rewrite entry_count_put in H.
    destruct (operation_at p m paths); lia.
Qed.

Lemma aggregate_count_distinct es : forall paths paths',
  for_each (put_entry entry) es paths = Ok paths' ->
  NoDup (map (key_of entry) es) ->
  (forall e p m op, In e es -> entry e = Ok (p, m, op) ->
                    operation_at p m paths = None) ->
  entry_count paths' = entry_count paths + List.length es.
Proof.
  induction es as [|e es IH]; simpl; intros paths paths' H N Fresh.
  - inversion H. lia.
  - unfold put_entry at 1 in H.
    destruct (entry e) as [[[p m] op]|] eqn:Ee; [|discriminate]. simpl in H.
    inversion N as [|? ? Nin Nd]; subst.
    rewrite (IH _ _ H Nd).
    + rewrite entry_count_put, (Fresh e p m op (or_introl eq_refl) Ee). lia.
    + intros e' p' m' op' I Ee'.
      rewrite operation_at_put_neq; [eauto|].
      intros X. inversion X; subst. apply Nin.
      apply in_map_iff. exists e'. split; [|assumption].
      unfold key_of. now rewrite Ee, Ee'.
Qed.

Lemma aggregate_keys es : forall paths paths',
  for_each (put_entry entry) es paths = Ok paths' ->
  dict_keys paths'
    = fold_left add_new
        (flat_map (fun e => match entry e with
                            | Ok (p, _, _) => [p]
                            | Raise _ => []
                            end) es)
        (dict_keys paths).
Proof.
  induction es as [|e es IH]; simpl; intros paths paths' H.
  - inversion H. reflexivity.
  - unfold put_entry at 1 in H.
    destruct (entry e) as [[[p m] op]|]; [|discriminate]. simpl in H.
    rewrite (IH _ _ H), put_operation_keys. reflexivity.
Qed.

End AggregationMore.

Import MoreSamples.

Import Values.

Lemma not_text_not_str v : not_text v = true -> is_str v = false.
Proof. destruct v; simpl; congruence. Qed.





(** X2.  A document has at most as many (path, method) entries as there are
    endpoints, and exactly as many when the endpoints have pairwise
    different (path, method) keys. *)
Theorem document_entry_count :
  (forall info es schemas doc,
     FastAPI.generate_openapi info es schemas = Ok doc ->
     entry_count (paths doc) <= List.length es /\
     (NoDup (map (key_of FastAPI.entry_of) es) ->
      entry_count (paths doc) = List.length es))
  /\
  (forall info es schemas doc,
     Flask.generate_openapi info es schemas = Ok doc ->
     entry_count (paths doc) <= List.length es /\
     (NoDup (map (key_of Flask.entry_of) es) ->
      entry_count (paths doc) = List.length es)).
Proof.
  split; intros info es schemas doc H.
  - apply generate_openapi_fastapi_paths in H. split.
    + apply (aggregate_count _ _ _ _ H).
    + intros N. apply (aggregate_count_distinct _ _ _ _ H N). reflexivity.
  - apply generate_openapi_flask_paths in H. split.
    + apply (aggregate_count _ _ _ _ H).
    + intros N. apply (aggregate_count_distinct _ _ _ _ H N). reflexivity.
Qed.

(** Three routes with three different paths make three entries. *)
Lemma document_entry_count_witness :
  exists doc,
    FastAPI.generate_openapi None
      [get_endpoint "/a"; get_endpoint "/b"; get_endpoint "/a/b"] [] = Ok doc /\
    entry_count (paths doc) = 3.
Proof.
  eexists. split; [vm_compute; reflexivity|].
  refine (proj2 (proj1 document_entry_count None
                   [get_endpoint "/a"; get_endpoint "/b"; get_endpoint "/a/b"]
                   [] _ _) _).
  - vm_compute; reflexivity.
  - vm_compute. repeat constructor; simpl; intuition discriminate.
Defined.

(** X3.  The paths of a document are the paths of the endpoints in the
    order in which they are first met, each once. *)
Theorem document_path_order :
  (forall info es schemas doc,
     FastAPI.generate_openapi info es schemas = Ok doc ->
     dict_keys (paths doc)
       = first_seen (flat_map (fun e => match FastAPI.path e with
                                        | PyStr p => [p]
                                        | _ => []
                                        end) es))
  /\
  (forall info es schemas doc,
     Flask.generate_openapi info es schemas = Ok doc ->
     dict_keys (paths doc)
       = first_seen (flat_map (fun e => match Flask.path e with
                                        | PyStr p => [p]
                                        | _ => []
                                        end) es)).
Proof.
  split; intros info es schemas doc H.
  - pose proof (generate_openapi_fastapi_paths _ _ _ _ H) as P.
    rewrite (aggregate_keys _ _ _ _ P). unfold first_seen. simpl. f_equal.
    assert (F : Forall (fun e => exists k, FastAPI.entry_of e = Ok k) es).
    { apply (aggregate_ok_iff FastAPI.entry_of _ []). eauto. }
    clear -F. induction F as [|e es [k Hk] F IH]; simpl; [reflexivity|].
    rewrite IH. unfold FastAPI.entry_of in *.
    destruct (FastAPI.method e), (FastAPI.path e); try discriminate; reflexivity.
  - pose proof (generate_openapi_flask_paths _ _ _ _ H) as P.
    rewrite (aggregate_keys _ _ _ _ P). unfold first_seen. simpl. f_equal.
    assert (F : Forall (fun e => exists k, Flask.entry_of e = Ok k) es).
    { apply (aggregate_ok_iff Flask.entry_of _ []). eauto. }
    clear -F. induction F as [|e es [k Hk] F IH]; simpl; [reflexivity|].
    rewrite IH. unfold Flask.entry_of in *.
    destruct (Flask.path e); try discriminate; reflexivity.
Qed.

(** The paths [/b], [/a], [/b] are listed as [/b], [/a]. *)
Lemma document_path_order_witness :
  exists doc,
    FastAPI.generate_openapi None
      [get_endpoint "/b"; get_endpoint "/a"; get_endpoint "/b"] [] = Ok doc /\
    dict_keys (paths doc) = ["/b"; "/a"].
Proof.
  eexists. split; [vm_compute; reflexivity|].
  exact (proj1 document_path_order None
           [get_endpoint "/b"; get_endpoint "/a"; get_endpoint "/b"] [] _
           eq_refl).
Defined.

Import Invariants.

(** ** The parameters and types of the FastAPI analyzer *)

Lemma str_in_In x xs : str_in x xs = true -> In x xs.
Proof.
  unfold str_in. rewrite existsb_exists. intros (y & I & E).
  apply String.eqb_eq in E. now subst.
Qed.

Lemma parse_type_annotation_default annotation :
  schema_default (FastAPI._parse_type_annotation annotation) = None.
Proof.
  induction annotation as [v|id|val IHv attr|l f IHf a k|elts|val IHv slice IHs|];
    simpl; try reflexivity.
  destruct val; try reflexivity.
  destruct (String.eqb id "List"); [reflexivity|].
  destruct (String.eqb id "Optional"); [|reflexivity].
  destruct (FastAPI._parse_type_annotation slice). exact IHs.
Qed.

(** X4.  The type of the schema [_parse_type_annotation] gives is one of the
    six of its table.  A name gives the type the table has for it and
    [string] when the table does not have it; [List[T]] gives an array of
    the schema of [T], and [Optional[T]] the schema of [T] made nullable;
    every other annotation - a subscript of another name or of an
    expression that is not a name, an attribute, a constant, ... - gives
    [string]. *)
Theorem parse_type_annotation_types (annotation slice : expr) :
  In (schema_type (FastAPI._parse_type_annotation annotation))
     ["string"; "integer"; "number"; "boolean"; "array"; "object"]
  /\ FastAPI._parse_type_annotation (Subscript (Name "List") slice)
     = Schema "array" (Some (FastAPI._parse_type_annotation slice)) false None
  /\ (match FastAPI._parse_type_annotation slice,
            FastAPI._parse_type_annotation (Subscript (Name "Optional") slice)
      with
      | Schema t items _ default, Schema t' items' nullable' default' =>
          t' = t /\ items' = items /\ nullable' = true /\ default' = default
      end)
  /\ (forall id t, dict_get id FastAPI.type_map = Some t ->
                   FastAPI._parse_type_annotation (Name id) = simple t)
  /\ (forall id, dict_get id FastAPI.type_map = None ->
                 FastAPI._parse_type_annotation (Name id) = simple "string")
  /\ (forall id, id <> "List" -> id <> "Optional" ->
                 FastAPI._parse_type_annotation (Subscript (Name id) slice)
                 = simple "string")
  /\ (forall value, (forall id, value <> Name id) ->
                    FastAPI._parse_type_annotation (Subscript value slice)
                    = simple "string")
  /\ ((forall id, annotation <> Name id) ->
      (forall value sl, annotation <> Subscript value sl) ->
      FastAPI._parse_type_annotation annotation = simple "string").
Proof.
  split; [|split; [reflexivity|split; [|split; [|split; [|split; [|split]]]]]].
  - induction annotation
      as [v|id|val IHv attr|l f IHf a k|elts|val IHv sl IHs|];
      try (simpl; auto; fail).
    + simpl. unfold FastAPI.type_map, dict_get.
      repeat match goal with
             | |- context [String.eqb ?a ?b] => destruct (String.eqb a b)
             end; simpl; auto 10.
    + simpl. destruct val; try (simpl; auto; fail).
      destruct (String.eqb id "List"); [simpl; auto 10|].
      destruct (String.eqb id "Optional"); [|simpl; auto].
      destruct (FastAPI._parse_type_annotation sl). exact IHs.
  - simpl. destruct (FastAPI._parse_type_annotation slice). auto.
  - intros id t H.
    change (simple (match dict_get id FastAPI.type_map with
                    | Some t0 => t0
                    | None => "string"
                    end) = simple t).
    now rewrite H.
  - intros id H.
    change (simple (match dict_get id FastAPI.type_map with
                    | Some t0 => t0
                    | None => "string"
                    end) = simple "string").
    now rewrite H.
  - intros id NL NO. simpl.
    destruct (String.eqb_spec id "List"); [contradiction|].
    destruct (String.eqb_spec id "Optional"); [contradiction|reflexivity].
  - intros value N. destruct value; try reflexivity. now destruct (N id).
  - intros NN NS. destruct annotation; try reflexivity.
    + now destruct (NN id).
    + now destruct (NS annotation1 annotation2).
Qed.

(** [Widget], [Dict[str]] and [typing.List[int]] give [string]; [int] gives
    [integer]. *)
Lemma parse_type_annotation_types_witness :
  FastAPI._parse_type_annotation (Name "int") = simple "integer"
  /\ FastAPI._parse_type_annotation (Name "Widget") = simple "string"
  /\ FastAPI._parse_type_annotation (Subscript (Name "Dict") (Name "str"))
     = simple "string"
  /\ FastAPI._parse_type_annotation
       (Subscript (Attribute (Name "typing") "List") (Name "int"))
     = simple "string"
  /\ FastAPI._parse_type_annotation (Attribute (Name "typing") "Any")
     = simple "string".
Proof.
  destruct (parse_type_annotation_types (Attribute (Name "typing") "Any")
                                        (Name "str"))
    as (_ & _ & _ & Known & Unknown & Other & _ & Rest).
  destruct (parse_type_annotation_types OtherExpr (Name "int"))
    as (_ & _ & _ & _ & _ & _ & NotName & _).
  split; [apply Known; reflexivity|].
  split; [apply Unknown; reflexivity|].
  split; [apply Other; discriminate|].
  split; [apply NotName; discriminate|].
  apply Rest; discriminate.
Defined.

Lemma path_check_in name d prm prm' :
  FastAPI.path_check name d prm = Ok prm' ->
  p_schema prm' = p_schema prm /\
  (p_in prm = "path" \/ p_in prm = "query" ->
   p_in prm' = "path" \/ p_in prm' = "query").
Proof.
  unfold FastAPI.path_check.
  destruct d as [| | |l f a k| | |];
    try (intros H; inversion H; subst; auto; fail).
  destruct a as [|x a]; [intros H; inversion H; subst; auto|].
  destruct x as [v| | | | | |];
    try (intros H; inversion H; subst; auto; fail).
  destruct v as [|p| |]; try discriminate.
  destruct (contains ("{" ++ name ++ "}") p); intros H; inversion H; subst;
    simpl; auto.
Qed.

Lemma path_checks_in name ds : forall prm prm',
  for_each (FastAPI.path_check name) ds prm = Ok prm' ->
  p_schema prm' = p_schema prm /\
  (p_in prm = "path" \/ p_in prm = "query" ->
   p_in prm' = "path" \/ p_in prm' = "query").
Proof.
  induction ds as [|d ds IH]; simpl; intros prm prm' H.
  - inversion H; subst. auto.
  - destruct (FastAPI.path_check name d prm) as [prm1|] eqn:E; [|discriminate].
    simpl in H. apply path_check_in in E as [S1 I1].
    apply IH in H as [S2 I2]. split; [congruence|auto].
Qed.

(** X5.  The parameters of a FastAPI endpoint are those of the arguments
    other than [self] and [cls], in their order and under their names; each
    is in the path or in the query, each is required, also when the
    argument has a default, and no schema carries a default. *)
Theorem fastapi_parameters_shape (node : funcdef) (ps : list parameter) :
  FastAPI._extract_parameters node = Ok ps ->
  map p_name ps
    = filter (fun name => negb (FastAPI.is_self_or_cls name))
             (map arg_name (fn_args node))
  /\ Forall (fun prm =>
               (p_in prm = "path" \/ p_in prm = "query") /\
               p_required prm = Some true /\
               schema_default (p_schema prm) = None) ps.
Proof.
  unfold FastAPI._extract_parameters.
  revert ps. induction (fn_args node) as [|a args IH]; simpl; intros ps H.
  - inversion H. split; [reflexivity|constructor].
  - destruct (FastAPI.is_self_or_cls (arg_name a)) eqn:S; simpl; [auto|].
    destruct (FastAPI.parameter_of node a) as [prm|] eqn:P; [|discriminate].
    simpl in H.
    destruct (FastAPI.parameters_of node args) as [ps0|]; [|discriminate].
    simpl in H. inversion H; subst; clear H.
    destruct (IH _ eq_refl) as [Names Shape].
    pose proof (parameter_of_ok _ _ _ P) as (N & R & _).
    split; [simpl; congruence|]. constructor; [|assumption].
    split; [|split; [assumption|]].
    + unfold FastAPI.parameter_of in P.
      destruct (for_each _ (fn_decorator_list node) _) as [prm1|] eqn:E;
        [|discriminate].
      simpl in P. rewrite node_dict_get_none in P. inversion P; subst; clear P.
      apply path_checks_in in E as [_ I]. simpl in I.
      destruct (arg_annotation a); simpl; auto.
    + unfold FastAPI.parameter_of in P.
      destruct (for_each _ (fn_decorator_list node) _) as [prm1|] eqn:E;
        [|discriminate].
      simpl in P. rewrite node_dict_get_none in P. inversion P; subst; clear P.
      apply path_checks_in in E as [Sc _]. simpl in Sc.
      destruct (arg_annotation a); simpl.
      * apply parse_type_annotation_default.
      * now rewrite Sc.
Qed.

(** [get_user(id: int = 0, verbose: bool = False)]: both parameters are
    required. *)
Lemma fastapi_parameters_shape_witness :
  exists ps,
    FastAPI._extract_parameters fastapi_user = Ok ps /\
    map p_name ps = ["id"; "verbose"] /\
    Forall (fun prm =>
              (p_in prm = "path" \/ p_in prm = "query") /\
              p_required prm = Some true /\
              schema_default (p_schema prm) = None) ps.
Proof.
  eexists. split; [vm_compute; reflexivity|].
  exact (fastapi_parameters_shape fastapi_user _ eq_refl).
Defined.

Lemma path_checks_dirty name ds : forall prm,
  FastAPI.string_paths_only ds = false ->
  for_each (FastAPI.path_check name) ds prm = Raise TypeError.
Proof.
  induction ds as [|d ds IH]; simpl; intros prm H; [discriminate|].
  apply andb_false_iff in H.
  destruct (FastAPI.path_check name d prm) as [prm1|x] eqn:E; simpl.
  - apply IH. destruct H as [H|H]; [|assumption]. exfalso.
    unfold FastAPI.path_check in E.
    destruct d as [| | |l f a k| | |]; try discriminate.
    destruct a as [|y a]; try discriminate.
    destruct y as [v| | | | | |]; try discriminate.
    destruct v; discriminate.
  - unfold FastAPI.path_check in E.
    destruct d as [| | |l f a k| | |]; try discriminate.
    destruct a as [|y a]; try discriminate.
    destruct y as [v| | | | | |]; try discriminate.
    destruct v as [|p| |]; try (inversion E; reflexivity).
    destruct (contains ("{" ++ name ++ "}") p); discriminate.
Qed.

(** X6.  [_extract_parameters] returns unless the function has an argument
    other than [self] and [cls] and one of its decorators is a call whose
    first argument is a constant that is not a string; it then raises
    [TypeError]. *)
Theorem fastapi_parameters_outcome (node : funcdef) :
  if FastAPI.string_paths_only (fn_decorator_list node)
     || forallb (fun a => FastAPI.is_self_or_cls (arg_name a)) (fn_args node)
  then exists ps, FastAPI._extract_parameters node = Ok ps
  else FastAPI._extract_parameters node = Raise TypeError.
Proof.
  destruct (FastAPI.string_paths_only (fn_decorator_list node)) eqn:S; simpl.
  - now apply extract_parameters_clean.
  - unfold FastAPI._extract_parameters.
    induction (fn_args node) as [|a args IH]; simpl; [eauto|].
    destruct (FastAPI.is_self_or_cls (arg_name a)); simpl; [exact IH|].
    unfold FastAPI.parameter_of. now rewrite (path_checks_dirty _ _ _ S).
Qed.

(** ** What the visitors keep *)

(** Induction on statements with the statements nested in them. *)
Lemma stmt_nested_ind (P : stmt -> Prop) :
  (forall node body, Forall P body -> P (FunctionDef node body)) ->
  (forall name decorator_list body,
     Forall P body -> P (ClassDef name decorator_list body)) ->
  (forall targets value, P (Assign targets value)) ->
  (forall value, P (Expr value)) ->
  (forall body, Forall P body -> P (OtherStmt body)) ->
  forall s, P s.
Proof.
  intros HF HC HA HE HO.
  refine (fix IH (s : stmt) : P s :=
            match s with
            | FunctionDef node body => HF node body _
            | ClassDef name decorator_list body => HC name decorator_list body _
            | Assign targets value => HA targets value
            | Expr value => HE value
            | OtherStmt body => HO body _
            end);
    exact ((fix all (ss : list stmt) : Forall P ss :=
              match ss with
              | [] => Forall_nil P
              | s' :: ss' => Forall_cons s' (IH s') (all ss')
              end) body).
Qed.

(** A loop whose turns are steps of a reflexive and transitive relation is
    a step of it. *)
Lemma for_each_steps {A S} (R : S -> S -> Prop) (body : A -> S -> result S) xs :
  (forall st, R st st) ->
  (forall st1 st2 st3, R st1 st2 -> R st2 st3 -> R st1 st3) ->
  Forall (fun x => forall st st', body x st = Ok st' -> R st st') xs ->
  forall st st', for_each body xs st = Ok st' -> R st st'.
Proof.
  intros Rrefl Rtrans F. induction F as [|x xs Hx F IH]; simpl; intros st st' H.
  - inversion H. apply Rrefl.
  - destruct (body x st) as [st1|] eqn:E; [|discriminate]. simpl in H.
    eapply Rtrans; [apply Hx; eassumption|apply IH; assumption].
Qed.

Lemma fastapi_step_refl v : fastapi_step v v.
Proof.
  repeat split. exists []. rewrite app_nil_r. split; [reflexivity|constructor].
Qed.

Lemma fastapi_step_trans v1 v2 v3 :
  fastapi_step v1 v2 -> fastapi_step v2 v3 -> fastapi_step v1 v3.
Proof.
  intros (F1 & C1 & K1 & S1 & es1 & E1 & A1) (F2 & C2 & K2 & S2 & es2 & E2 & A2).
  repeat split; try congruence.
  exists (es1 ++ es2)%list. split.
  - rewrite E2, E1. now rewrite app_assoc.
  - apply Forall_app. split; [assumption|]. now rewrite F1 in A2.
Qed.

(** A route decorator is a call on one of the eight verbs, whose upper case
    is the method. *)
Lemma first_route_decorator_verb ds d :
  FastAPI.first_route_decorator ds = Some d ->
  exists verb, In verb FastAPI.http_verbs /\
    forall content, exists path summary description tags,
      FastAPI._parse_route_decorator content d
        = Ok (PyStr (upper verb), path, summary, description, tags).
Proof.
  induction ds as [|d0 ds IH]; simpl; [discriminate|].
  destruct d0 as [| | |l0 f0 a0 k0| | |]; auto.
  destruct f0 as [|id|val attr| | | |]; auto;
    match goal with
    | |- (if ?b then _ else _) = _ -> _ =>
        destruct b eqn:V; [apply (str_in_In _ FastAPI.http_verbs) in V|auto]
    end; intros H; inversion H; subst;
    eexists; (split; [exact V|]); intros content; simpl;
    destruct (fold_left FastAPI.metadata_step k0 (PyNone, PyNone, []))
      as [[s0 d1] t0]; repeat eexists.
Qed.

Lemma visit_FunctionDef_node_step node v v' :
  FastAPI.visit_FunctionDef_node node v = Ok v' -> fastapi_step v v'.
Proof.
  destruct (FastAPI._get_route_decorator node) as [d|] eqn:D.
  - intros H.
    destruct (visit_FunctionDef_node_ok _ _ _ _ D H)
      as (method & path & summary & description & tags & ps & Pr & _ & _ & ->).
    repeat split. eexists. split; [reflexivity|].
    constructor; [|constructor]. simpl. split; [reflexivity|].
    destruct (first_route_decorator_verb _ _ D) as (verb & I & Hv).
    destruct (Hv (FastAPI.content v)) as (p0 & s0 & d0 & t0 & E).
    rewrite E in Pr. inversion Pr; subst.
    exact (in_map (fun verb => PyStr (upper verb)) _ _ I).
  - unfold FastAPI.visit_FunctionDef_node. rewrite D. intros H.
    inversion H. apply fastapi_step_refl.
Qed.

(** The loop over the decorators of a class never raises and only touches
    [router_prefix]. *)
Lemma class_decorator_steps ds : forall v,
  exists v', for_each FastAPI.class_decorator_step ds v = Ok v' /\
             fastapi_step v v'.
Proof.
  induction ds as [|d ds IH]; simpl; intros v.
  - exists v. split; [reflexivity|apply fastapi_step_refl].
  - assert (exists v1, FastAPI.class_decorator_step d v = Ok v1 /\
                       fastapi_step v v1) as (v1 & -> & S1).
    { unfold FastAPI.class_decorator_step.
      destruct d as [| | |l f a k| | |];
        try (exists v; split; [reflexivity|apply fastapi_step_refl]).
      destruct f as [|id| | | | |];
        try (exists v; split; [reflexivity|apply fastapi_step_refl]).
      destruct (String.eqb id "router");
        [|exists v; split; [reflexivity|apply fastapi_step_refl]].
      eexists. split; [reflexivity|].
      repeat split. exists []. simpl. rewrite app_nil_r.
      split; [reflexivity|constructor]. }
    simpl. destruct (IH v1) as (v' & -> & S2).
    exists v'. split; [reflexivity|]. eapply fastapi_step_trans; eassumption.
Qed.

Lemma fastapi_visit_step s :
  forall v v', FastAPI.visit s v = Ok v' -> fastapi_step v v'.
Proof.
  induction s as [node body IH|name ds body IH|targets value|value|body IH]
    using stmt_nested_ind; intros v v' H.
  - simpl in H.
    destruct (FastAPI.visit_FunctionDef_node node v) as [v1|] eqn:E;
      [|discriminate].
    simpl in H. eapply fastapi_step_trans.
    + eapply visit_FunctionDef_node_step; eassumption.
    + eapply (for_each_steps fastapi_step); eauto using fastapi_step_refl,
        fastapi_step_trans.
  - simpl in H.
    destruct (class_decorator_steps ds
                (FastAPI.set_current_class (Some name) v)) as (v1 & E1 & S1).
    rewrite E1 in H. simpl in H.
    destruct (for_each FastAPI.visit body v1) as [v2|] eqn:E2; [|discriminate].
    simpl in H. inversion H; subst; clear H.
    assert (S2 : fastapi_step v1 v2).
    { eapply (for_each_steps fastapi_step); eauto using fastapi_step_refl,
        fastapi_step_trans. }
    pose proof (fastapi_step_trans _ _ _ S1 S2)
      as (F & C & K & Sc & es & En & A).
    simpl in *. repeat split; auto. exists es. auto.
  - inversion H. apply fastapi_step_refl.
  - inversion H. apply fastapi_step_refl.
  - simpl in H. eapply (for_each_steps fastapi_step); eauto using
      fastapi_step_refl, fastapi_step_trans.
Qed.

Lemma fastapi_visit_all_step body v v' :
  for_each FastAPI.visit body v = Ok v' -> fastapi_step v v'.
Proof.
  apply (for_each_steps fastapi_step); auto using fastapi_step_refl.
  - apply fastapi_step_trans.
  - apply Forall_forall. intros s _. apply fastapi_visit_step.
Qed.

(** X7.  Whatever the file, [_analyze_file] of the FastAPI analyzer leaves
    the schemas as they are and only appends endpoints; every endpoint it
    appends carries the path of the file, and its method is one of GET,
    POST, PUT, DELETE, PATCH, OPTIONS, HEAD and TRACE. *)
Theorem fastapi_file_endpoints
        (a : FastAPI.analyzer) (file_path : string) (src : source) :
  FastAPI.a_schemas (FastAPI._analyze_file a file_path src)
    = FastAPI.a_schemas a
  /\ exists es,
       FastAPI.a_endpoints (FastAPI._analyze_file a file_path src)
         = (FastAPI.a_endpoints a ++ es)%list /\
       Forall (fun e =>
                 FastAPI.file e = file_path /\
                 In (FastAPI.method e)
                    [PyStr "GET"; PyStr "POST"; PyStr "PUT"; PyStr "DELETE";
                     PyStr "PATCH"; PyStr "OPTIONS"; PyStr "HEAD";
                     PyStr "TRACE"]) es.
Proof.
  destruct src as [|content|content body]; simpl;
    try (split; [reflexivity|]; exists []; rewrite app_nil_r;
         split; [reflexivity|constructor]).
  destruct (for_each FastAPI.visit body (FastAPI.new_visitor file_path content))
    as [v|] eqn:E; simpl.
  - apply fastapi_visit_all_step in E as (_ & _ & _ & Sc & es & En & A).
    simpl in *. rewrite Sc, En. split; [reflexivity|].
    exists es. split; [reflexivity|exact A].
  - split; [reflexivity|]. exists []. rewrite app_nil_r.
    split; [reflexivity|constructor].
Qed.

(** X8.  A FastAPI file in which a function with a route decorator stands
    in the body of a class gives no endpoint at all, whatever else it
    declares: [visit_FunctionDef] calls [_extract_router_prefix] on the
    function node, the analysis of the file ends in the warning, and the
    endpoints and schemas of the analyzer stay as they are. *)
Theorem fastapi_route_in_class
        (a : FastAPI.analyzer) (file_path content name : string)
        (before after first rest body : list stmt)
        (decorator_list : list expr) (node : funcdef) (d : expr) :
  FastAPI._get_route_decorator node = Some d ->
  FastAPI._analyze_file a file_path
    (Module content
       (before
        ++ ClassDef name decorator_list (first ++ FunctionDef node body :: rest)
        :: after))
  = FastAPI.warn (ErrorAnalyzing file_path) a.
Proof.
  intros D. unfold FastAPI._analyze_file.
  assert (R : exists x,
            for_each FastAPI.visit
              (before
               ++ ClassDef name decorator_list
                    (first ++ FunctionDef node body :: rest) :: after)%list
              (FastAPI.new_visitor file_path content) = Raise x);
    [|destruct R as [x ->]; reflexivity].
  rewrite for_each_app.
  destruct (for_each FastAPI.visit before (FastAPI.new_visitor file_path content))
    as [v0|x0]; simpl; [|eauto].
  destruct (class_decorator_steps decorator_list
              (FastAPI.set_current_class (Some name) v0))
    as (v1 & -> & (_ & _ & K1 & _)).
  simpl. rewrite for_each_app.
  destruct (for_each FastAPI.visit first v1) as [v2|x2] eqn:E2; simpl; [|eauto].
  apply fastapi_visit_all_step in E2 as (_ & _ & K2 & _).
  unfold FastAPI.visit_FunctionDef_node. rewrite D.
  destruct (first_route_decorator_verb _ _ D) as (verb & _ & Hv).
  destruct (Hv (FastAPI.content v2)) as (p0 & s0 & d0 & t0 & ->).
  simpl. rewrite K2, K1. simpl. eauto.
Qed.

(** [list_items(self)] under [@router.get('/items')] in the class [Items]. *)
Lemma fastapi_route_in_class_witness :
  FastAPI._analyze_file FastAPI.new_analyzer "a.py"
    (Module "" fastapi_router_method)
  = FastAPI.warn (ErrorAnalyzing "a.py") FastAPI.new_analyzer.
Proof.
  exact (fastapi_route_in_class FastAPI.new_analyzer "a.py" "" "Items"
           [] [] [] [] []
           [Call 1 (Name "router") [] [(Some "prefix", Constant (PyStr "/api"))]]
           (decorated (decorator_call 3 "router" "get"
                         [Constant (PyStr "/items")] [])
                      "list_items" [plain_arg "self"] 4)
           _ eq_refl).
Defined.

(** ** The Flask visitor *)

Lemma to_upper_idempotent c : to_upper (to_upper c) = to_upper c.
Proof. destruct c as [[] [] [] [] [] [] [] []]; reflexivity. Qed.

Lemma upper_idempotent s : upper (upper s) = upper s.
Proof.
  unfold upper. induction s as [|c s IH]; simpl; [reflexivity|].
  now rewrite to_upper_idempotent, IH.
Qed.

Lemma flask_step_refl v : flask_step v v.
Proof.
  repeat split. exists []. rewrite app_nil_r. split; [reflexivity|constructor].
Qed.

Lemma flask_step_trans v1 v2 v3 :
  flask_step v1 v2 -> flask_step v2 v3 -> flask_step v1 v3.
Proof.
  intros (F1 & C1 & K1 & S1 & es1 & E1 & A1) (F2 & C2 & K2 & S2 & es2 & E2 & A2).
  repeat split; try congruence.
  exists (es1 ++ es2)%list. split.
  - rewrite E2, E1. now rewrite app_assoc.
  - apply Forall_app. split; [assumption|]. now rewrite F1 in A2.
Qed.

Lemma flask_visit_Assign_step targets value v :
  flask_step v (Flask.visit_Assign targets value v).
Proof.
  assert (A : forall ts v0, flask_step v0
                (fold_left (fun v1 target =>
                              match target with
                              | Name x => Flask.set_app_var x v1
                              | _ => v1
                              end) ts v0)).
  { induction ts as [|t ts IH]; intros v0; simpl; [apply flask_step_refl|].
    eapply flask_step_trans; [|apply IH].
    destruct t; try apply flask_step_refl.
    repeat split. exists []. simpl. rewrite app_nil_r.
    split; [reflexivity|constructor]. }
  assert (B : forall args ts v0, flask_step v0
                (fold_left (fun v1 target =>
                              match target with
                              | Name x =>
                                  Flask.set_blueprint x
                                    {| Flask.bp_name :=
                                         match args with
                                         | Constant name :: _ => name
                                         | _ => PyNone
                                         end;
                                       Flask.bp_variable := x |} v1
                              | _ => v1
                              end) ts v0)).
  { intros args. induction ts as [|t ts IH]; intros v0; simpl;
      [apply flask_step_refl|].
    eapply flask_step_trans; [|apply IH].
    destruct t; try apply flask_step_refl.
    repeat split. exists []. simpl. rewrite app_nil_r.
    split; [reflexivity|constructor]. }
  unfold Flask.visit_Assign.
  destruct value as [| | |l f args k| | |]; try apply flask_step_refl.
  destruct f as [|id| | | | |]; try apply flask_step_refl.
  destruct (String.eqb id "Blueprint").
  - destruct (String.eqb id "Flask").
    + eapply flask_step_trans; [apply A|apply B].
    + apply B.
  - destruct (String.eqb id "Flask"); [apply A|apply flask_step_refl].
Qed.

(** The endpoints of one route: one for each method, in the order of the
    list, the method in upper case. *)
Lemma flask_endpoint_steps_exact node body path bp methods : forall v,
  for_each (Flask.endpoint_step node body path bp) methods v
  = if forallb is_str methods
    then Ok {| Flask.file_path := Flask.file_path v;
               Flask.content := Flask.content v;
               Flask.endpoints :=
                 (Flask.endpoints v
                  ++ flat_map (fun m =>
                       match m with
                       | PyStr s =>
                           [{| Flask.method := upper s; Flask.path := path;
                               Flask.file := Flask.file_path v;
                               Flask.line := fn_lineno node;
                               Flask.function := fn_name node;
                               Flask.blueprint := bp;
                               Flask.summary := Flask._extract_summary node;
                               Flask.description := Flask._extract_docstring body |}]
                       | _ => []
                       end) methods)%list;
               Flask.schemas := Flask.schemas v;
               Flask.blueprints := Flask.blueprints v;
               Flask.app_var := Flask.app_var v;
               Flask.current_class := Flask.current_class v |}
    else Raise AttributeError.
Proof.
  induction methods as [|m methods IH]; intros v; simpl.
  - rewrite app_nil_r. destruct v; reflexivity.
  - destruct m as [|s| |]; simpl; try reflexivity.
    rewrite IH. destruct (forallb is_str methods); [|reflexivity].
    simpl. rewrite <- app_assoc. reflexivity.
Qed.

Lemma flask_visit_FunctionDef_node_step node body v v' :
  Flask.visit_FunctionDef_node node body v = Ok v' -> flask_step v v'.
Proof.
  unfold Flask.visit_FunctionDef_node.
  destruct (Flask._get_route_decorator node) as [d|];
    [|intros H; inversion H; apply flask_step_refl].
  destruct (Flask._parse_route_decorator v d) as [[[methods path] bp]|];
    [|discriminate].
  simpl. rewrite flask_endpoint_steps_exact.
  destruct (forallb is_str _); [|discriminate].
  intros H. inversion H; subst; clear H. repeat split. simpl.
  eexists. split; [reflexivity|].
  apply Forall_forall. intros e I. apply in_flat_map in I as (m & _ & I).
  destruct m; try contradiction. destruct I as [<-|[]]. simpl.
  split; [reflexivity|]. split; [apply upper_idempotent|reflexivity].
Qed.

Lemma flask_visit_step s :
  forall v v', Flask.visit s v = Ok v' -> flask_step v v'.
Proof.
  induction s as [node body IH|name ds body IH|targets value|value|body IH]
    using stmt_nested_ind; intros v v' H.
  - simpl in H.
    destruct (Flask.visit_FunctionDef_node node body v) as [v1|] eqn:E;
      [|discriminate].
    simpl in H. eapply flask_step_trans.
    + eapply flask_visit_FunctionDef_node_step; eassumption.
    + eapply (for_each_steps flask_step); eauto using flask_step_refl,
        flask_step_trans.
  - simpl in H. eapply (for_each_steps flask_step); eauto using
      flask_step_refl, flask_step_trans.
  - inversion H. apply flask_visit_Assign_step.
  - inversion H. apply flask_step_refl.
  - simpl in H. eapply (for_each_steps flask_step); eauto using
      flask_step_refl, flask_step_trans.
Qed.

Lemma flask_visit_all_step body v v' :
  for_each Flask.visit body v = Ok v' -> flask_step v v'.
Proof.
  apply (for_each_steps flask_step); auto using flask_step_refl.
  - apply flask_step_trans.
  - apply Forall_forall. intros s _. apply flask_visit_step.
Qed.

(** X9.  Whatever the file, [_analyze_file] of the Flask analyzer leaves
    the schemas as they are and only appends endpoints; every endpoint it
    appends carries the path of the file, has its method in upper case, and
    has as summary the name of its function with the underscores made
    spaces and each word capitalised. *)
Theorem flask_file_endpoints
        (a : Flask.analyzer) (file_path : string) (src : source) :
  Flask.a_schemas (Flask._analyze_file a file_path src) = Flask.a_schemas a
  /\ exists es,
       Flask.a_endpoints (Flask._analyze_file a file_path src)
         = (Flask.a_endpoints a ++ es)%list /\
       Forall (fun e =>
                 Flask.file e = file_path /\
                 upper (Flask.method e) = Flask.method e /\
                 Flask.summary e
                   = title (replace_char "_" " " (Flask.function e))) es.
Proof.
  destruct src as [|content|content body]; simpl;
    try (split; [reflexivity|]; exists []; rewrite app_nil_r;
         split; [reflexivity|constructor]).
  destruct (for_each Flask.visit body (Flask.new_visitor file_path content))
    as [v|] eqn:E; simpl.
  - apply flask_visit_all_step in E as (_ & _ & _ & Sc & es & En & A).
    simpl in *. rewrite Sc, En. split; [reflexivity|].
    exists es. split; [reflexivity|exact A].
  - split; [reflexivity|]. exists []. rewrite app_nil_r.
    split; [reflexivity|constructor].
Qed.

(** X10.  For a Flask route, [visit_FunctionDef] appends one endpoint for
    each method of the [methods] list when these are strings, in the order
    of the list and in upper case, or one [GET] endpoint when the list is
    absent or empty; all have the path, the line and the name of the
    function.  A method of the list that is [None], an [int] or a [bool]
    makes it raise [AttributeError]. *)
Theorem flask_route_endpoints
        (node : funcdef) (body : list stmt) (v : Flask.visitor)
        (l : nat) (f : expr) (args : list expr)
        (kws : list (option string * expr)) :
  Flask._get_route_decorator node = Some (Call l f args kws) ->
  let listed := fold_left Flask.methods_step kws [PyStr "GET"] in
  let methods := match listed with [] => [PyStr "GET"] | _ => listed end in
  (forallb is_str methods = true ->
   exists v' es,
     Flask.visit_FunctionDef_node node body v = Ok v' /\
     Flask.endpoints v' = (Flask.endpoints v ++ es)%list /\
     map (fun e => PyStr (Flask.method e)) es
       = map (fun m => match m with
                       | PyStr s => PyStr (upper s)
                       | _ => m
                       end) methods /\
     Forall (fun e =>
               Flask.path e = match args with
                              | Constant value :: _ => value
                              | _ => PyStr "/"
                              end /\
               Flask.line e = fn_lineno node /\
               Flask.function e = fn_name node) es)
  /\
  (existsb not_text methods = true ->
   Flask.visit_FunctionDef_node node body v = Raise AttributeError).
Proof.
  intros D listed methods. unfold Flask.visit_FunctionDef_node. rewrite D.
  simpl. fold listed. fold methods. rewrite flask_endpoint_steps_exact.
  split.
  - intros M. rewrite M.
    eexists. eexists. split; [reflexivity|]. simpl. split; [reflexivity|].
    clear -M. split.
    + induction methods as [|m ms IH]; [reflexivity|].
      simpl in M. apply andb_prop in M as [Hm M].
      destruct m; try discriminate. simpl. now rewrite (IH M).
    + apply Forall_forall. intros e I. apply in_flat_map in I as (m & _ & I).
      destruct m; try contradiction. destruct I as [<-|[]]. auto.
  - intros N. replace (forallb is_str methods) with false; [reflexivity|].
    symmetry. apply existsb_exists in N as (m & I & N).
    apply not_text_not_str in N.
    destruct (forallb is_str methods) eqn:M; [|reflexivity].
    rewrite forallb_forall in M. rewrite (M m I) in N. discriminate.
Qed.

(** [@app.route('/x', methods=['get', 'post'])]: a GET and a POST endpoint;
    [@app.route('/x', methods=['get', None])]: [AttributeError]. *)
Lemma flask_route_endpoints_witness :
  (exists v' es,
     Flask.visit_FunctionDef_node flask_both [] (Flask.new_visitor "a.py" "")
       = Ok v' /\
     Flask.endpoints v' = es /\
     map (fun e => PyStr (Flask.method e)) es = [PyStr "GET"; PyStr "POST"] /\
     Forall (fun e => Flask.path e = PyStr "/x" /\ Flask.line e = 2 /\
                      Flask.function e = "both") es)
  /\ Flask.visit_FunctionDef_node ArgumentSamples.flask_none_method []
                                  (Flask.new_visitor "a.py" "")
     = Raise AttributeError.
Proof.
  split.
  - exact (proj1 (flask_route_endpoints flask_both []
                    (Flask.new_visitor "a.py" "")
                    1 (Attribute (Name "app") "route") [Constant (PyStr "/x")]
                    [(Some "methods",
                      ListExpr [Constant (PyStr "get"); Constant (PyStr "post")])]
                    eq_refl) eq_refl).
  - exact (proj2 (flask_route_endpoints ArgumentSamples.flask_none_method []
                    (Flask.new_visitor "a.py" "")
                    1 (Attribute (Name "app") "route") [Constant (PyStr "/x")]
                    [(Some "methods",
                      ListExpr [Constant (PyStr "get"); Constant PyNone])]
                    eq_refl) eq_refl).
Defined.

(** ** Runs over several files *)

Lemma fastapi_file_alone a file_path src :
  FastAPI.a_endpoints (FastAPI._analyze_file a file_path src)
    = (FastAPI.a_endpoints a
       ++ FastAPI.a_endpoints
            (FastAPI._analyze_file FastAPI.new_analyzer file_path src))%list
  /\ FastAPI.a_stderr (FastAPI._analyze_file a file_path src)
     = (FastAPI.a_stderr a
        ++ FastAPI.a_stderr
             (FastAPI._analyze_file FastAPI.new_analyzer file_path src))%list.
Proof.
  destruct src as [|content|content body]; simpl;
    rewrite ?app_nil_r; auto.
  destruct (for_each FastAPI.visit body (FastAPI.new_visitor file_path content));
    simpl; rewrite ?app_nil_r; auto.
Qed.

Lemma flask_file_alone a file_path src :
  Flask.a_endpoints (Flask._analyze_file a file_path src)
    = (Flask.a_endpoints a
       ++ Flask.a_endpoints
            (Flask._analyze_file Flask.new_analyzer file_path src))%list
  /\ Flask.a_stderr (Flask._analyze_file a file_path src)
     = (Flask.a_stderr a
        ++ Flask.a_stderr
             (Flask._analyze_file Flask.new_analyzer file_path src))%list.
Proof.
  destruct src as [|content|content body]; simpl;
    rewrite ?app_nil_r; auto.
  destruct (for_each Flask.visit body (Flask.new_visitor file_path content));
    simpl; rewrite ?app_nil_r; auto.
Qed.

(** X11.  The files of a run do not influence one another: the endpoints
    and the warnings of a run are those each file gives when analysed
    alone, one file after the other in the order of the list. *)
Theorem analyze_file_by_file (files : list (string * source)) :
  FastAPI.a_endpoints (FastAPI.analyze files)
    = flat_map (fun f => FastAPI.a_endpoints (FastAPI.analyze [f])) files
  /\ FastAPI.a_stderr (FastAPI.analyze files)
     = flat_map (fun f => FastAPI.a_stderr (FastAPI.analyze [f])) files
  /\ Flask.a_endpoints (Flask.analyze files)
     = flat_map (fun f => Flask.a_endpoints (Flask.analyze [f])) files
  /\ Flask.a_stderr (Flask.analyze files)
     = flat_map (fun f => Flask.a_stderr (Flask.analyze [f])) files.
Proof.
  assert (FA : forall a,
             FastAPI.a_endpoints (FastAPI.analyze_from a files)
             = (FastAPI.a_endpoints a
                ++ flat_map (fun f => FastAPI.a_endpoints (FastAPI.analyze [f]))
                            files)%list
             /\ FastAPI.a_stderr (FastAPI.analyze_from a files)
                = (FastAPI.a_stderr a
                   ++ flat_map (fun f => FastAPI.a_stderr (FastAPI.analyze [f]))
                               files)%list).
  { induction files as [|[file_path src] files IH]; intros a; simpl.
    - now rewrite !app_nil_r.
    - destruct (IH (FastAPI._analyze_file a file_path src)) as [-> ->].
      destruct (fastapi_file_alone a file_path src) as [-> ->].
      now rewrite <- !app_assoc. }
  assert (FL : forall a,
             Flask.a_endpoints (Flask.analyze_from a files)
             = (Flask.a_endpoints a
                ++ flat_map (fun f => Flask.a_endpoints (Flask.analyze [f]))
                            files)%list
             /\ Flask.a_stderr (Flask.analyze_from a files)
                = (Flask.a_stderr a
                   ++ flat_map (fun f => Flask.a_stderr (Flask.analyze [f]))
                               files)%list).
  { clear FA. induction files as [|[file_path src] files IH]; intros a; simpl.
    - now rewrite !app_nil_r.
    - destruct (IH (Flask._analyze_file a file_path src)) as [-> ->].
      destruct (flask_file_alone a file_path src) as [-> ->].
      now rewrite <- !app_assoc. }
  destruct (FA FastAPI.new_analyzer) as [E1 E2].
  destruct (FL Flask.new_analyzer) as [E3 E4]. auto.
Qed.

(** X12.  Neither Python analyzer ever finds a schema: after any run the
    schemas of the analyzer are empty, and so is [components.schemas] of
    the document [main] builds. *)
Theorem no_component_schemas (files : list (string * source)) :
  FastAPI.a_schemas (FastAPI.analyze files) = []
  /\ match FastAPI.main files with
     | Ok doc => components_schemas doc = []
     | Raise _ => True
     end
  /\ Flask.a_schemas (Flask.analyze files) = []
  /\ match Flask.main files with
     | Ok doc => components_schemas doc = []
     | Raise _ => True
     end.
Proof.
  assert (FA : forall a, FastAPI.a_schemas (FastAPI.analyze_from a files)
                         = FastAPI.a_schemas a).
  { induction files as [|[file_path src] files IH]; intros a; simpl; auto.
    rewrite IH. apply fastapi_file_endpoints. }
  assert (FL : forall a, Flask.a_schemas (Flask.analyze_from a files)
                         = Flask.a_schemas a).
  { clear FA. induction files as [|[file_path src] files IH]; intros a;
      simpl; auto.
    rewrite IH. apply flask_file_endpoints. }
  split; [apply FA|]. split.
  - unfold FastAPI.main, FastAPI.generate_openapi. cbv zeta.
    destruct (for_each FastAPI.generate_step _ []); simpl; [apply FA|exact I].
  - split; [apply FL|].
    unfold Flask.main, Flask.generate_openapi. cbv zeta.
    destruct (for_each Flask.generate_step _ []); simpl; [apply FL|exact I].
Qed.

(** ** Flask placeholders *)

Lemma findall2_cons c s :
  findall2 Flask.path_param_re (String c s) =
  match Flask.path_param_at (String c s) with
  | Some (caps, rest) =>
      (group_or_empty 1 caps, group_or_empty 2 caps)
        :: findall2 Flask.path_param_re rest
  | None => findall2 Flask.path_param_re s
  end.
Proof.
  unfold findall2. rewrite scan_cons by apply path_param_nullable.
  rewrite path_param_at_match.
  destruct (Flask.path_param_at (String c s)) as [[caps rest]|]; reflexivity.
Qed.

Lemma nonempty_word_span w rest :
  all_chars is_word w = true -> head_not is_word rest ->
  span is_word (w ++ rest) = (w, rest).
Proof. apply span_run. Qed.

(** A placeholder with a converter, [<type:name>], at the start of a text. *)
Lemma path_param_at_typed t n rest :
  all_chars is_word t = true -> t <> "" ->
  all_chars is_word n = true -> n <> "" ->
  Flask.path_param_at ("<" ++ t ++ ":" ++ n ++ ">" ++ rest)
    = Some ([(2, n); (1, t)], rest).
Proof.
  intros Wt Nt Wn Nn. unfold Flask.path_param_at.
  change ("<" ++ t ++ ":" ++ n ++ ">" ++ rest)
    with (String "<" (t ++ String ":" (n ++ String ">" rest))).
  change (Ascii.eqb "<" "<") with true. cbv iota.
  rewrite (span_run _ _ _ Wt) by reflexivity.
  destruct t as [|x t]; [congruence|].
  change (Ascii.eqb ":" ":") with true. cbv iota.
  rewrite (span_run _ _ _ Wn) by reflexivity.
  change (Ascii.eqb ">" ">") with true. cbv iota.
  destruct n; [congruence|reflexivity].
Qed.

(** A placeholder without a converter, [<name>], at the start of a text. *)
Lemma path_param_at_untyped w rest :
  all_chars is_word w = true -> w <> "" ->
  Flask.path_param_at ("<" ++ w ++ ">" ++ rest) = Some ([(1, w)], rest).
Proof.
  intros Ww Nw. unfold Flask.path_param_at.
  change ("<" ++ w ++ ">" ++ rest) with (String "<" (w ++ String ">" rest)).
  change (Ascii.eqb "<" "<") with true. cbv iota.
  rewrite (span_run _ _ _ Ww) by reflexivity.
  destruct w as [|x w]; [congruence|].
  change (Ascii.eqb ">" ":") with false. cbv iota.
  change (Ascii.eqb ">" ">") with true. reflexivity.
Qed.

(** X13.  A placeholder [<type:name>] of a Flask path is replaced by
    [{name}] and gives the pair (type, name), hence a path parameter called
    [name] whose type is read from [type]; the rest of the path is treated
    in the same way. *)
Theorem flask_typed_placeholder (t n rest : string) :
  all_chars is_word t = true -> t <> "" ->
  all_chars is_word n = true -> n <> "" ->
  Flask.convert_path ("<" ++ t ++ ":" ++ n ++ ">" ++ rest)
    = "{" ++ n ++ "}" ++ Flask.convert_path rest
  /\ findall2 Flask.path_param_re ("<" ++ t ++ ":" ++ n ++ ">" ++ rest)
     = (t, n) :: findall2 Flask.path_param_re rest
  /\ Flask.path_parameter (t, n)
     = {| p_name := n; p_in := "path"; p_required := Some true;
          p_schema := simple (Flask._flask_type_to_openapi t) |}.
Proof.
  intros Wt Nt Wn Nn.
  pose proof (path_param_at_typed t n rest Wt Nt Wn Nn) as P.
  change ("<" ++ t ++ ":" ++ n ++ ">" ++ rest)
    with (String "<" (t ++ String ":" (n ++ String ">" rest))) in *.
  rewrite convert_path_cons, findall2_cons, P.
  split; [|split; [reflexivity|]].
  - unfold Flask.braces_group2. simpl. now rewrite append_assoc.
  - unfold Flask.path_parameter. destruct t; [congruence|reflexivity].
Qed.

(** [<int:item_id>/x] *)
Lemma flask_typed_placeholder_witness :
  Flask.convert_path ("<" ++ "int" ++ ":" ++ "item_id" ++ ">" ++ "/x")
    = "{" ++ "item_id" ++ "}" ++ Flask.convert_path "/x"
  /\ findall2 Flask.path_param_re ("<" ++ "int" ++ ":" ++ "item_id" ++ ">" ++ "/x")
     = ("int", "item_id") :: findall2 Flask.path_param_re "/x"
  /\ Flask.path_parameter ("int", "item_id")
     = {| p_name := "item_id"; p_in := "path"; p_required := Some true;
          p_schema := simple (Flask._flask_type_to_openapi "int") |}.
Proof.
  apply (flask_typed_placeholder "int" "item_id" "/x");
    solve [reflexivity | discriminate].
Defined.

(** X14.  A placeholder without a converter, [<name>], is read with [name]
    in the place of the type: it is replaced by [{}] and gives the pair
    (name, empty), hence a path parameter whose name is empty. *)
Theorem flask_untyped_placeholder (w rest : string) :
  all_chars is_word w = true -> w <> "" ->
  Flask.convert_path ("<" ++ w ++ ">" ++ rest) = "{}" ++ Flask.convert_path rest
  /\ findall2 Flask.path_param_re ("<" ++ w ++ ">" ++ rest)
     = (w, "") :: findall2 Flask.path_param_re rest
  /\ p_name (Flask.path_parameter (w, "")) = "".
Proof.
  intros Ww Nw.
  pose proof (path_param_at_untyped w rest Ww Nw) as P.
  change ("<" ++ w ++ ">" ++ rest) with (String "<" (w ++ String ">" rest)) in *.
  rewrite convert_path_cons, findall2_cons, P.
  split; [reflexivity|]. split; reflexivity.
Qed.

(** [<name>/x] *)
Lemma flask_untyped_placeholder_witness :
  Flask.convert_path ("<" ++ "name" ++ ">" ++ "/x") = "{}" ++ Flask.convert_path "/x"
  /\ findall2 Flask.path_param_re ("<" ++ "name" ++ ">" ++ "/x")
     = ("name", "") :: findall2 Flask.path_param_re "/x"
  /\ p_name (Flask.path_parameter ("name", "")) = "".
Proof.
  apply (flask_untyped_placeholder "name" "/x");
    solve [reflexivity | discriminate].
Defined.

Lemma no_angle_no_placeholder p :
  contains "<" p = false ->
  Flask.convert_path p = p /\ findall2 Flask.path_param_re p = [].
Proof.
  induction p as [|c p IH]; intros H; [split; reflexivity|].
  change (Ascii.eqb "<" c && true || contains "<" p = false) in H.
  apply orb_false_iff in H as [Hc Hp]. rewrite andb_true_r in Hc.
  rewrite Ascii.eqb_sym in Hc.
  rewrite convert_path_cons, findall2_cons, (param_at_head _ _ Hc).
  destruct (IH Hp) as [-> ->]. split; reflexivity.
Qed.

(** X15.  A path without [<] - such as one already in the brace form - is
    left as it is by the conversion, has no placeholder, and its operation
    gets no [parameters]. *)
Theorem flask_path_without_placeholder (p : string) (e : Flask.endpoint) :
  contains "<" p = false ->
  Flask.convert_path p = p
  /\ findall2 Flask.path_param_re p = []
  /\ Flask.op_parameters (Flask.operation_of p e) = None.
Proof.
  intros H. destruct (no_angle_no_placeholder p H) as [C F].
  split; [exact C|]. split; [exact F|].
  unfold Flask.operation_of. simpl. now rewrite F.
Qed.

(** [/users/{id}] *)
Lemma flask_path_without_placeholder_witness :
  Flask.convert_path "/users/{id}" = "/users/{id}"
  /\ findall2 Flask.path_param_re "/users/{id}" = []
  /\ Flask.op_parameters
       (Flask.operation_of "/users/{id}" (route_endpoint "/users/{id}")) = None.
Proof.
  exact (flask_path_without_placeholder "/users/{id}"
           (route_endpoint "/users/{id}") eq_refl).
Defined.

Lemma findall2_none s :
  (forall a b, s = a ++ b -> Flask.path_param_at b = None) ->
  findall2 Flask.path_param_re s = [].
Proof.
  induction s as [|c s IH]; intros H; [reflexivity|].
  rewrite findall2_cons, (H "" (String c s) eq_refl). apply IH.
  intros a b ->. apply (H (String c a) b). reflexivity.
Qed.

(** X16.  A converted path has no Flask placeholder left in it. *)
Theorem flask_converted_path_clean (p : string) :
  findall2 Flask.path_param_re (Flask.convert_path p) = [].
Proof. apply findall2_none. apply convert_no_placeholder. Qed.

Lemma flask_type_in_table t :
  In (Flask._flask_type_to_openapi t) ["string"; "integer"; "number"].
Proof.
  unfold Flask._flask_type_to_openapi, Flask.type_map, dict_get.
  repeat match goal with
         | |- context [String.eqb ?a ?b] => destruct (String.eqb a b)
         end; simpl; auto.
Qed.

(** X17.  The [parameters] of a Flask operation, when there are any, are
    one for each placeholder of the path, all with [in = path] and
    [required = true] and with the type [string], [integer] or [number];
    without a placeholder the key is absent. *)
Theorem flask_operation_parameters (p : string) (e : Flask.endpoint) :
  match Flask.op_parameters (Flask.operation_of p e) with
  | Some ps =>
      ps <> [] /\
      List.length ps = List.length (findall2 Flask.path_param_re p) /\
      Forall (fun prm =>
                p_in prm = "path" /\ p_required prm = Some true /\
                In (schema_type (p_schema prm))
                   ["string"; "integer"; "number"]) ps
  | None => findall2 Flask.path_param_re p = []
  end.
Proof.
  unfold Flask.operation_of. simpl.
  destruct (findall2 Flask.path_param_re p) as [|tn tns]; [reflexivity|].
  split; [discriminate|]. split; [now rewrite length_map|].
  apply Forall_forall. intros prm I. apply in_map_iff in I as ([t n] & <- & _).
  unfold Flask.path_parameter. simpl. split; [reflexivity|].
  split; [reflexivity|].
  destruct (String.eqb t ""); [simpl; auto|apply flask_type_in_table].
Qed.

(** ** The Spring analyzer *)

Import Patterns.

(** A pattern without groups hands on the groups it was given. *)
Lemma exec_groupless {A} (r : regex) :
  groupless r = true ->
  forall s caps (k : string -> captures -> option A) x,
    exec r s caps k = Some x -> exists rest, k rest caps = Some x.
Proof.
  induction r as [|p|r1 IH1 r2 IH2|r1 IH1 r2 IH2|r1 IH1|p|p|n r1 IH1];
    simpl; intros G s caps k x H; try discriminate.
  - eauto.
  - destruct s as [|c s]; [discriminate|]. destruct (p c); [eauto|discriminate].
  - apply andb_prop in G as [G1 G2].
    apply (IH1 G1) in H as [s1 H]. now apply (IH2 G2) in H.
  - apply andb_prop in G as [G1 G2].
    destruct (exec r1 s caps k) as [y|] eqn:E1.
    + inversion H; subst. now apply (IH1 G1) in E1.
    + now apply (IH2 G2) in H.
  - destruct (exec r1 s caps k) as [y|] eqn:E1.
    + inversion H; subst. now apply (IH1 G) in E1.
    + eauto.
  - apply star_run_some in H as (a & b & _ & _ & H). eauto.
  - destruct s as [|c s]; [discriminate|]. destruct (p c); [|discriminate].
    apply star_run_some in H as (a & b & _ & _ & H). eauto.
Qed.

(** A literal word matches the texts that begin with it. *)
Lemma exec_lit {A} w : forall s caps (k : string -> captures -> option A) x,
  exec (lit w) s caps k = Some x ->
  exists rest, s = w ++ rest /\ k rest caps = Some x.
Proof.
  induction w as [|c w IH]; simpl; intros s caps k x H; [eauto|].
  destruct s as [|d s]; [discriminate|].
  destruct (Ascii.eqb_spec c d) as [->|]; [|discriminate].
  apply IH in H as (rest & -> & H). eauto.
Qed.

(** An alternative of literal words matches with one of the words. *)
Lemma exec_alt_lit {A} ws : forall s caps (k : string -> captures -> option A) x,
  exec (alt (map lit ws)) s caps k = Some x ->
  exists w rest, In w ws /\ s = w ++ rest /\ k rest caps = Some x.
Proof.
  induction ws as [|w ws IH]; intros s caps k x H.
  { destruct s; discriminate. }
  destruct ws as [|w' ws].
  - apply exec_lit in H as (rest & -> & H). exists w, rest. simpl. auto.
  - change (alt (map lit (w :: w' :: ws)))
      with (Alt (lit w) (alt (map lit (w' :: ws)))) in H.
    simpl exec in H.
    destruct (exec (lit w) s caps k) as [y|] eqn:E.
    + inversion H; subst. apply exec_lit in E as (rest & -> & E).
      exists w, rest. simpl. auto.
    + apply IH in H as (w0 & rest & I & -> & H). exists w0, rest.
      split; [right; exact I|auto].
Qed.

Lemma search_some r s m :
  search r s = Some m -> exists a b, s = a ++ b /\ re_match r b = Some m.
Proof.
  induction s as [|c s IH]; simpl.
  - destruct (re_match r "") eqn:E; [|discriminate].
    intros H. inversion H; subst. exists "", "". auto.
  - destruct (re_match r (String c s)) eqn:E.
    + intros H. inversion H; subst. exists "", (String c s). auto.
    + intros H. apply IH in H as (a & b & -> & H). exists (String c a), b. auto.
Qed.

(** The verb of a mapping annotation is one of the six of the pattern. *)
Lemma mapping_verb line caps rest :
  search Spring.mapping_re line = Some (caps, rest) ->
  In (group_or_empty 1 caps) ["Get"; "Post"; "Put"; "Delete"; "Patch"; "Request"].
Proof.
  intros H. apply search_some in H as (a & b & _ & H).
  unfold re_match, Spring.mapping_re in H.
  change (seq [chr "@";
               Group 1 (alt [lit "Get"; lit "Post"; lit "Put"; lit "Delete";
                             lit "Patch"; lit "Request"]);
               lit "Mapping"; Opt (chr "(")])
    with (Seq (chr "@")
              (Seq (Group 1 (alt (map lit ["Get"; "Post"; "Put"; "Delete";
                                           "Patch"; "Request"])))
                   (Seq (lit "Mapping") (Opt (chr "("))))) in H.
  cbn [exec chr] in H.
  destruct b as [|c b]; [discriminate|].
  destruct (Ascii.eqb "@" c); [|discriminate].
  apply exec_alt_lit in H as (w & after & I & -> & H).
  rewrite consumed_append in H.
  apply (exec_groupless (Seq (lit "Mapping") (Opt (chr "("))) eq_refl) in H
    as [r H].
  inversion H; subst. simpl. exact I.
Qed.

Lemma endpoint_annotation_fields lines i verb file_path class_level e :
  Spring._parse_endpoint_annotation lines i verb file_path class_level = Ok e ->
  Spring.method e = (if String.eqb (upper verb) "REQUEST" then "GET"
                     else upper verb)
  /\ Spring.file e = file_path
  /\ Spring.line e = i + 1
  /\ Forall (fun prm => p_in prm = "query" /\ p_required prm = None)
            (Spring.parameters e).
Proof.
  unfold Spring._parse_endpoint_annotation.
  destruct (Spring.find_signature 10 (skipn i lines)) as [sig|];
    [|discriminate].
  simpl. intros H. inversion H; subst; clear H. simpl.
  repeat split. apply Forall_forall. intros prm I.
  apply in_map_iff in I as (jp & <- & _). auto.
Qed.

Lemma scan_lines_facts all_lines file_path class_level todo : forall i es err,
  Spring.scan_lines all_lines file_path class_level i todo = (es, err) ->
  Forall (fun e =>
            In (Spring.method e) ["GET"; "POST"; "PUT"; "DELETE"; "PATCH"] /\
            Spring.file e = file_path /\
            i < Spring.line e <= i + List.length todo /\
            Forall (fun prm => p_in prm = "query" /\ p_required prm = None)
                   (Spring.parameters e)) es
  /\ StronglySorted lt (map Spring.line es).
Proof.
  induction todo as [|line todo IH]; simpl; intros i es err H.
  - inversion H. split; constructor.
  - destruct (search Spring.mapping_re line) as [[caps rest]|] eqn:M.
    + destruct (Spring._parse_endpoint_annotation all_lines i
                  (group_or_empty 1 caps) file_path class_level)
        as [e|x] eqn:P.
      * destruct (Spring.scan_lines all_lines file_path class_level (S i) todo)
          as [es0 err0] eqn:R.
        inversion H; subst; clear H.
        destruct (IH _ _ _ R) as [F S].
        apply endpoint_annotation_fields in P as (Hm & Hf & Hl & Hp).
        split.
        -- constructor.
           ++ split; [|split; [assumption|split; [lia|assumption]]].
              rewrite Hm. apply mapping_verb in M.
              simpl in M.
              repeat (destruct M as [<-|M]; [vm_compute; auto 10|]).
              contradiction.
           ++ eapply Forall_impl; [|exact F]. simpl.
              intros e0 (A & B & C & D). repeat split; auto; lia.
        -- simpl. constructor; [assumption|].
           rewrite Forall_map. eapply Forall_impl; [|exact F]. simpl.
           intros e0 (_ & _ & C & _). lia.
      * inversion H. split; constructor.
    + destruct (IH _ _ _ H) as [F S]. split; [|assumption].
      eapply Forall_impl; [|exact F]. simpl.
      intros e0 (A & B & C & D). repeat split; auto; lia.
Qed.

(** X18.  The endpoints [_parse_java_file] finds, also when it stops on an
    exception, have as method one of GET, POST, PUT, DELETE and PATCH, carry
    the path of the file and a line number between 1 and the number of
    lines, come in the order of their lines, at most one for a line, and
    all their parameters are query parameters without a [required] key. *)
Theorem spring_file_endpoints (file_path content : string) :
  let es := fst (Spring._parse_java_file file_path content) in
  Forall (fun e =>
            In (Spring.method e) ["GET"; "POST"; "PUT"; "DELETE"; "PATCH"] /\
            Spring.file e = file_path /\
            1 <= Spring.line e <= List.length (split_char "010" content) /\
            Forall (fun prm => p_in prm = "query" /\ p_required prm = None)
                   (Spring.parameters e)) es
  /\ StronglySorted lt (map Spring.line es).
Proof.
  unfold Spring._parse_java_file. cbv zeta.
  destruct (Spring.scan_lines (split_char "010" content) file_path
              (Spring._extract_class_annotations content) 0
              (split_char "010" content)) as [es err] eqn:R.
  destruct (scan_lines_facts _ _ _ _ _ _ _ R) as [F S]. simpl.
  split; [|assumption].
  eapply Forall_impl; [|exact F]. simpl.
  intros e (A & B & C & D). repeat split; auto; lia.
Qed.

Lemma find_signature_none n : forall lines,
  existsb has_visibility (firstn n lines) = false ->
  Spring.find_signature n lines = None.
Proof.
  induction n as [|n IH]; intros [|l lines]; try reflexivity.
  change (has_visibility l || existsb has_visibility (firstn n lines) = false
          -> (if has_visibility l
              then Some (Spring._parse_method_signature (l :: lines))
              else Spring.find_signature n lines) = None).
  intros H. apply orb_false_elim in H as [-> H]. auto.
Qed.

Lemma find_signature_some n : forall lines,
  existsb has_visibility (firstn n lines) = true ->
  exists sig, Spring.find_signature n lines = Some sig.
Proof.
  induction n as [|n IH]; intros [|l lines]; try discriminate.
  change (has_visibility l || existsb has_visibility (firstn n lines) = true
          -> exists sig,
               (if has_visibility l
                then Some (Spring._parse_method_signature (l :: lines))
                else Spring.find_signature n lines) = Some sig).
  destruct (has_visibility l); [eauto|]. apply IH.
Qed.

(** X19.  [_parse_endpoint_annotation] returns an endpoint when one of the
    ten lines from the annotation on (fewer at the end of the file) has
    [public], [private] or [protected] in it, and raises [AttributeError]
    when none has. *)
Theorem spring_annotation_outcome (lines : list string) (start_line : nat)
        (method_type file_path : string)
        (class_level : Spring.class_annotations) :
  if existsb has_visibility (firstn 10 (skipn start_line lines))
  then exists e,
         Spring._parse_endpoint_annotation lines start_line method_type
                                           file_path class_level = Ok e
  else Spring._parse_endpoint_annotation lines start_line method_type
                                         file_path class_level
       = Raise AttributeError.
Proof.
  destruct (existsb has_visibility (firstn 10 (skipn start_line lines))) eqn:E.
  - apply find_signature_some in E as [sig E].
    unfold Spring._parse_endpoint_annotation. rewrite E. simpl. eauto.
  - apply find_signature_none in E.
    unfold Spring._parse_endpoint_annotation. now rewrite E.
Qed.

Lemma scan_lines_stops all_lines file_path class_level todo :
  forall i k l es err,
    nth_error todo k = Some l ->
    search Spring.mapping_re l <> None ->
    existsb has_visibility (firstn 10 (skipn (i + k) all_lines)) = false ->
    Spring.scan_lines all_lines file_path class_level i todo = (es, err) ->
    err = Some AttributeError
    /\ Forall (fun e => Spring.line e <= i + k) es.
Proof.
  induction todo as [|line todo IH]; intros i k l es err N M V H.
  { destruct k; discriminate. }
  simpl in H.
  destruct k as [|k].
  - simpl in N. inversion N; subst line; clear N.
    destruct (search Spring.mapping_re l) as [[caps rest]|]; [|congruence].
    rewrite Nat.add_0_r in V. apply find_signature_none in V.
    unfold Spring._parse_endpoint_annotation in H. rewrite V in H.
    simpl in H. inversion H. auto.
  - simpl in N.
    assert (V' : existsb has_visibility
                   (firstn 10 (skipn (S i + k) all_lines)) = false).
    { now replace (S i + k) with (i + S k) by lia. }
    destruct (search Spring.mapping_re line) as [[caps rest]|].
    + destruct (Spring._parse_endpoint_annotation all_lines i
                  (group_or_empty 1 caps) file_path class_level)
        as [e|x] eqn:P.
      * destruct (Spring.scan_lines all_lines file_path class_level (S i) todo)
          as [es0 err0] eqn:R.
        inversion H; subst; clear H.
        destruct (IH _ _ _ _ _ N M V' R) as [-> F].
        apply endpoint_annotation_fields in P as (_ & _ & Hl & _).
        split; [reflexivity|]. constructor; [lia|].
        eapply Forall_impl; [|exact F]. simpl. intros; lia.
      * inversion H; subst; clear H. split; [|constructor].
        unfold Spring._parse_endpoint_annotation in P.
        destruct (Spring.find_signature 10 (skipn i all_lines));
          simpl in P; [discriminate|]. congruence.
    + destruct (IH _ _ _ _ _ N M V' H) as [-> F].
      split; [reflexivity|].
      eapply Forall_impl; [|exact F]. simpl. intros; lia.
Qed.

(** X20.  A mapping annotation on line [i + 1] of a file with none of
    [public], [private] and [protected] in the ten lines from it on ends
    [_parse_java_file] with [AttributeError]: the endpoints kept are from
    the lines before it, whatever annotations follow. *)
Theorem spring_annotation_without_declaration
        (file_path content : string) (i : nat) (l : string) :
  nth_error (split_char "010" content) i = Some l ->
  search Spring.mapping_re l <> None ->
  existsb has_visibility (firstn 10 (skipn i (split_char "010" content)))
  = false ->
  snd (Spring._parse_java_file file_path content) = Some AttributeError
  /\ Forall (fun e => Spring.line e <= i)
            (fst (Spring._parse_java_file file_path content)).
Proof.
  intros N M V. unfold Spring._parse_java_file. cbv zeta.
  destruct (Spring.scan_lines (split_char "010" content) file_path
              (Spring._extract_class_annotations content) 0
              (split_char "010" content)) as [es err] eqn:R.
  exact (scan_lines_stops _ _ _ _ 0 i l es err N M V R).
Qed.

Lemma spring_annotation_without_declaration_witness :
  snd (Spring._parse_java_file "A.java" "@GetMapping") = Some AttributeError
  /\ Forall (fun e => Spring.line e <= 0)
            (fst (Spring._parse_java_file "A.java" "@GetMapping")).
Proof.
  apply (spring_annotation_without_declaration "A.java" "@GetMapping" 0
                                               "@GetMapping").
  - reflexivity.
  - vm_compute. discriminate.
  - vm_compute. reflexivity.
Defined.

Lemma contains_char_mid (c : ascii) base rest :
  contains (String c "") (base ++ String c rest) = true.
Proof.
  induction base as [|d base IH].
  - change (Ascii.eqb c c && true || contains (String c "") rest = true).
    now rewrite Ascii.eqb_refl.
  - change (startswith (String c "") (String d (base ++ String c rest))
            || contains (String c "") (base ++ String c rest) = true).
    rewrite IH. apply orb_true_r.
Qed.

Lemma split_char_first (c : ascii) base : forall rest,
  contains (String c "") base = false ->
  hd "" (split_char c (base ++ String c rest)) = base.
Proof.
  induction base as [|d base IH]; intros rest C.
  - change (hd "" (if Ascii.eqb c c then "" :: split_char c rest
                   else match split_char c rest with
                        | [] => [String c ""]
                        | w :: ws => String c w :: ws
                        end) = "").
    now rewrite Ascii.eqb_refl.
  - change ((Ascii.eqb c d && true)
            || contains (String c "") base = false) in C.
    apply orb_false_elim in C as [C1 C2].
    rewrite andb_true_r in C1.
    change (hd "" (if Ascii.eqb d c
                   then "" :: split_char c (base ++ String c rest)
                   else match split_char c (base ++ String c rest) with
                        | [] => [String d ""]
                        | w :: ws => String d w :: ws
                        end) = String d base).
    rewrite Ascii.eqb_sym, C1. specialize (IH rest C2).
    destruct (split_char c (base ++ String c rest)); simpl in *; congruence.
Qed.

Lemma type_map_get_types k : In (Spring.type_map_get k) java_openapi_types.
Proof.
  unfold Spring.type_map_get, Spring.type_map. cbn [dict_get].
  repeat match goal with
         | |- context [String.eqb k ?b] =>
             destruct (String.eqb k b); [simpl; auto 10|]
         end.
  simpl; auto 10.
Qed.

(** X21.  [_java_type_to_openapi] gives one of seven names, [object] for a
    type it does not know, and maps a generic type [base<...>] as it maps
    [base], whatever the type arguments are. *)
Theorem java_generic_type (base args : string) :
  contains "<" base = false ->
  Spring._java_type_to_openapi (base ++ "<" ++ args)
  = Spring._java_type_to_openapi base
  /\ In (Spring._java_type_to_openapi base) java_openapi_types
  /\ (dict_get base Spring.type_map = None ->
      Spring._java_type_to_openapi base = "object").
Proof.
  intros C. unfold Spring._java_type_to_openapi.
  change (base ++ "<" ++ args) with (base ++ String "<" args).
  rewrite contains_char_mid, C, (split_char_first "<" base args C).
  split; [reflexivity|]. split; [apply type_map_get_types|].
  unfold Spring.type_map_get. now intros ->.
Qed.

Lemma java_generic_type_witness :
  Spring._java_type_to_openapi ("List" ++ "<" ++ "Widget>")
  = Spring._java_type_to_openapi "List"
  /\ In (Spring._java_type_to_openapi "List") java_openapi_types
  /\ (dict_get "List" Spring.type_map = None ->
      Spring._java_type_to_openapi "List" = "object").
Proof.
  apply (java_generic_type "List" "Widget>"). reflexivity.
Defined.

(** ** Finding the files *)

Import Files.

Lemma dir_nested_ind (P : dir -> Prop) :
  (forall subdirs filenames,
      Forall (fun nd => P (snd nd)) subdirs -> P (Dir subdirs filenames)) ->
  forall d, P d.
Proof.
  intros H.
  refine (fix go (d : dir) : P d :=
            match d with
            | Dir subdirs filenames =>
                H subdirs filenames
                  ((fix all (ds : list (string * dir))
                     : Forall (fun nd => P (snd nd)) ds :=
                      match ds with
                      | [] => Forall_nil _
                      | nd :: ds' => Forall_cons nd (go (snd nd)) (all ds')
                      end) subdirs)
            end).
Qed.

Lemma endswith_append suffix a : forall b,
  endswith suffix b = true -> endswith suffix (a ++ b) = true.
Proof.
  induction a as [|c a IH]; intros b H; [exact H|].
  change (String.eqb suffix (String c (a ++ b)) || endswith suffix (a ++ b)
          = true).
  rewrite (IH b H). apply orb_true_r.
Qed.

Lemma endswith_path_join suffix root name :
  endswith suffix name = true -> endswith suffix (path_join root name) = true.
Proof.
  intros H. unfold path_join.
  destruct (startswith "/" name); [exact H|].
  destruct (String.eqb root "" || endswith "/" root).
  - now apply endswith_append.
  - apply endswith_append. now apply (endswith_append suffix "/").
Qed.

Lemma walk_extensions (ignore_dirs extensions : list string) (tree : dir) :
  forall directory f,
    In f (walk ignore_dirs extensions directory tree) ->
    existsb (fun ext => endswith ext f) extensions = true.
Proof.
  induction tree as [subdirs filenames IH] using dir_nested_ind.
  intros directory f I. simpl in I. apply in_app_or in I as [I|I].
  - apply in_map_iff in I as (name & <- & I).
    apply filter_In in I as [_ I].
    apply existsb_exists in I as (ext & E & I).
    apply existsb_exists. exists ext. split; [exact E|].
    now apply endswith_path_join.
  - induction IH as [|[name sub] subdirs Hsub _ IHs]; [contradiction|].
    apply in_app_or in I as [I|I]; [|exact (IHs I)].
    destruct (str_in name ignore_dirs); [contradiction|].
    exact (Hsub _ _ I).
Qed.

Lemma walk_prunes (ignore_dirs extensions : list string) (tree : dir) :
  forall directory,
    walk ignore_dirs extensions directory tree
    = walk [] extensions directory (prune ignore_dirs tree).
Proof.
  induction tree as [subdirs filenames IH] using dir_nested_ind.
  intros directory. simpl. f_equal.
  induction IH as [|[name sub] subdirs Hsub _ IHs]; [reflexivity|].
  destruct (str_in name ignore_dirs) eqn:E.
  - simpl. exact IHs.
  - simpl. rewrite IHs. f_equal. apply Hsub.
Qed.

(** X22.  Every path [_find_files] returns, in the Python analyzers and in
    the Spring one, ends with one of the extensions asked for. *)
Theorem find_files_extensions (extensions : list string) (tree : dir)
        (directory f : string) :
  In f (python_find_files directory extensions tree)
  \/ In f (java_find_files directory extensions tree) ->
  existsb (fun ext => endswith ext f) extensions = true.
Proof.
  intros [I|I]; exact (walk_extensions _ _ _ _ _ I).
Qed.

Lemma find_files_extensions_witness :
  In "app/main.py"
     (python_find_files "app" [".py"]
        (Dir [("venv", Dir [] ["site.py"])] ["main.py"; "notes.txt"]))
  /\ existsb (fun ext => endswith ext "app/main.py") [".py"] = true.
Proof.
  assert (I : In "app/main.py"
                 (python_find_files "app" [".py"]
                    (Dir [("venv", Dir [] ["site.py"])]
                         ["main.py"; "notes.txt"]))).
  { vm_compute. auto. }
  split; [exact I|].
  exact (find_files_extensions [".py"]
           (Dir [("venv", Dir [] ["site.py"])] ["main.py"; "notes.txt"])
           "app" "app/main.py" (or_introl I)).
Defined.

(** X23.  [_find_files] returns what a walk that ignores nothing returns on
    the tree without the sub-directories named in the ignore set, at any
    depth: what such a directory holds has no influence, and the name of
    the directory the walk starts from is not looked at. *)
Theorem find_files_prunes (extensions : list string) (tree : dir)
        (directory : string) :
  python_find_files directory extensions tree
  = walk [] extensions directory (prune python_ignore_dirs tree)
  /\ java_find_files directory extensions tree
     = walk [] extensions directory (prune java_ignore_dirs tree).
Proof.
  split; apply walk_prunes.
Qed.
